(** * GPX response translator (gpxresp.c): a shallow embedding

    The file follows [src/gpx/gpxresp.c] top to bottom: the string table
    ([sttb_*]), the translation buffer ([tio_vprintf]), the session reset
    functions, the reply translator ([translate_handler]), the result
    callback ([translate_result]), the finalizer ([gpx_return_translation]),
    the write entry points, the baud conversion and the body of the daemon
    loop.  Theorems come after the definitions.

    What [gpx.h] declares (sizes, masks, error codes, the layout of the
    bit-fields) is not fixed here: it is the [Header] record, and every
    function takes it as a parameter.  Code that lives in other files of GPX
    (the gcode parser, the packet codec, the serial layer) enters as section
    variables. *)

From Stdlib Require Import ZArith Lia Ascii String Bool.
From stdpp Require Import base list strings.

Local Open Scope Z_scope.

(** ** C strings and bytes *)

Definition NUL : ascii := Ascii.zero.
Definition LF : ascii := ascii_of_nat 10.

(** The one-character string holding a newline, the C escape of the source. *)
Definition nl : string := String LF EmptyString.

Definition chars (s : string) : list ascii := list_ascii_of_string s.

Definition strlen (s : string) : Z := Z.of_nat (String.length s).

(** [tolower] of the C locale, on one character. *)
Definition tolower (c : ascii) : ascii :=
  let n := nat_of_ascii c in
  if (65 <=? n)%nat && (n <=? 90)%nat then ascii_of_nat (n + 32) else c.

(** [strcasecmp(a, b) == 0]: both strings end together and agree, character
    by character, after [tolower]. *)
Fixpoint strcasecmp_eq (a b : string) : bool :=
  match a, b with
  | EmptyString, EmptyString => true
  | String x a', String y b' =>
      if Ascii.eqb (tolower x) (tolower y) then strcasecmp_eq a' b' else false
  | _, _ => false
  end.

(** ** The allocator

    [malloc], [realloc] and [strdup] may fail.  Each function that allocates
    takes the outcome of the calls it makes; none of them calls the same
    allocator twice. *)
Record Heap := {
  malloc_ok : bool;
  realloc_ok : bool;
  strdup_ok : bool
}.

Definition heap_fine : Heap :=
  {| malloc_ok := true; realloc_ok := true; strdup_ok := true |}.

(** ** The string table

    [rgs] is the array of string pointers: [None] when the pointer is NULL,
    otherwise the slots of the allocated block.  A slot holds [Some s] once a
    string was stored in it and [None] while it is uninitialised.  [cb] and
    [cb_expand] are sizes in bytes ([size_t]), [cs] is the count ([long]). *)
Record Sttb := {
  rgs : option (list (option string));
  cb : Z;
  cb_expand : Z;
  cs : Z
}.

Section StringTable.

(** [sizeof(char * )] and the number of bits of [size_t]. *)
Variable ptr_size : Z.
Variable size_bits : Z.

Definition to_size_t (n : Z) : Z := n mod 2 ^ size_bits.

(** The number of pointer slots of a block of [n] bytes. *)
Definition slots_of (n : Z) : nat := Z.to_nat (n / ptr_size).

(** [realloc(p, n)]: the old slots that still fit, then uninitialised ones. *)
Definition realloc_slots (old : list (option string)) (n : Z)
  : list (option string) :=
  take (slots_of n) old ++ replicate (slots_of n - length old)%nat None.

Definition sttb_init (mem : Heap) (psttb : Sttb) (cs_chunk : Z) : bool * Sttb :=
  let cb0 := to_size_t (to_size_t cs_chunk * ptr_size) in
  if malloc_ok mem then
    (true,
     {| rgs := Some (replicate (slots_of cb0) None);
        cb := cb0; cb_expand := cb0; cs := 0 |})
  else
    (false,
     {| rgs := None; cb := cb psttb; cb_expand := cb_expand psttb; cs := 0 |}).

Definition sttb_cleanup (psttb : Sttb) : Sttb :=
  match rgs psttb with
  | None => psttb
  | Some _ => {| rgs := None; cb := 0; cb_expand := 0; cs := 0 |}
  end.

(** [sttb_add] returns the stored copy, or [None] for NULL. *)
Definition sttb_add (mem : Heap) (psttb : Sttb) (s : string)
  : option string * Sttb :=
  match rgs psttb with
  | None => (None, psttb)
  | Some slots =>
      let cb_needed := to_size_t (ptr_size * to_size_t (cs psttb + 1)) in
      let grown : option Sttb :=
        if cb psttb <? cb_needed then
          let cb_needed' :=
            if cb_needed <? to_size_t (cb psttb + cb_expand psttb)
            then to_size_t (cb psttb + cb_expand psttb) else cb_needed in
          if realloc_ok mem then
            Some {| rgs := Some (realloc_slots slots cb_needed');
                    cb := cb_needed';
                    cb_expand := cb_expand psttb; cs := cs psttb |}
          else None
        else Some psttb in
      match grown with
      | None => (None, psttb)
      | Some p1 =>
          if strdup_ok mem then
            (Some s,
             {| rgs := (fun sl => <[Z.to_nat (cs p1) := Some s]> sl) <$> rgs p1;
                cb := cb p1; cb_expand := cb_expand p1; cs := cs p1 + 1 |})
          else (None, p1)
      end
  end.

(** The string in slot [i], as [psttb->rgs[i]] reads it. *)
Definition sttb_get (psttb : Sttb) (i : Z) : option string :=
  match rgs psttb with
  | Some slots => if 0 <=? i then mjoin (slots !! Z.to_nat i) else None
  | None => None
  end.

(** The loop of [sttb_find_nocase], from index [i] on, [n] slots left. *)
Fixpoint find_from (psttb : Sttb) (s : string) (i : Z) (n : nat) : Z :=
  match n with
  | O => -1
  | S n' =>
      match sttb_get psttb i with
      | Some e => if strcasecmp_eq s e then i else find_from psttb s (i + 1) n'
      | None => find_from psttb s (i + 1) n'
      end
  end.

Definition sttb_find_nocase (psttb : Sttb) (s : string) : Z :=
  find_from psttb s 0 (Z.to_nat (cs psttb)).

End StringTable.

(** ** What gpx.h declares *)

(** The members of the bit-field [waitflag].  In [Tio] it shares its storage
    with the word [waiting] (an anonymous union): the source reads
    [tio->waiting] as "some wait flag is set" and never stores anything but
    0 into it. *)
Inductive WaitFlag :=
| waitForEmptyQueue | waitForExtruderA | waitForExtruderB | waitForPlatform
| waitForButton | waitForStart | waitForBuffer | waitForBotCancel
| waitForUnpause | waitForCancelSync.

Definition all_wait_flags : list WaitFlag :=
  [waitForEmptyQueue; waitForExtruderA; waitForExtruderB; waitForPlatform;
   waitForButton; waitForStart; waitForBuffer; waitForBotCancel;
   waitForUnpause; waitForCancelSync].

(** The members of [response.motherboard.flag] the translator looks at. *)
Inductive MbFlag := buildCancelling | heatShutdown | powerError.

Class Header := {
  (** capacity of the line buffers; [translation] has [BUFFER_MAX + 1] bytes *)
  BUFFER_MAX : Z;
  EOL : string;
  (** [sizeof(char * )] and the width of [size_t] *)
  ptr_size : Z;
  size_bits : Z;
  (** whether plain [char] is a signed type on the platform *)
  char_is_signed : bool;
  (** return codes *)
  SUCCESS : Z;
  END_OF_FILE : Z;
  EOSERROR : Z;
  ERROR : Z;
  ESIOWRITE : Z;
  ESIOREAD : Z;
  ESIOFRAME : Z;
  ESIOCRC : Z;
  ESIOTIMEOUT : Z;
  ESIOBADBAUD : Z;
  (** program states *)
  READY_STATE : Z;
  RUNNING_STATE : Z;
  (** masks of [command.flag] and [axis.positionKnown] *)
  M_IS_SET : Z;
  ARG_IS_SET : Z;
  X_IS_SET : Z;
  Y_IS_SET : Z;
  Z_IS_SET : Z;
  A_IS_SET : Z;
  B_IS_SET : Z;
  (** position of each bit-field member inside its word *)
  wbit : WaitFlag -> Z;
  mbbit : MbFlag -> Z;
  (** whether <termios.h> defines B14400 and B28800 *)
  has_B14400 : bool;
  has_B28800 : bool;
  (** the C type [double], division of a step count by steps-per-mm, and
      the output of the conversion [%0.2f] *)
  double : Type;
  dzero : double;
  steps_div : Z -> double -> double;
  fmt_0_2f : double -> string
}.

(** What a C compiler demands of these declarations: the bit-field members
    of [waitflag] occupy distinct bits of the 32-bit word, and the labels of
    the [switch] in [gpx_return_translation] are pairwise distinct. *)
Definition distinctb (l : list Z) : bool := bool_decide (NoDup l).

Definition case_labels {hdr : Header} : list Z :=
  [SUCCESS; END_OF_FILE; EOSERROR; ERROR; ESIOWRITE; ESIOREAD; ESIOFRAME;
   ESIOCRC; ESIOTIMEOUT;
   0x80; 0x82; 0x83; 0x84; 0x85; 0x87; 0x88; 0x89; 0x8A; 0x8B; 0x8C].

Definition header_ok {hdr : Header} : bool :=
  distinctb (wbit <$> all_wait_flags)
  && forallb (fun f => (0 <=? wbit f) && (wbit f <? 32)) all_wait_flags
  && distinctb case_labels
  && (0 <=? BUFFER_MAX).

(** Modelled from the spec: the build states of section 4.C.1, that is NONE,
    RUNNING, FINISHED_NORMALLY, PAUSED, CANCELED and CANCELLING, numbered in
    that order; gpx.h, which declares them, is not among the sources.  The
    translator itself compares the status with the literal 1 for RUNNING. *)
Definition BUILD_NONE : Z := 0.
Definition BUILD_RUNNING : Z := 1.
Definition BUILD_FINISHED_NORMALLY : Z := 2.
Definition BUILD_PAUSED : Z := 3.
Definition BUILD_CANCELED : Z := 4.
Definition BUILD_CANCELLING : Z := 5.

(** The speed constants of <termios.h>. *)
Inductive speed_t :=
| B0 | B4800 | B9600 | B14400 | B19200 | B28800 | B38400 | B57600 | B115200.

(** [speed == B0] *)
Definition is_B0 (speed : speed_t) : bool :=
  match speed with B0 => true | _ => false end.

(** ** Decimal output of [%u], [%d] and [%ld] *)

Definition digit (n : Z) : ascii := ascii_of_nat (48 + Z.to_nat n).

Fixpoint fmt_digits (fuel : nat) (n : Z) (acc : string) : string :=
  match fuel with
  | O => acc
  | S fuel' =>
      let acc' := String (digit (n mod 10)) acc in
      if n <? 10 then acc' else fmt_digits fuel' (n / 10) acc'
  end.

Definition fmt_u (n : Z) : string := fmt_digits 40 n EmptyString.

Definition fmt_d (n : Z) : string :=
  if n <? 0 then String "-"%char (fmt_u (- n)) else fmt_u n.

(** ** The session *)

(** The decoded reply, [sio.response]; the translator reads the members that
    belong to the command it handles. *)
Record Response := {
  temperature : Z;
  isReady : Z;
  sd_status : Z;
  sd_filename : string;
  position_x : Z;
  position_y : Z;
  position_z : Z;
  position_a : Z;
  position_b : Z;
  motherboard_bitfield : Z;
  build_status : Z;
  build_lineNumber : Z;
  firmware_variant : Z;
  firmware_version : Z
}.

Record Sio := {
  port : Z;
  response : Response;
  bytes_out : Z;
  bytes_in : Z;
  retryBufferOverflow : bool;
  shortRetryBufferOverflowOnly : bool
}.

(** The bit-field [flag]; the source stores the whole word [flags] only to
    clear it. *)
Record Flags := {
  listingFiles : bool;
  getPosWhenReady : bool;
  okPending : bool;
  cancelPending : bool;
  waitClearedByCancel : bool
}.

Definition no_flags : Flags :=
  {| listingFiles := false; getPosWhenReady := false; okPending := false;
     cancelPending := false; waitClearedByCancel := false |}.

Record Tio := {
  translation : list ascii;
  cur : Z;
  sio : Sio;
  flag : Flags;
  waiting : Z;
  sec : Z;
  sttb : Sttb
}.

Definition set_translation (v : list ascii) (t : Tio) : Tio :=
  {| translation := v; cur := cur t; sio := sio t; flag := flag t;
     waiting := waiting t; sec := sec t; sttb := sttb t |}.
Definition set_cur (v : Z) (t : Tio) : Tio :=
  {| translation := translation t; cur := v; sio := sio t; flag := flag t;
     waiting := waiting t; sec := sec t; sttb := sttb t |}.
Definition set_sio (v : Sio) (t : Tio) : Tio :=
  {| translation := translation t; cur := cur t; sio := v; flag := flag t;
     waiting := waiting t; sec := sec t; sttb := sttb t |}.
Definition set_flag (v : Flags) (t : Tio) : Tio :=
  {| translation := translation t; cur := cur t; sio := sio t; flag := v;
     waiting := waiting t; sec := sec t; sttb := sttb t |}.
Definition set_waiting (v : Z) (t : Tio) : Tio :=
  {| translation := translation t; cur := cur t; sio := sio t; flag := flag t;
     waiting := v; sec := sec t; sttb := sttb t |}.
Definition set_sec (v : Z) (t : Tio) : Tio :=
  {| translation := translation t; cur := cur t; sio := sio t; flag := flag t;
     waiting := waiting t; sec := v; sttb := sttb t |}.
Definition set_sttb (v : Sttb) (t : Tio) : Tio :=
  {| translation := translation t; cur := cur t; sio := sio t; flag := flag t;
     waiting := waiting t; sec := sec t; sttb := v |}.

Definition set_listingFiles (b : bool) (t : Tio) : Tio :=
  set_flag {| listingFiles := b; getPosWhenReady := getPosWhenReady (flag t);
              okPending := okPending (flag t);
              cancelPending := cancelPending (flag t);
              waitClearedByCancel := waitClearedByCancel (flag t) |} t.
Definition set_getPosWhenReady (b : bool) (t : Tio) : Tio :=
  set_flag {| listingFiles := listingFiles (flag t); getPosWhenReady := b;
              okPending := okPending (flag t);
              cancelPending := cancelPending (flag t);
              waitClearedByCancel := waitClearedByCancel (flag t) |} t.
Definition set_okPending (b : bool) (t : Tio) : Tio :=
  set_flag {| listingFiles := listingFiles (flag t);
              getPosWhenReady := getPosWhenReady (flag t); okPending := b;
              cancelPending := cancelPending (flag t);
              waitClearedByCancel := waitClearedByCancel (flag t) |} t.
Definition set_cancelPending (b : bool) (t : Tio) : Tio :=
  set_flag {| listingFiles := listingFiles (flag t);
              getPosWhenReady := getPosWhenReady (flag t);
              okPending := okPending (flag t); cancelPending := b;
              waitClearedByCancel := waitClearedByCancel (flag t) |} t.
Definition set_waitClearedByCancel (b : bool) (t : Tio) : Tio :=
  set_flag {| listingFiles := listingFiles (flag t);
              getPosWhenReady := getPosWhenReady (flag t);
              okPending := okPending (flag t);
              cancelPending := cancelPending (flag t);
              waitClearedByCancel := b |} t.

Definition set_port (v : Z) (s : Sio) : Sio :=
  {| port := v; response := response s; bytes_out := bytes_out s;
     bytes_in := bytes_in s; retryBufferOverflow := retryBufferOverflow s;
     shortRetryBufferOverflowOnly := shortRetryBufferOverflowOnly s |}.

(** [x & mask] used as a condition. *)
Definition has_mask (x mask : Z) : bool := negb (Z.land x mask =? 0).

(** A C condition on an integer: nonzero. *)
Definition nonzero (x : Z) : bool := negb (x =? 0).

Section Session.

Context {hdr : Header}.

Record Position := {
  pos_x : double; pos_y : double; pos_z : double;
  pos_a : double; pos_b : double
}.

(** The members of [Gpx] that gpxresp.c reads or writes. *)
Record Gpx := {
  programState : Z;
  macrosEnabled : bool;
  framingEnabled : bool;
  sioConnected : bool;
  M106AlwaysValve : bool;
  positionKnown : Z;
  excess_a : double;
  excess_b : double;
  command_flag : Z;
  command_m : Z;
  command_arg : string;
  selectedFilename : string;
  extruder_count : Z;
  machine_type : string;
  steps_per_mm : Position;
  current_extruder : Z;
  current_position : Position;
  buffer_in : string;
  lineNumber : Z
}.

(** *** Wait flags: the bits of [waiting] *)

Definition waitflag (f : WaitFlag) (t : Tio) : bool :=
  Z.testbit (waiting t) (wbit f).

(** [tio->waitflag.f = b] *)
Definition set_waitflag (f : WaitFlag) (b : bool) (t : Tio) : Tio :=
  set_waiting
    (if b then Z.setbit (waiting t) (wbit f)
     else Z.clearbit (waiting t) (wbit f)) t.

(** *** The translation buffer *)

Definition sizeof_translation : Z := BUFFER_MAX + 1.

(** [vsnprintf(buf + pos, n, ...)] for [n > 0], where the conversions
    succeed and produce [s]: at most [n - 1] characters are stored, then
    NUL.  The value returned is the length of [s], whatever was stored. *)
Definition vsnprintf (buf : list ascii) (pos n : Z) (s : string) : list ascii :=
  list_inserts (Z.to_nat pos) (take (Z.to_nat (n - 1)) (chars s) ++ [NUL]) buf.

Definition tio_vprintf (t : Tio) (s : string) : Z * Tio :=
  if sizeof_translation <=? cur t then (0, t)
  else
    let result := strlen s in
    let t1 :=
      set_translation
        (vsnprintf (translation t) (cur t) (sizeof_translation - cur t) s) t in
    (result, if 0 <? result then set_cur (cur t1 + result) t1 else t1).

Definition tio_printf (t : Tio) (s : string) : Tio := (tio_vprintf t s).2.

(** [tio_log_printf] passes its [va_list] to [vfprintf], for the log, and
    then once more to [tio_vprintf].  C leaves a [va_list] indeterminate
    after [vfprintf] has used it, so what the second formatting stores is
    not determined by the arguments of the call: [again] stands for that
    text. *)
Definition tio_log_printf (t : Tio) (again : string) : Z * Tio :=
  tio_vprintf t again.

(** [tio->translation[i] = c] *)
Definition poke (i : Z) (c : ascii) (t : Tio) : Tio :=
  set_translation (<[Z.to_nat i := c]> (translation t)) t.

(** [tio->translation[i]]; NUL stands for a read outside the array. *)
Definition peek (t : Tio) (i : Z) : ascii :=
  default NUL (translation t !! Z.to_nat i).

(** [tio->cur = 0; tio->translation[0] = 0;] *)
Definition tio_reset (t : Tio) : Tio := poke 0 NUL (set_cur 0 t).

(** The text of the response so far: the bytes before the cursor. *)
Definition text (t : Tio) : list ascii := take (Z.to_nat (cur t)) (translation t).

(** *** Assignments to the members of [Gpx] *)

Definition set_programState (v : Z) (g : Gpx) : Gpx :=
  {| programState := v; macrosEnabled := macrosEnabled g;
     framingEnabled := framingEnabled g; sioConnected := sioConnected g;
     M106AlwaysValve := M106AlwaysValve g;
     positionKnown := positionKnown g; excess_a := excess_a g;
     excess_b := excess_b g; command_flag := command_flag g;
     command_m := command_m g; command_arg := command_arg g;
     selectedFilename := selectedFilename g;
     extruder_count := extruder_count g; machine_type := machine_type g;
     steps_per_mm := steps_per_mm g;
     current_extruder := current_extruder g;
     current_position := current_position g; buffer_in := buffer_in g;
     lineNumber := lineNumber g |}.
Definition set_macrosEnabled (v : bool) (g : Gpx) : Gpx :=
  {| programState := programState g; macrosEnabled := v;
     framingEnabled := framingEnabled g; sioConnected := sioConnected g;
     M106AlwaysValve := M106AlwaysValve g;
     positionKnown := positionKnown g; excess_a := excess_a g;
     excess_b := excess_b g; command_flag := command_flag g;
     command_m := command_m g; command_arg := command_arg g;
     selectedFilename := selectedFilename g;
     extruder_count := extruder_count g; machine_type := machine_type g;
     steps_per_mm := steps_per_mm g;
     current_extruder := current_extruder g;
     current_position := current_position g; buffer_in := buffer_in g;
     lineNumber := lineNumber g |}.
Definition set_framingEnabled (v : bool) (g : Gpx) : Gpx :=
  {| programState := programState g; macrosEnabled := macrosEnabled g;
     framingEnabled := v; sioConnected := sioConnected g;
     M106AlwaysValve := M106AlwaysValve g;
     positionKnown := positionKnown g; excess_a := excess_a g;
     excess_b := excess_b g; command_flag := command_flag g;
     command_m := command_m g; command_arg := command_arg g;
     selectedFilename := selectedFilename g;
     extruder_count := extruder_count g; machine_type := machine_type g;
     steps_per_mm := steps_per_mm g;
     current_extruder := current_extruder g;
     current_position := current_position g; buffer_in := buffer_in g;
     lineNumber := lineNumber g |}.
Definition set_sioConnected (v : bool) (g : Gpx) : Gpx :=
  {| programState := programState g; macrosEnabled := macrosEnabled g;
     framingEnabled := framingEnabled g; sioConnected := v;
     M106AlwaysValve := M106AlwaysValve g;
     positionKnown := positionKnown g; excess_a := excess_a g;
     excess_b := excess_b g; command_flag := command_flag g;
     command_m := command_m g; command_arg := command_arg g;
     selectedFilename := selectedFilename g;
     extruder_count := extruder_count g; machine_type := machine_type g;
     steps_per_mm := steps_per_mm g;
     current_extruder := current_extruder g;
     current_position := current_position g; buffer_in := buffer_in g;
     lineNumber := lineNumber g |}.
Definition set_M106AlwaysValve (v : bool) (g : Gpx) : Gpx :=
  {| programState := programState g; macrosEnabled := macrosEnabled g;
     framingEnabled := framingEnabled g; sioConnected := sioConnected g;
     M106AlwaysValve := v; positionKnown := positionKnown g;
     excess_a := excess_a g; excess_b := excess_b g;
     command_flag := command_flag g; command_m := command_m g;
     command_arg := command_arg g; selectedFilename := selectedFilename g;
     extruder_count := extruder_count g; machine_type := machine_type g;
     steps_per_mm := steps_per_mm g;
     current_extruder := current_extruder g;
     current_position := current_position g; buffer_in := buffer_in g;
     lineNumber := lineNumber g |}.
Definition set_positionKnown (v : Z) (g : Gpx) : Gpx :=
  {| programState := programState g; macrosEnabled := macrosEnabled g;
     framingEnabled := framingEnabled g; sioConnected := sioConnected g;
     M106AlwaysValve := M106AlwaysValve g; positionKnown := v;
     excess_a := excess_a g; excess_b := excess_b g;
     command_flag := command_flag g; command_m := command_m g;
     command_arg := command_arg g; selectedFilename := selectedFilename g;
     extruder_count := extruder_count g; machine_type := machine_type g;
     steps_per_mm := steps_per_mm g;
     current_extruder := current_extruder g;
     current_position := current_position g; buffer_in := buffer_in g;
     lineNumber := lineNumber g |}.
Definition set_excess_a (v : double) (g : Gpx) : Gpx :=
  {| programState := programState g; macrosEnabled := macrosEnabled g;
     framingEnabled := framingEnabled g; sioConnected := sioConnected g;
     M106AlwaysValve := M106AlwaysValve g;
     positionKnown := positionKnown g; excess_a := v;
     excess_b := excess_b g; command_flag := command_flag g;
     command_m := command_m g; command_arg := command_arg g;
     selectedFilename := selectedFilename g;
     extruder_count := extruder_count g; machine_type := machine_type g;
     steps_per_mm := steps_per_mm g;
     current_extruder := current_extruder g;
     current_position := current_position g; buffer_in := buffer_in g;
     lineNumber := lineNumber g |}.
Definition set_excess_b (v : double) (g : Gpx) : Gpx :=
  {| programState := programState g; macrosEnabled := macrosEnabled g;
     framingEnabled := framingEnabled g; sioConnected := sioConnected g;
     M106AlwaysValve := M106AlwaysValve g;
     positionKnown := positionKnown g; excess_a := excess_a g;
     excess_b := v; command_flag := command_flag g;
     command_m := command_m g; command_arg := command_arg g;
     selectedFilename := selectedFilename g;
     extruder_count := extruder_count g; machine_type := machine_type g;
     steps_per_mm := steps_per_mm g;
     current_extruder := current_extruder g;
     current_position := current_position g; buffer_in := buffer_in g;
     lineNumber := lineNumber g |}.
Definition set_selectedFilename (v : string) (g : Gpx) : Gpx :=
  {| programState := programState g; macrosEnabled := macrosEnabled g;
     framingEnabled := framingEnabled g; sioConnected := sioConnected g;
     M106AlwaysValve := M106AlwaysValve g;
     positionKnown := positionKnown g; excess_a := excess_a g;
     excess_b := excess_b g; command_flag := command_flag g;
     command_m := command_m g; command_arg := command_arg g;
     selectedFilename := v; extruder_count := extruder_count g;
     machine_type := machine_type g; steps_per_mm := steps_per_mm g;
     current_extruder := current_extruder g;
     current_position := current_position g; buffer_in := buffer_in g;
     lineNumber := lineNumber g |}.
Definition set_current_position (v : Position) (g : Gpx) : Gpx :=
  {| programState := programState g; macrosEnabled := macrosEnabled g;
     framingEnabled := framingEnabled g; sioConnected := sioConnected g;
     M106AlwaysValve := M106AlwaysValve g;
     positionKnown := positionKnown g; excess_a := excess_a g;
     excess_b := excess_b g; command_flag := command_flag g;
     command_m := command_m g; command_arg := command_arg g;
     selectedFilename := selectedFilename g;
     extruder_count := extruder_count g; machine_type := machine_type g;
     steps_per_mm := steps_per_mm g;
     current_extruder := current_extruder g; current_position := v;
     buffer_in := buffer_in g; lineNumber := lineNumber g |}.
Definition set_buffer_in (v : string) (g : Gpx) : Gpx :=
  {| programState := programState g; macrosEnabled := macrosEnabled g;
     framingEnabled := framingEnabled g; sioConnected := sioConnected g;
     M106AlwaysValve := M106AlwaysValve g;
     positionKnown := positionKnown g; excess_a := excess_a g;
     excess_b := excess_b g; command_flag := command_flag g;
     command_m := command_m g; command_arg := command_arg g;
     selectedFilename := selectedFilename g;
     extruder_count := extruder_count g; machine_type := machine_type g;
     steps_per_mm := steps_per_mm g;
     current_extruder := current_extruder g;
     current_position := current_position g; buffer_in := v;
     lineNumber := lineNumber g |}.
Definition set_command_flag (v : Z) (g : Gpx) : Gpx :=
  {| programState := programState g; macrosEnabled := macrosEnabled g;
     framingEnabled := framingEnabled g; sioConnected := sioConnected g;
     M106AlwaysValve := M106AlwaysValve g;
     positionKnown := positionKnown g; excess_a := excess_a g;
     excess_b := excess_b g; command_flag := v; command_m := command_m g;
     command_arg := command_arg g; selectedFilename := selectedFilename g;
     extruder_count := extruder_count g; machine_type := machine_type g;
     steps_per_mm := steps_per_mm g;
     current_extruder := current_extruder g;
     current_position := current_position g; buffer_in := buffer_in g;
     lineNumber := lineNumber g |}.
Definition set_command_m (v : Z) (g : Gpx) : Gpx :=
  {| programState := programState g; macrosEnabled := macrosEnabled g;
     framingEnabled := framingEnabled g; sioConnected := sioConnected g;
     M106AlwaysValve := M106AlwaysValve g;
     positionKnown := positionKnown g; excess_a := excess_a g;
     excess_b := excess_b g; command_flag := command_flag g;
     command_m := v; command_arg := command_arg g;
     selectedFilename := selectedFilename g;
     extruder_count := extruder_count g; machine_type := machine_type g;
     steps_per_mm := steps_per_mm g;
     current_extruder := current_extruder g;
     current_position := current_position g; buffer_in := buffer_in g;
     lineNumber := lineNumber g |}.
Definition set_command_arg (v : string) (g : Gpx) : Gpx :=
  {| programState := programState g; macrosEnabled := macrosEnabled g;
     framingEnabled := framingEnabled g; sioConnected := sioConnected g;
     M106AlwaysValve := M106AlwaysValve g;
     positionKnown := positionKnown g; excess_a := excess_a g;
     excess_b := excess_b g; command_flag := command_flag g;
     command_m := command_m g; command_arg := v;
     selectedFilename := selectedFilename g;
     extruder_count := extruder_count g; machine_type := machine_type g;
     steps_per_mm := steps_per_mm g;
     current_extruder := current_extruder g;
     current_position := current_position g; buffer_in := buffer_in g;
     lineNumber := lineNumber g |}.

End Session.

(** ** The translator *)

Definition COMMAND_OFFSET : Z := 2.
Definition EXTRUDER_ID_OFFSET : Z := 3.
Definition QUERY_COMMAND_OFFSET : Z := 4.

Section Translator.

Context {hdr : Header}.

(** Functions of other files of GPX.  [port_handler] gets the [Sio] of the
    session only; the parser and [get_extended_position] reach the session
    through the callbacks registered in [gpx_connect], so they are given
    the whole of it. *)
Variable port_handler : Gpx -> Sio -> list Z -> Z -> Z * Gpx * Sio.
Variable get_extended_position : Gpx -> Tio -> Gpx * Tio.
Variable gpx_convert_line : Gpx -> Tio -> string -> Z * Gpx * Tio.

(** [buffer[i]] of a [char *] packet, converted to [unsigned]: a byte above
    127 is negative where [char] is signed, and wraps to the top of the
    32-bit range. *)
Definition packet_byte (buffer : list Z) (i : Z) : Z :=
  let b := default 0 (buffer !! Z.to_nat i) in
  if char_is_signed && (128 <=? b) then b - 256 + 2 ^ 32 else b.

Definition tio_initialize (mem : Heap) (g : Gpx) (t : Tio) : Gpx * Tio :=
  let t := tio_reset t in
  let t := set_sio (set_port (-1) (sio t)) t in
  let t := set_flag no_flags t in
  let t := set_waiting 0 t in
  let t := set_sec 0 t in
  let t := set_sttb (sttb_init ptr_size size_bits mem (sttb t) 10).2 t in
  (set_M106AlwaysValve true (set_positionKnown 0 g), t).

Definition tio_clear_state_for_cancel (g : Gpx) (t : Tio) : Gpx * Tio :=
  let g := set_programState READY_STATE g in
  let g := set_positionKnown 0 g in
  let g := set_excess_a dzero g in
  let g := set_excess_b dzero g in
  let t := if nonzero (waiting t) then set_waitClearedByCancel true t else t in
  let t := set_waiting 0 t in
  let t := set_waitflag waitForEmptyQueue true t in
  let t := set_getPosWhenReady false t in
  (g, t).

Definition translate_extruder_query_response
    (g : Gpx) (t : Tio) (query_command : Z) (buffer : list Z) : Tio :=
  let extruder_id := packet_byte buffer EXTRUDER_ID_OFFSET in
  let resp := response (sio t) in
  if query_command =? 2 then
    let t := tio_printf t " T" in
    let t := if 1 <? extruder_count g
             then tio_printf t (fmt_u extruder_id) else t in
    tio_printf t (":" +:+ fmt_u (temperature resp))
  else if query_command =? 22 then
    if nonzero extruder_id
    then set_waitflag waitForExtruderB (negb (nonzero (isReady resp))) t
    else set_waitflag waitForExtruderA (negb (nonzero (isReady resp))) t
  else if query_command =? 30 then
    tio_printf t (" B:" +:+ fmt_u (temperature resp))
  else if query_command =? 32 then
    let t :=
      if nonzero (waiting t) && negb (waitflag waitForEmptyQueue t)
         && (temperature resp =? 0)
      then if nonzero extruder_id
           then set_waitflag waitForExtruderB false t
           else set_waitflag waitForExtruderA false t
      else t in
    tio_printf t (" /" +:+ fmt_u (temperature resp))
  else if query_command =? 33 then
    let t :=
      if nonzero (waiting t) && negb (waitflag waitForEmptyQueue t)
         && (temperature resp =? 0)
      then set_waitflag waitForPlatform false t
      else t in
    tio_printf t (" /" +:+ fmt_u (temperature resp))
  else if query_command =? 35 then
    set_waitflag waitForPlatform (negb (nonzero (isReady resp))) t
  else t.

(** [if (tio->flag.okPending) { ... }], the head of both callbacks. *)
Definition flush_okPending (t : Tio) : Tio :=
  if okPending (flag t) then tio_printf (set_okPending false t) "ok" else t.

(** The branch [length == 0] of [translate_handler]. *)
Definition translate_untranslated (mem : Heap) (g : Gpx) (t : Tio) : Gpx * Tio :=
  if has_mask (command_flag g) M_IS_SET && (command_m g =? 23) then
    let i := sttb_find_nocase (sttb t) (selectedFilename g) in
    let g :=
      if 0 <=? i then
        match sttb_get (sttb t) i with
        | Some s => if strdup_ok mem then set_selectedFilename s g else g
        | None => g
        end
      else g in
    (g, tio_printf t (nl +:+ "File opened:" +:+ selectedFilename g +:+ " Size:"
                         +:+ fmt_d 0 +:+ nl +:+ "File selected:"
                         +:+ selectedFilename g))
  else (g, t).

(** The position line of command 21 and the positions it records. *)
Definition position_text (g : Gpx) (resp : Response) : string :=
  let epos :=
    if current_extruder g =? 1
    then steps_div (position_b resp) (pos_b (steps_per_mm g))
    else steps_div (position_a resp) (pos_a (steps_per_mm g)) in
  " X:" +:+ fmt_0_2f (steps_div (position_x resp) (pos_x (steps_per_mm g)))
  +:+ " Y:" +:+ fmt_0_2f (steps_div (position_y resp) (pos_y (steps_per_mm g)))
  +:+ " Z:" +:+ fmt_0_2f (steps_div (position_z resp) (pos_z (steps_per_mm g)))
  +:+ " E:" +:+ fmt_0_2f epos.

Definition record_unknown_positions (g : Gpx) (resp : Response) : Gpx :=
  let known := positionKnown g in
  let spm := steps_per_mm g in
  let p := current_position g in
  set_current_position
    {| pos_x := if has_mask known X_IS_SET then pos_x p
                else steps_div (position_x resp) (pos_x spm);
       pos_y := if has_mask known Y_IS_SET then pos_y p
                else steps_div (position_y resp) (pos_y spm);
       pos_z := if has_mask known Z_IS_SET then pos_z p
                else steps_div (position_z resp) (pos_z spm);
       pos_a := if has_mask known A_IS_SET then pos_a p
                else steps_div (position_a resp) (pos_a spm);
       pos_b := if has_mask known B_IS_SET then pos_b p
                else steps_div (position_b resp) (pos_b spm) |} g.

(** Command 24, get build statistics.  First the [switch] that answers
    M27, the status being [status] and the line number [line]. *)
Definition report_build_status (status line : Z) (t : Tio) : Tio :=
  if status =? BUILD_NONE then
    tio_printf t (nl +:+ "Not SD printing" +:+ nl)
  else if status =? BUILD_RUNNING then
    let t := set_waitflag waitForStart false (set_sec 0 t) in
    tio_printf t (nl +:+ "SD printing byte on line " +:+ fmt_u line +:+ "/0")
  else if status =? BUILD_CANCELED then
    let t := tio_printf t (nl +:+ "SD printing cancelled." +:+ nl) in
    let t := set_waiting 0 t in
    let t := set_getPosWhenReady false t in
    tio_printf t (nl +:+ "Done printing file" +:+ nl)
  else if status =? BUILD_FINISHED_NORMALLY then
    tio_printf t (nl +:+ "Done printing file" +:+ nl)
  else if status =? BUILD_PAUSED then
    tio_printf t (nl +:+ "SD printing paused at line " +:+ fmt_u line +:+ nl)
  else if status =? BUILD_CANCELLING then
    tio_printf t (nl +:+ "SD printing sleeping at line " +:+ fmt_u line +:+ nl)
  else t.

(** The whole of [case 24]; [now] is what [time] returns. *)
Definition translate_build_statistics (now : Z) (g : Gpx) (t : Tio) : Tio :=
  let status := build_status (response (sio t)) in
  let line := build_lineNumber (response (sio t)) in
  let t :=
    if waitflag waitForBotCancel t then
      if (status =? BUILD_RUNNING) || (status =? BUILD_PAUSED)
         || (status =? BUILD_CANCELLING)
      then t
      else set_waitflag waitForBotCancel false t
    else t in
  if waitflag waitForStart t
     || (has_mask (command_flag g) M_IS_SET && (command_m g =? 27)) then
    if nonzero (sec t) && negb (status =? 1) && (now <? sec t) then
      if 4 <? sec t - now
      then set_waitflag waitForStart false (set_sec 0 t)
      else t
    else report_build_status status line t
  else
    if (status =? BUILD_NONE) || (status =? BUILD_RUNNING) then
      let t := if waitflag waitForUnpause t
               then set_waitflag waitForEmptyQueue true t else t in
      set_waitflag waitForUnpause false t
    else if status =? BUILD_PAUSED then
      let t := set_waitflag waitForUnpause true t in
      tio_printf t (nl +:+ "// echo: Waiting for unpause button on the LCD panel"
                       +:+ nl)
    else set_waitflag waitForUnpause false t.

(** Command 18, get next filename. *)
Definition translate_next_filename (mem : Heap) (g : Gpx) (t : Tio) : Tio :=
  let resp := response (sio t) in
  if negb (listingFiles (flag t)) && has_mask (command_flag g) M_IS_SET
     && (command_m g =? 21) then
    if sd_status resp =? 0 then tio_printf t (nl +:+ "SD card ok")
    else tio_printf t (nl +:+ "SD init fail")
  else
    let t :=
      if negb (listingFiles (flag t)) then
        let t := tio_printf t (nl +:+ "Begin file list" +:+ nl) in
        let t := set_listingFiles true t in
        let t := if 0 <? cs (sttb t)
                 then set_sttb (sttb_cleanup (sttb t)) t else t in
        set_sttb (sttb_init ptr_size size_bits mem (sttb t) 10).2 t
      else t in
    if String.eqb (sd_filename resp) EmptyString then
      set_listingFiles false (tio_printf t "End file list")
    else
      let t := tio_printf t (sd_filename resp) in
      set_sttb (sttb_add ptr_size size_bits mem (sttb t) (sd_filename resp)).2 t.

(** Command 27, get advanced version number. *)
Definition translate_version (g : Gpx) (t : Tio) : Tio :=
  let resp := response (sio t) in
  let variant :=
    if firmware_variant resp =? 0x01 then "Makerbot"
    else if firmware_variant resp =? 0x80 then "Sailfish" else "Unknown" in
  let variant_url :=
    if firmware_variant resp =? 0x01 then
      "https://support.makerbot.com/learn/earlier-products/replicator-original/updating-firmware-for-the-makerbot-replicator-via-replicatorg_13302"
    else if firmware_variant resp =? 0x80 then "http://www.sailfishfirmware.com"
    else "Unknown" in
  let major := fmt_u (firmware_version resp / 100) in
  let minor := fmt_u (firmware_version resp mod 100) in
  if has_mask (command_flag g) M_IS_SET && (command_m g =? 115) then
    tio_printf t (" PROTOCOL_VERSION:0.1 FIRMWARE_NAME:" +:+ variant
                  +:+ " FIRMWARE_VERSION:" +:+ major +:+ "." +:+ minor
                  +:+ " FIRMWARE_URL:" +:+ variant_url
                  +:+ " MACHINE_TYPE:" +:+ machine_type g
                  +:+ " EXTRUDER_COUNT:" +:+ fmt_u (extruder_count g) +:+ nl)
  else
    tio_printf t (" " +:+ variant +:+ " v" +:+ major +:+ "." +:+ minor).

(** Command 23, get motherboard status: [inl] is the value of an early
    [return], [inr] falls out of the [switch]. *)
Definition translate_motherboard (t : Tio) : Z * Tio + Tio :=
  let bits := motherboard_bitfield (response (sio t)) in
  if negb (nonzero bits) then inr (set_waitflag waitForButton false t)
  else if Z.testbit bits (mbbit buildCancelling) then inl (0x89, t)
  else if Z.testbit bits (mbbit heatShutdown) then
    inl (0x89, tio_printf (set_cur 0 t)
                 "Error:  Heaters were shutdown after 30 minutes of inactivity")
  else if Z.testbit bits (mbbit powerError) then
    inl (0x89, tio_printf (set_cur 0 t)
                 "Error:  Error detected in system power")
  else inr t.

Definition translate_handler
    (mem : Heap) (now : Z) (g : Gpx) (t : Tio) (buffer : list Z) (length : Z)
  : Z * Gpx * Tio :=
  let t := flush_okPending t in
  if length =? 0 then
    let '(g, t) := translate_untranslated mem g t in (SUCCESS, g, t)
  else
    let command := packet_byte buffer COMMAND_OFFSET in
    let extruder := packet_byte buffer EXTRUDER_ID_OFFSET in
    if cancelPending (flag t) && has_mask command 0x80 then (SUCCESS, g, t)
    else
      let '(rval, g, sio') := port_handler g (sio t) buffer length in
      let t := set_sio sio' t in
      if negb (rval =? SUCCESS) then (rval, g, t)
      else
        let t := if has_mask command 0x80
                 then set_waitflag waitForBuffer false t else t in
        let resp := response (sio t) in
        if (command =? 3) || (command =? 7) || (command =? 17) then
          (rval, g, set_waitflag waitForBotCancel true (set_waiting 0 t))
        else if command =? 10 then
          let query_command := packet_byte buffer QUERY_COMMAND_OFFSET in
          (rval, g, translate_extruder_query_response g t query_command buffer)
        else if command =? 11 then
          if nonzero (isReady resp) then
            let t := set_waitflag waitForButton false t in
            let t := set_waitflag waitForEmptyQueue false t in
            if getPosWhenReady (flag t) then
              let '(g, t) := get_extended_position g t in
              (rval, g, set_getPosWhenReady false t)
            else (rval, g, t)
          else (rval, g, t)
        else if command =? 14 then
          (rval, g,
           if has_mask (command_flag g) ARG_IS_SET
           then tio_printf t (nl +:+ "Writing to file: " +:+ command_arg g)
           else t)
        else if command =? 15 then
          (rval, g, tio_printf t (nl +:+ "Done saving file"))
        else if command =? 16 then
          (rval, g,
           if sd_status resp =? 7
           then tio_printf t (nl +:+ "Error:  Not SD printing file not found")
           else set_waitflag waitForStart true (set_sec (now + 3) (tio_reset t)))
        else if command =? 18 then
          (rval, g, translate_next_filename mem g t)
        else if command =? 21 then
          let t := tio_printf t (position_text g resp) in
          (rval,
           if getPosWhenReady (flag t) then record_unknown_positions g resp else g,
           t)
        else if command =? 23 then
          match translate_motherboard t with
          | inl (r, t) => (r, g, t)
          | inr t => (rval, g, t)
          end
        else if command =? 24 then
          (rval, g, translate_build_statistics now g t)
        else if command =? 27 then
          (rval, g, translate_version g t)
        else if command =? 135 then
          let t := tio_reset t in
          (rval, g,
           if extruder =? 0
           then set_waitflag waitForEmptyQueue true
                  (set_waitflag waitForExtruderA true t)
           else set_waitflag waitForEmptyQueue true
                  (set_waitflag waitForExtruderB true t))
        else if command =? 141 then
          let t := tio_reset t in
          (rval, g,
           set_waitflag waitForEmptyQueue true
             (set_waitflag waitForPlatform true t))
        else if (command =? 144) || (command =? 131) || (command =? 132) then
          let t := tio_reset t in
          (rval, g,
           set_getPosWhenReady true (set_waitflag waitForEmptyQueue true t))
        else if command =? 133 then
          (rval, g, set_waitflag waitForEmptyQueue true (tio_reset t))
        else if (command =? 148) || (command =? 149) then
          (rval, g, set_waitflag waitForButton true (tio_reset t))
        else (rval, g, t).

(** The result callback; [fmt] is the format and [out] what its
    conversions produce.  The three appends of the last line are made from
    left to right. *)
Definition translate_result (g : Gpx) (t : Tio) (fmt out : string) : Z * Tio :=
  if String.eqb fmt "@clear_cancel" then
    if negb (cancelPending (flag t)) && (programState g =? RUNNING_STATE)
    then (0, set_waitflag waitForCancelSync true t)
    else (0, set_waitflag waitForEmptyQueue true (set_cancelPending false t))
  else
    let t := flush_okPending t in
    let '(len, t) :=
      if (0 <? cur t) && negb (Ascii.eqb (peek t (cur t - 1)) LF)
      then tio_vprintf t nl else (0, t) in
    let '(n1, t) := tio_vprintf t "// echo: " in
    let '(n2, t) := tio_vprintf t out in
    (len + n1 + n2, t).

(** *** The finalizer, in the three parts of its body *)

(** Lines 647 to 661: leave the ENDED state, and poll the temperatures
    when a wait has produced no output. *)
Definition leave_ended (g : Gpx) : Gpx :=
  set_macrosEnabled true
    (if RUNNING_STATE <? programState g
     then set_programState READY_STATE g else g).

Definition implicit_poll (g : Gpx) (t : Tio) (rval : Z) : Z * Gpx * Tio :=
  let g := leave_ended g in
  if (rval =? SUCCESS) && nonzero (waiting t) && (cur t =? 0) then
    let g := set_buffer_in "M105" g in
    gpx_convert_line g t (buffer_in g)
  else (rval, g, t).

(** Lines 666 to 758: the [switch] on the return code. *)
Definition report_rval (g : Gpx) (t : Tio) (rval : Z) : Z * Gpx * Tio :=
  let fail (s : string) := (rval, g, tio_printf (set_cur 0 t) s) in
  if (rval =? SUCCESS) || (rval =? END_OF_FILE) then (rval, g, t)
  else if rval =? EOSERROR then fail "Error: OS error trying to access X3G port"
  else if rval =? ERROR then fail "Error: GPX error"
  else if (rval =? ESIOWRITE) || (rval =? ESIOREAD) || (rval =? ESIOFRAME)
          || (rval =? ESIOCRC) then
    fail ("Error: Serial communication error on X3G port. code = " +:+ fmt_d rval)
  else if rval =? ESIOTIMEOUT then fail "Error: Timeout on X3G port"
  else if rval =? 0x80 then fail "Error: X3G generic packet error"
  else if rval =? 0x82 then
    (rval, g, tio_printf (set_waitflag waitForBuffer true t) "Status: Buffer full")
  else if rval =? 0x83 then fail "Error: X3G checksum mismatch"
  else if rval =? 0x84 then fail "Error: X3G query packet too big"
  else if rval =? 0x85 then fail "Error: X3G command not supported or recognized"
  else if rval =? 0x87 then fail "Error: X3G timeout downstream"
  else if rval =? 0x88 then fail "Error: X3G timeout for tool lock"
  else if rval =? 0x89 then
    if waitflag waitForBotCancel t then
      (SUCCESS, g, set_waitflag waitForBotCancel false t)
    else
      let t := set_cancelPending true t in
      let '(g, t) := tio_clear_state_for_cancel g t in
      (rval, g, tio_printf t "Build cancelled")
  else if rval =? 0x8A then fail "SD printing"
  else if rval =? 0x8B then
    fail "Error: RC_BOT_OVERHEAT Printer reports overheat condition"
  else if rval =? 0x8C then fail "Error: timeout"
  else fail ("Error: Unknown error code: " +:+ fmt_d rval).

(** Lines 760 to 769; [waiting0] is the word saved on entry. *)
Definition finish_translation (waiting0 : Z) (t : Tio) : Tio :=
  if nonzero waiting0 && negb (nonzero (waiting t)) then
    let t := if (0 <? cur t) && negb (Ascii.eqb (peek t (cur t - 1)) LF)
             then tio_printf t nl else t in
    tio_printf t "ok"
  else if (0 <? cur t) && Ascii.eqb (peek t (cur t - 1)) LF then
    poke (cur t - 1) NUL (set_cur (cur t - 1) t)
  else t.

(** The session when the last part starts. *)
Definition before_finish (g : Gpx) (t : Tio) (rval : Z) : Tio :=
  let '(rval, g, t) := implicit_poll g t rval in (report_rval g t rval).2.

Definition gpx_return_translation (g : Gpx) (t : Tio) (rval : Z)
  : Z * Gpx * Tio :=
  let waiting0 := waiting t in
  let '(rval, g, t) := implicit_poll g t rval in
  let '(rval, g, t) := report_rval g t rval in
  (rval, g, finish_translation waiting0 t).

(** [strncpy(gpx->buffer.in, s, sizeof(gpx->buffer.in))] *)
Definition strncpy_in (s : string) (g : Gpx) : Gpx :=
  set_buffer_in (String.substring 0 (Z.to_nat (BUFFER_MAX + 1)) s) g.

Definition gpx_write_string_core (g : Gpx) (t : Tio) (s : string)
  : Z * Gpx * Tio :=
  let waiting0 := waiting t in
  let g := strncpy_in s g in
  let '(rval, g, t) := gpx_convert_line g t (buffer_in g) in
  let t :=
    if okPending (flag t) then tio_printf t "ok"
    else if negb (nonzero (waiting t)) && nonzero waiting0
         then tio_printf t (nl +:+ "ok") else t in
  (rval, g, set_okPending false t).

Definition gpx_write_string (g : Gpx) (t : Tio) (s : string) : Z * Gpx * Tio :=
  let '(rval, g, t) := gpx_write_string_core g t s in
  gpx_return_translation g t rval.

(** *** Opening and closing the session *)

Variable gpx_set_machine : Gpx -> string -> Z -> Gpx.
Variable gpx_start_convert : Gpx -> Gpx.
(** [gpx_sio_open] answers whether the port opened and what it stored
    through its last argument. *)
Variable gpx_sio_open : Gpx -> string -> speed_t -> bool * Z.

Definition tio_cleanup (mem : Heap) (g : Gpx) (t : Tio) : Gpx * Tio :=
  let t := if -1 <? port (sio t)
           then set_sio (set_port (-1) (sio t)) t else t in
  let t :=
    if 0 <? cs (sttb t) then
      set_sttb (sttb_init ptr_size size_bits mem
                  (sttb_cleanup (sttb t)) 10).2 t
    else t in
  let t := set_sec 0 t in
  let t := set_waiting 0 t in
  let t := set_flag no_flags t in
  (gpx_set_machine g "r2" 1, t).

(** [speed_from_long]: the speed, the value left in [*baudrate], and the
    session.  The default branch reports "Error: Unsupported baud rate"
    through [tio_log_printf]; [again] is the text that call leaves in the
    translation buffer. *)
Definition speed_from_long (again : string) (t : Tio) (baudrate : Z)
  : speed_t * Z * Tio :=
  if baudrate =? 4800 then (B4800, baudrate, t)
  else if baudrate =? 9600 then (B9600, baudrate, t)
  else if has_B14400 && (baudrate =? 14400) then (B14400, baudrate, t)
  else if baudrate =? 19200 then (B19200, baudrate, t)
  else if has_B28800 && (baudrate =? 28800) then (B28800, baudrate, t)
  else if baudrate =? 38400 then (B38400, baudrate, t)
  else if baudrate =? 57600 then (B57600, baudrate, t)
  else if baudrate =? 0 then (B115200, 115200, t)
  else if baudrate =? 115200 then (B115200, baudrate, t)
  else (B0, baudrate, (tio_log_printf t again).2).

Definition gpx_connect (g : Gpx) (t : Tio) (printer_port : string)
    (speed : speed_t) : Z * Gpx * Tio :=
  if is_B0 speed then (ESIOBADBAUD, g, t)
  else
    let '(opened, fd) := gpx_sio_open g printer_port speed in
    let t := set_sio (set_port fd (sio t)) t in
    if negb opened then (EOSERROR, g, t)
    else
      let t :=
        set_sio {| port := port (sio t); response := response (sio t);
                   bytes_out := 0; bytes_in := 0;
                   retryBufferOverflow := true;
                   shortRetryBufferOverflowOnly := true |} t in
      let g := gpx_start_convert g in
      let g := set_sioConnected true (set_framingEnabled true g) in
      (SUCCESS, g, tio_printf (set_cur 0 t) ("start" +:+ nl)).

(** *** The daemon: what the loop does with one line read from upstream

    [line] is the content of [gpx->buffer.in] after the read loop and
    [overflow] the flag carried from the previous line.  The result holds
    the new flag and, unless the line was skipped, the bytes written
    upstream. *)
Fixpoint c_string (buf : list ascii) : list ascii :=
  match buf with
  | [] => []
  | c :: buf' => if Ascii.eqb c NUL then [] else c :: c_string buf'
  end.

Definition contains_semicolon (s : string) : bool :=
  existsb (Ascii.eqb ";"%char) (chars s).

Definition daemon_line (overflow : bool) (g : Gpx) (t : Tio) (line : string)
  : bool * Gpx * Tio * option (list ascii) :=
  if overflow then
    (if negb (strlen line =? BUFFER_MAX - 1) then false else true, g, t, None)
  else
    let full := strlen line =? BUFFER_MAX - 1 in
    let t :=
      if full && negb (contains_semicolon line) then
        tio_printf t
          ("(line " +:+ fmt_u (lineNumber g)
           +:+ ") Buffer overflow: input exceeds " +:+ fmt_u BUFFER_MAX
           +:+ " character limit, remaining characters in line will be ignored"
           +:+ EOL)
      else t in
    let t := tio_reset t in
    let t := set_waitflag waitForBuffer false t in
    let t := set_okPending (negb (nonzero (waiting t))) t in
    let '(rval, g, t) := gpx_write_string g t line in
    let t := set_okPending false t in
    let t := tio_printf t nl in
    (full, g, t, Some (c_string (translation t))).

End Translator.

(** ** A header and an environment to run the model on

    The values are those of a Linux build of GPX where [char] is unsigned;
    the theorems below hold for every header that satisfies [header_ok]. *)

Definition sample_wbit (f : WaitFlag) : Z :=
  match f with
  | waitForEmptyQueue => 0 | waitForExtruderA => 1 | waitForExtruderB => 2
  | waitForPlatform => 3 | waitForButton => 4 | waitForStart => 5
  | waitForBuffer => 6 | waitForBotCancel => 7 | waitForUnpause => 8
  | waitForCancelSync => 9
  end.

Definition sample_mbbit (f : MbFlag) : Z :=
  match f with buildCancelling => 5 | heatShutdown => 6 | powerError => 7 end.

(** Lengths in hundredths of a millimetre stand for [double] here. *)
Definition sample_header : Header := {|
  BUFFER_MAX := 1023;
  EOL := nl;
  ptr_size := 8;
  size_bits := 64;
  char_is_signed := false;
  SUCCESS := 0;
  END_OF_FILE := 1;
  EOSERROR := -1;
  ERROR := -2;
  ESIOWRITE := -3;
  ESIOREAD := -4;
  ESIOFRAME := -5;
  ESIOCRC := -6;
  ESIOTIMEOUT := -7;
  ESIOBADBAUD := -8;
  READY_STATE := 0;
  RUNNING_STATE := 1;
  M_IS_SET := 0x4000;
  ARG_IS_SET := 0x10000;
  X_IS_SET := 0x1;
  Y_IS_SET := 0x2;
  Z_IS_SET := 0x4;
  A_IS_SET := 0x8;
  B_IS_SET := 0x10;
  wbit := sample_wbit;
  mbbit := sample_mbbit;
  has_B14400 := false;
  has_B28800 := false;
  double := Z;
  dzero := 0;
  steps_div := fun steps per_mm => steps * 100 / per_mm;
  fmt_0_2f := fun d => fmt_d (d / 100) +:+ "." +:+ fmt_u (d mod 100 / 10)
                       +:+ fmt_u (d mod 10)
|}.

(** A reply that carries a temperature and a ready flag, and the reply
    with both zero. *)
Definition reply (temp ready : Z) : Response :=
  {| temperature := temp; isReady := ready; sd_status := 0;
     sd_filename := EmptyString; position_x := 0; position_y := 0;
     position_z := 0; position_a := 0; position_b := 0;
     motherboard_bitfield := 0; build_status := 0; build_lineNumber := 0;
     firmware_variant := 0; firmware_version := 0 |}.

Definition sample_response : Response := reply 0 0.

Definition set_response (r : Response) (s : Sio) : Sio :=
  {| port := port s; response := r; bytes_out := bytes_out s;
     bytes_in := bytes_in s; retryBufferOverflow := retryBufferOverflow s;
     shortRetryBufferOverflowOnly := shortRetryBufferOverflowOnly s |}.

(** The session as static storage holds it at program start: all zero. *)
Definition tio_zero {hdr : Header} : Tio :=
  {| translation := replicate (Z.to_nat sizeof_translation) NUL;
     cur := 0;
     sio := {| port := 0; response := sample_response; bytes_out := 0;
               bytes_in := 0; retryBufferOverflow := false;
               shortRetryBufferOverflowOnly := false |};
     flag := no_flags;
     waiting := 0;
     sec := 0;
     sttb := {| rgs := None; cb := 0; cb_expand := 0; cs := 0 |} |}.

Definition sample_gpx : @Gpx sample_header :=
  let one : @double sample_header := 1%Z in
  let unit_steps :=
    {| pos_x := one; pos_y := one; pos_z := one; pos_a := one; pos_b := one |} in
  {| programState := 0; macrosEnabled := false; framingEnabled := false;
     sioConnected := false; M106AlwaysValve := false; positionKnown := 0;
     excess_a := one; excess_b := one; command_flag := 0; command_m := 0;
     command_arg := EmptyString; selectedFilename := EmptyString;
     extruder_count := 1; machine_type := "r2"; steps_per_mm := unit_steps;
     current_extruder := 0; current_position := unit_steps;
     buffer_in := EmptyString; lineNumber := 1 |}.

(** A device that accepts every packet and answers with [r]. *)
Definition sample_port_handler (r : Response)
    (g : @Gpx sample_header) (s : Sio) (buffer : list Z) (length : Z)
  : Z * @Gpx sample_header * Sio :=
  (0, g, set_response r s).

(** A packet that carries command [c] for tool [tool]. *)
Definition packet (c tool : Z) : list Z := [0xD5; 2; c; tool; 0].

(** ** Predicates the theorems are stated with *)

(** The array of [cs + 1] string pointers can be addressed: the pointer
    size is positive and the size of the array in bytes is a [size_t]. *)
Definition sttb_addressable (ptr size_bits : Z) (p : Sttb) : Prop :=
  0 < ptr /\ 0 <= cs p /\ ptr * (cs p + 1) < 2 ^ size_bits.

(** The translation buffer has its declared size and the cursor points
    into it. *)
Definition buffer_ok {hdr : Header} (t : Tio) : Prop :=
  length (translation t) = Z.to_nat sizeof_translation
  /\ 0 <= cur t < sizeof_translation.

(** What the finalizer puts before "ok": a newline, unless the text is
    empty or ends in one.  And a text without its trailing newline. *)
Definition newline_if_needed (l : list ascii) : list ascii :=
  match last l with
  | Some c => if Ascii.eqb c LF then [] else [LF]
  | None => []
  end.

Definition strip_newline (l : list ascii) : list ascii :=
  match last l with
  | Some c => if Ascii.eqb c LF then take (length l - 1) l else l
  | None => l
  end.

(** The condition under which a build status report comes too early. *)
Definition too_early (now : Z) (t : Tio) : Prop :=
  0 < sec t /\ build_status (response (sio t)) <> BUILD_RUNNING /\ now < sec t.

(** A string of [n] copies of [c]. *)
Fixpoint string_of (n : nat) (c : ascii) : string :=
  match n with
  | O => EmptyString
  | S n' => String c (string_of n' c)
  end.

(** A table with one cached file name, and the session after
    [tio_initialize] under the sample header. *)
Definition sample_table : Sttb :=
  (sttb_add 8 64 heap_fine
     (sttb_init 8 64 heap_fine {| rgs := None; cb := 0; cb_expand := 0; cs := 0 |}
        10).2 "ABC.gco").2.

Definition sample_tio : Tio :=
  (@tio_initialize sample_header heap_fine sample_gpx (@tio_zero sample_header)).2.

(** The bits of the word [waiting] all belong to wait flags. *)
Definition wait_word_ok {hdr : Header} (w : Z) : Prop :=
  forall i, Z.testbit w i = true -> exists f, i = wbit f.
Definition wait_inv {hdr : Header} (t : Tio) : Prop := wait_word_ok (waiting t).

(** The rank of a flag in [all_wait_flags], and equality of flags. *)
Definition wait_index (f : WaitFlag) : nat :=
  match f with
  | waitForEmptyQueue => 0 | waitForExtruderA => 1 | waitForExtruderB => 2
  | waitForPlatform => 3 | waitForButton => 4 | waitForStart => 5
  | waitForBuffer => 6 | waitForBotCancel => 7 | waitForUnpause => 8
  | waitForCancelSync => 9
  end.

Definition same_flag (f g : WaitFlag) : bool := Nat.eqb (wait_index f) (wait_index g).


(** ** Reachable sessions

    The parser and [get_extended_position] change the session only by
    calling the two callbacks that [gpx_connect] registers.  [callbacks t t']
    says that [t'] comes from [t] by a finite run of such calls; the handler
    may itself call out to code of the same kind. *)
Section Reachable.

Context {hdr : Header}.

Inductive callbacks : Tio -> Tio -> Prop :=
| callbacks_none t : callbacks t t
| callbacks_handler port_handler get_extended_position mem now g t buffer
    length t' :
    (forall g0 t0, callbacks t0 (get_extended_position g0 t0).2) ->
    callbacks
      (translate_handler port_handler get_extended_position mem now g t
         buffer length).2 t' ->
    callbacks t t'
| callbacks_result g t fmt out t' :
    callbacks (translate_result g t fmt out).2 t' ->
    callbacks t t'.

(** A parser that acts on the session through the callbacks only. *)
Definition callback_driven (gpx_convert_line : Gpx -> Tio -> string -> Z * Gpx * Tio)
  : Prop :=
  forall g t line, callbacks t (gpx_convert_line g t line).2.

(** The sessions that the functions of gpxresp.c produce, starting from
    [tio_initialize]. *)
Inductive reachable : Tio -> Prop :=
| reach_initialize mem g t : reachable (tio_initialize mem g t).2
| reach_callbacks t t' : reachable t -> callbacks t t' -> reachable t'
| reach_clear_state_for_cancel g t :
    reachable t -> reachable (tio_clear_state_for_cancel g t).2
| reach_return_translation conv g t rval :
    reachable t -> callback_driven conv ->
    reachable (gpx_return_translation conv g t rval).2
| reach_write_string_core conv g t s :
    reachable t -> callback_driven conv ->
    reachable (gpx_write_string_core conv g t s).2
| reach_write_string conv g t s :
    reachable t -> callback_driven conv ->
    reachable (gpx_write_string conv g t s).2
| reach_daemon_line conv overflow g t line :
    reachable t -> callback_driven conv ->
    reachable (daemon_line conv overflow g t line).1.2
| reach_speed_from_long again t baudrate :
    reachable t -> reachable (speed_from_long again t baudrate).2
| reach_connect start open g t printer_port speed :
    reachable t -> reachable (gpx_connect start open g t printer_port speed).2
| reach_cleanup set_machine mem g t :
    reachable t -> reachable (tio_cleanup set_machine mem g t).2.

End Reachable.

(** [s] matches the entry in slot [j] of the table, case ignored. *)
Definition matches_slot (p : Sttb) (s : string) (j : Z) : Prop :=
  exists e, sttb_get p j = Some e /\ strcasecmp_eq s e = true.

(** A string with every upper-case letter replaced by its lower-case one. *)
Fixpoint lower (s : string) : string :=
  match s with
  | EmptyString => EmptyString
  | String c s' => String (tolower c) (lower s')
  end.

(** The answer to M23 for the file [name]. *)
Definition m23_response (name : string) : string :=
  nl +:+ "File opened:" +:+ name +:+ " Size:0" +:+ nl +:+ "File selected:" +:+ name.

(** The supported rates and their speed constants, as a table. *)
Definition baud_table {hdr : Header} : list (Z * speed_t) :=
  [(4800, B4800); (9600, B9600); (19200, B19200); (38400, B38400);
   (57600, B57600); (115200, B115200); (0, B115200)]
  ++ (if has_B14400 then [(14400, B14400)] else [])
  ++ (if has_B28800 then [(28800, B28800)] else []).

Fixpoint lookup_rate (baudrate : Z) (table : list (Z * speed_t)) : option speed_t :=
  match table with
  | [] => None
  | (rate, speed) :: table' =>
      if baudrate =? rate then Some speed else lookup_rate baudrate table'
  end.

(** *** Sessions and a parser for the examples *)

(** [get_extended_position] when the device does not answer. *)
Definition no_position (g : @Gpx sample_header) (t : Tio) : @Gpx sample_header * Tio :=
  (g, t).

(** The session after the device accepted "wait for extruder 0" (135). *)
Definition waiting_tio : Tio :=
  (translate_handler (hdr := sample_header) (sample_port_handler sample_response)
     no_position heap_fine 0 sample_gpx sample_tio (packet 135 0) 5).2.

(** A parser that answers M105 with one tool query (command 10, query 2),
    to which the device replies 205 degrees, and ignores every other line. *)
Definition sample_parser (g : @Gpx sample_header) (t : Tio) (line : string)
  : Z * @Gpx sample_header * Tio :=
  if String.eqb line "M105" then
    translate_handler (hdr := sample_header)
      (sample_port_handler (reply 205 0))
      no_position heap_fine 0 g t [0xD5; 3; 10; 0; 2] 5
  else (0, g, t).

(** A parser for a printer that has heated up: every line makes it ask
    whether extruder 0 is ready (command 10, query 22), whether the queue
    is empty (command 11) and for the temperature (command 10, query 2);
    the device says yes, yes and 210. *)
Definition ready_parser (g : @Gpx sample_header) (t : Tio) (line : string)
  : Z * @Gpx sample_header * Tio :=
  let '(_, g, t) :=
    translate_handler (hdr := sample_header) (sample_port_handler (reply 0 1))
      no_position heap_fine 0 g t [0xD5; 3; 10; 0; 22] 5 in
  let '(_, g, t) :=
    translate_handler (hdr := sample_header) (sample_port_handler (reply 0 1))
      no_position heap_fine 0 g t (packet 11 0) 5 in
  translate_handler (hdr := sample_header) (sample_port_handler (reply 210 1))
    no_position heap_fine 0 g t [0xD5; 3; 10; 0; 2] 5.

(** What one turn of the daemon loop writes upstream. *)
Definition upstream (r : bool * @Gpx sample_header * Tio * option (list ascii))
  : option string :=
  string_of_list_ascii <$> r.2.

(** The device identifies as Sailfish 7.23; the host has sent M115. *)
Definition sailfish_response : Response :=
  {| temperature := 0; isReady := 0; sd_status := 0;
     sd_filename := EmptyString; position_x := 0; position_y := 0;
     position_z := 0; position_a := 0; position_b := 0;
     motherboard_bitfield := 0; build_status := 0; build_lineNumber := 0;
     firmware_variant := 0x80; firmware_version := 723 |}.

Definition m115_gpx : @Gpx sample_header :=
  set_command_m 115 (set_command_flag 0x4000 sample_gpx).

(** The host asks for "abc.gco" with M23 while the table caches "ABC.gco". *)
Definition m23_gpx : @Gpx sample_header :=
  set_selectedFilename "abc.gco"
    (set_command_m 23 (set_command_flag 0x4000 sample_gpx)).

Definition listed_tio : Tio := set_sttb sample_table sample_tio.

(** The device accepted "play back capture" (16) at time 97: the deadline
    is at 100 and the session waits for the start. *)
Definition started_tio : Tio :=
  (translate_handler (hdr := sample_header) (sample_port_handler sample_response)
     no_position heap_fine 97 sample_gpx sample_tio (packet 16 0) 5).2.

(** A device-initiated cancel while waiting for the extruder, then the
    device reports an empty queue, then the daemon starts the next line:
    it resets the buffer, clears [waitForBuffer] and sets [okPending]
    because nothing is waited for. *)
Definition cancelled_tio : Tio :=
  (gpx_return_translation (hdr := sample_header) sample_parser sample_gpx
     waiting_tio 0x89).2.

Definition drained_tio : Tio :=
  (translate_handler (hdr := sample_header) (sample_port_handler (reply 0 1))
     no_position heap_fine 0 sample_gpx cancelled_tio (packet 11 0) 5).2.

Definition next_line_tio : Tio :=
  let t := set_waitflag (hdr := sample_header) waitForBuffer false
             (tio_reset drained_tio) in
  set_okPending (negb (nonzero (waiting t))) t.

(** The device accepted "abort immediately" (7): the session waits for the
    device to confirm the cancel. *)
Definition aborting_tio : Tio :=
  (translate_handler (hdr := sample_header) (sample_port_handler sample_response)
     no_position heap_fine 0 sample_gpx sample_tio (packet 7 0) 5).2.

(** The same session with a response of 1022 characters in the buffer, and
    an idle session whose response is the report "Not SD printing". *)
Definition crowded_tio : Tio :=
  tio_printf (hdr := sample_header) aborting_tio (string_of 1022 "a").

Definition reported_tio : Tio :=
  tio_printf (hdr := sample_header) sample_tio
    (nl +:+ "Not SD printing" +:+ nl).

(** ** Further functions of gpxresp.c and the predicates of their theorems *)

(** [sttb_remove].  [None] stands for undefined behaviour: [rgs[i]] read
    through a NULL array or from a slot that was never written, and
    [memcpy] between blocks that overlap (the source starts one slot after
    the destination, so they overlap as soon as two slots are copied). *)
Definition sttb_remove (psttb : Sttb) (i : Z) : option Sttb :=
  if (i <? 0) || (cs psttb <=? i) then Some psttb
  else
    match rgs psttb with
    | None => None
    | Some slots =>
        match slots !! Z.to_nat i with
        | Some (Some _) =>
            let n := cs psttb - i - 1 in
            if n =? 0 then
              Some {| rgs := Some slots; cb := cb psttb;
                      cb_expand := cb_expand psttb; cs := cs psttb - 1 |}
            else if n =? 1 then
              match slots !! Z.to_nat (i + 1) with
              | Some next =>
                  Some {| rgs := Some (<[Z.to_nat i := next]> slots);
                          cb := cb psttb; cb_expand := cb_expand psttb;
                          cs := cs psttb - 1 |}
              | None => None
              end
            else None
        | _ => None
        end
    end.

(** The invariant of the string table: the block has the size [cb] says,
    the count does not exceed its slots, and no entry below the count is
    missing.  Without an array the table is empty. *)
Definition sttb_wf (ptr : Z) (p : Sttb) : Prop :=
  0 <= cs p
  /\ match rgs p with
     | None => cs p = 0
     | Some slots =>
         length slots = slots_of ptr (cb p)
         /\ (Z.to_nat (cs p) <= length slots)%nat
         /\ forall i, 0 <= i < cs p -> is_Some (sttb_get p i)
     end.


Section Daemon.

Context {hdr : Header}.

Variable gpx_convert_line : Gpx -> Tio -> string -> Z * Gpx * Tio.
Variable gpx_start_convert : Gpx -> Gpx.
Variable gpx_sio_open : Gpx -> string -> speed_t -> bool * Z.
(** [gpx_create_daemon_port] spawns socat and opens the two ends of the
    virtual port: its return code and what it leaves in [gpx]. *)
Variable gpx_create_daemon_port : Gpx -> string -> Z * Gpx.

(** The read loop of [gpx_daemon], lines 961 to 971: one byte at a time
    into [gpx->buffer.in], at most [remaining] of them, up to a newline.
    [upstream_r] holds the bytes that [read] will deliver and [read] fails
    when they are used up.  The result is the bytes stored, without the
    newline, and the bytes not yet read; [None] is the [return EOSERROR]. *)
Fixpoint read_line (remaining : nat) (upstream_r : list ascii)
  : option (list ascii * list ascii) :=
  match remaining with
  | O => Some ([], upstream_r)
  | S remaining' =>
      match upstream_r with
      | [] => None
      | c :: rest =>
          if Ascii.eqb c LF then Some ([], rest)
          else
            match read_line remaining' rest with
            | Some (line, rest') => Some (c :: line, rest')
            | None => None
            end
      end
  end.

(** One turn of the [for (;;)] loop: the line is read, [*p = 0] makes
    [gpx->buffer.in] the C string of the bytes stored, and the body of the
    loop runs on it.  The result of [daemon_line] comes with the input that
    is left. *)
Definition daemon_turn (overflow : bool) (g : Gpx) (t : Tio)
    (upstream_r : list ascii)
  : option (bool * Gpx * Tio * option (list ascii) * list ascii) :=
  match read_line (Z.to_nat BUFFER_MAX) upstream_r with
  | None => None
  | Some (bytes, rest) =>
      let g := set_buffer_in (string_of_list_ascii (c_string bytes)) g in
      Some (daemon_line gpx_convert_line overflow g t (buffer_in g), rest)
  end.



End Daemon.

(** *** Samples for the further properties *)

(** The sample header on a platform where plain [char] is signed. *)
Definition signed_header : Header := {|
  BUFFER_MAX := 1023;
  EOL := nl;
  ptr_size := 8;
  size_bits := 64;
  char_is_signed := true;
  SUCCESS := 0;
  END_OF_FILE := 1;
  EOSERROR := -1;
  ERROR := -2;
  ESIOWRITE := -3;
  ESIOREAD := -4;
  ESIOFRAME := -5;
  ESIOCRC := -6;
  ESIOTIMEOUT := -7;
  ESIOBADBAUD := -8;
  READY_STATE := 0;
  RUNNING_STATE := 1;
  M_IS_SET := 0x4000;
  ARG_IS_SET := 0x10000;
  X_IS_SET := 0x1;
  Y_IS_SET := 0x2;
  Z_IS_SET := 0x4;
  A_IS_SET := 0x8;
  B_IS_SET := 0x10;
  wbit := sample_wbit;
  mbbit := sample_mbbit;
  has_B14400 := false;
  has_B28800 := false;
  double := Z;
  dzero := 0;
  steps_div := fun steps per_mm => steps * 100 / per_mm;
  fmt_0_2f := fun d => fmt_d (d / 100) +:+ "." +:+ fmt_u (d mod 100 / 10)
                       +:+ fmt_u (d mod 10)
|}.

Definition signed_gpx : @Gpx signed_header :=
  let one : @double signed_header := 1%Z in
  let unit_steps :=
    {| pos_x := one; pos_y := one; pos_z := one; pos_a := one; pos_b := one |} in
  {| programState := 0; macrosEnabled := false; framingEnabled := false;
     sioConnected := false; M106AlwaysValve := false; positionKnown := 0;
     excess_a := one; excess_b := one; command_flag := 0; command_m := 0;
     command_arg := EmptyString; selectedFilename := EmptyString;
     extruder_count := 1; machine_type := "r2"; steps_per_mm := unit_steps;
     current_extruder := 0; current_position := unit_steps;
     buffer_in := EmptyString; lineNumber := 1 |}.

(** A device that accepts every packet, under that header. *)
Definition signed_port_handler (g : @Gpx signed_header) (s : Sio)
    (buffer : list Z) (length : Z) : Z * @Gpx signed_header * Sio :=
  (0, g, set_response sample_response s).

(** The sample table with a second name. *)
Definition sample_table2 : Sttb :=
  (sttb_add 8 64 heap_fine sample_table "DEF.gco").2.


Definition status_reply (status : Z) : Response :=
  {| temperature := 0; isReady := 0; sd_status := 0;
     sd_filename := EmptyString; position_x := 0; position_y := 0;
     position_z := 0; position_a := 0; position_b := 0;
     motherboard_bitfield := 0; build_status := status; build_lineNumber := 0;
     firmware_variant := 0; firmware_version := 0 |}.

(** A device that rejects every packet with "buffer full" (0x82). *)
Definition busy_port_handler
    (g : @Gpx sample_header) (s : Sio) (buffer : list Z) (length : Z)
  : Z * @Gpx sample_header * Sio :=
  (0x82, g, s).


Definition sample_start_convert (g : @Gpx sample_header) : @Gpx sample_header :=
  g.

Definition sample_sio_open (g : @Gpx sample_header) (printer_port : string)
    (speed : speed_t) : bool * Z :=
  (true, 3).

Definition sample_set_machine (g : @Gpx sample_header) (machine : string)
    (init : Z) : @Gpx sample_header :=
  g.

(** A line of [n] letters. *)
Definition letters (n : nat) : list ascii := replicate n "a"%char.

(** * Theorems *)

(** ** The string table *)

Section StringTableFacts.

Variables ptr size_bits : Z.

Lemma to_size_t_small n : 0 <= n < 2 ^ size_bits -> to_size_t size_bits n = n.
Proof. intros Hn. unfold to_size_t. apply Z.mod_small, Hn. Qed.

(** A reallocation keeps the content of every slot that still fits. *)
Lemma realloc_slots_get old n (i : nat) :
  (i < slots_of ptr n)%nat ->
  mjoin (realloc_slots ptr old n !! i) = mjoin (old !! i).
Proof.
  intros Hi. unfold realloc_slots.
  destruct (decide (i < length old)%nat) as [Hold|Hold].
  - rewrite lookup_app_l by (rewrite length_take; lia).
    by rewrite lookup_take_lt.
  - rewrite (lookup_ge_None_2 old i) by lia.
    rewrite lookup_app_r by (rewrite length_take; lia).
    destruct (replicate _ _ !! _) as [x|] eqn:E; [|done].
    apply lookup_replicate in E as [-> _]. done.
Qed.

Lemma needed_bytes p :
  sttb_addressable ptr size_bits p ->
  to_size_t size_bits (ptr * to_size_t size_bits (cs p + 1)) = ptr * (cs p + 1).
Proof.
  intros (Hp & Hc & Hfit).
  rewrite (to_size_t_small (cs p + 1)) by nia.
  apply to_size_t_small. nia.
Qed.

Lemma slots_of_needed p n :
  sttb_addressable ptr size_bits p -> ptr * (cs p + 1) <= n ->
  (Z.to_nat (cs p) < slots_of ptr n)%nat.
Proof.
  intros (Hp & Hc & _) Hn. unfold slots_of.
  assert (cs p + 1 <= n / ptr) by (apply Z.div_le_lower_bound; lia).
  lia.
Qed.

Lemma sttb_add_count mem p s :
  cs (sttb_add ptr size_bits mem p s).2
  = match (sttb_add ptr size_bits mem p s).1 with
    | Some _ => cs p + 1
    | None => cs p
    end.
Proof.
  unfold sttb_add.
  destruct (rgs p) as [slots|]; [|done].
  destruct (cb p <? _); [destruct (realloc_ok mem)|];
    destruct (strdup_ok mem); done.
Qed.

Lemma sttb_add_keeps mem p s i :
  sttb_addressable ptr size_bits p -> 0 <= i < cs p ->
  sttb_get (sttb_add ptr size_bits mem p s).2 i = sttb_get p i.
Proof.
  intros Hok Hi. unfold sttb_add.
  destruct (rgs p) as [slots|] eqn:Hrgs; [|done].
  rewrite (needed_bytes p Hok).
  assert (Hne : Z.to_nat (cs p) <> Z.to_nat i) by lia.
  assert (Hgrow : forall n, ptr * (cs p + 1) <= n ->
            mjoin (realloc_slots ptr slots n !! Z.to_nat i)
            = mjoin (slots !! Z.to_nat i)).
  { intros n Hn. apply realloc_slots_get.
    pose proof (slots_of_needed p n Hok Hn). lia. }
  destruct (cb p <? ptr * (cs p + 1)) eqn:Hcb.
  - destruct (realloc_ok mem); [|done].
    set (n := if _ <? _ then _ else _).
    assert (Hn : ptr * (cs p + 1) <= n).
    { subst n.
      destruct (Z.ltb_spec (ptr * (cs p + 1))
                  (to_size_t size_bits (cb p + cb_expand p))); lia. }
    destruct (strdup_ok mem); unfold sttb_get; cbn; rewrite Hrgs;
      destruct (0 <=? i); try done.
    + rewrite list_lookup_insert_ne by done. by apply Hgrow.
    + by apply Hgrow.
  - destruct (strdup_ok mem); [|done].
    unfold sttb_get; cbn. rewrite Hrgs. cbn.
    destruct (0 <=? i); [|done].
    by rewrite list_lookup_insert_ne.
Qed.

(** A successful [sttb_add] stores the copy in slot [cs], provided the
    block is as large as [cb] says. *)
Lemma realloc_slots_length old n :
  length (realloc_slots ptr old n) = slots_of ptr n.
Proof. unfold realloc_slots. rewrite length_app, length_take, length_replicate. lia. Qed.

Lemma sttb_add_stores mem p s slots copy :
  sttb_addressable ptr size_bits p ->
  rgs p = Some slots -> length slots = slots_of ptr (cb p) ->
  (sttb_add ptr size_bits mem p s).1 = Some copy ->
  copy = s /\ sttb_get (sttb_add ptr size_bits mem p s).2 (cs p) = Some s.
Proof.
  intros Hok Hrgs Hlen. unfold sttb_add. rewrite Hrgs, (needed_bytes p Hok).
  pose proof Hok as (Hp & Hc & _).
  destruct (Z.ltb_spec (cb p) (ptr * (cs p + 1))) as [Hgrow|Hfits].
  - destruct (realloc_ok mem); [|done].
    set (n := if _ <? _ then _ else _).
    assert (Hn : ptr * (cs p + 1) <= n).
    { subst n.
      destruct (Z.ltb_spec (ptr * (cs p + 1))
                  (to_size_t size_bits (cb p + cb_expand p))); lia. }
    destruct (strdup_ok mem); [|done]. intros [= <-]. split; [done|].
    unfold sttb_get. cbn. destruct (Z.leb_spec 0 (cs p)); [|lia].
    rewrite list_lookup_insert_eq; [done|].
    rewrite realloc_slots_length. by apply slots_of_needed.
  - destruct (strdup_ok mem); [|done]. intros [= <-]. split; [done|].
    unfold sttb_get. cbn. rewrite Hrgs. cbn.
    destruct (Z.leb_spec 0 (cs p)); [|lia].
    rewrite list_lookup_insert_eq; [done|].
    rewrite Hlen. by apply slots_of_needed.
Qed.

(** When the pointer array is absent, or has to grow and [realloc]
    fails, the table is left exactly as it was. *)
Lemma sttb_add_no_array mem p s :
  rgs p = None -> sttb_add ptr size_bits mem p s = (None, p).
Proof. intros Hnull. unfold sttb_add. by rewrite Hnull. Qed.

Lemma sttb_add_realloc_fails mem p s slots :
  rgs p = Some slots ->
  cb p < to_size_t size_bits (ptr * to_size_t size_bits (cs p + 1)) ->
  realloc_ok mem = false ->
  sttb_add ptr size_bits mem p s = (None, p).
Proof.
  intros Hrgs Hgrow Hre. unfold sttb_add. rewrite Hrgs, Hre.
  by destruct (Z.ltb_spec (cb p)
                 (to_size_t size_bits (ptr * to_size_t size_bits (cs p + 1))));
    [|lia].
Qed.

(** C10.  [sttb_add] is atomic on failure: when it returns NULL the count
    and every stored element are as before; when it returns the copy, the
    count has grown by exactly one and the elements stored before are
    unchanged. *)
Theorem sttb_add_atomic mem p s :
  sttb_addressable ptr size_bits p ->
  ((sttb_add ptr size_bits mem p s).1 = None ->
     cs (sttb_add ptr size_bits mem p s).2 = cs p
     /\ forall i, 0 <= i < cs p ->
          sttb_get (sttb_add ptr size_bits mem p s).2 i = sttb_get p i)
  /\ (forall copy, (sttb_add ptr size_bits mem p s).1 = Some copy ->
        cs (sttb_add ptr size_bits mem p s).2 = cs p + 1
        /\ forall i, 0 <= i < cs p ->
             sttb_get (sttb_add ptr size_bits mem p s).2 i = sttb_get p i).
Proof.
  intros Hok. split.
  - intros Hnull. split.
    + rewrite sttb_add_count, Hnull. done.
    + intros i Hi. by apply sttb_add_keeps.
  - intros copy Hcopy. split.
    + rewrite sttb_add_count, Hcopy. done.
    + intros i Hi. by apply sttb_add_keeps.
Qed.

End StringTableFacts.

(** The theorem at the sample table: adding a second name stores it without
    touching the first. *)
Lemma sttb_add_atomic_witness :
  sttb_addressable 8 64 sample_table
  /\ cs (sttb_add 8 64 heap_fine sample_table "DEF.gco").2 = 2
  /\ sttb_get (sttb_add 8 64 heap_fine sample_table "DEF.gco").2 0 = Some "ABC.gco".
Proof.
  assert (Hok : sttb_addressable 8 64 sample_table)
    by (repeat split; vm_compute; congruence).
  split; [exact Hok|].
  destruct (sttb_add_atomic 8 64 heap_fine sample_table "DEF.gco" Hok)
    as [_ Hgood].
  destruct (Hgood "DEF.gco" eq_refl) as [Hcount Hkeep].
  split; [exact Hcount|].
  rewrite (Hkeep 0) by (vm_compute; split; congruence).
  reflexivity.
Defined.

(** ** The translation buffer *)

Lemma list_inserts_split {A} (l k : list A) (i : nat) :
  (i + length k <= length l)%nat ->
  list_inserts i k l = take i l ++ k ++ drop (i + length k) l.
Proof.
  intros Hlen.
  transitivity (list_inserts (length (take i l) + 0) k (take i l ++ drop i l)).
  { rewrite take_drop. f_equal. rewrite length_take. lia. }
  rewrite list_inserts_app_r. f_equal.
  rewrite <- (take_drop (length k) (drop i l)) at 1.
  rewrite list_inserts_0_r by (rewrite length_take, length_drop; lia).
  by rewrite drop_drop.
Qed.

Lemma chars_length s : length (chars s) = String.length s.
Proof. induction s; simpl; congruence. Qed.

Lemma strlen_nonneg s : 0 <= strlen s.
Proof. unfold strlen. lia. Qed.

Section Buffer.

Context {hdr : Header}.

(** The overflow policy: with the cursor at or past the end of the array
    an append does nothing. *)
Lemma tio_vprintf_full t s :
  sizeof_translation <= cur t -> tio_vprintf t s = (0, t).
Proof.
  intros Hfull. unfold tio_vprintf.
  destruct (Z.leb_spec sizeof_translation (cur t)); [done|lia].
Qed.

Lemma tio_printf_full t s :
  sizeof_translation <= cur t -> tio_printf t s = t.
Proof. intros Hfull. unfold tio_printf. by rewrite tio_vprintf_full. Qed.

Lemma vsnprintf_length buf pos n s :
  length (vsnprintf buf pos n s) = length buf.
Proof. unfold vsnprintf. apply length_inserts. Qed.

Lemma vsnprintf_fits buf pos n s :
  0 <= pos -> strlen s < n -> Z.to_nat (pos + n) = length buf ->
  vsnprintf buf pos n s
  = take (Z.to_nat pos) buf ++ chars s
    ++ NUL :: drop (Z.to_nat (pos + strlen s + 1)) buf.
Proof.
  intros Hpos Hn Hlen. unfold vsnprintf, strlen in *.
  rewrite take_ge by (rewrite chars_length; lia).
  rewrite list_inserts_split by (rewrite length_app, chars_length; simpl; lia).
  rewrite <- app_assoc. simpl. do 3 f_equal.
  rewrite length_app, chars_length. simpl. f_equal. lia.
Qed.

(** Below the end of the array the cursor advances by the length of the
    whole formatted text, whether or not all of it was stored. *)
Lemma tio_printf_unfold t s :
  cur t < sizeof_translation ->
  tio_printf t s
  = set_cur (cur t + strlen s)
      (set_translation
         (vsnprintf (translation t) (cur t) (sizeof_translation - cur t) s) t).
Proof.
  intros Hroom. unfold tio_printf, tio_vprintf.
  destruct (Z.leb_spec sizeof_translation (cur t)); [lia|].
  cbn [snd]. destruct (Z.ltb_spec 0 (strlen s)); [done|].
  assert (strlen s = 0) as -> by (pose proof (strlen_nonneg s); lia).
  unfold set_cur, set_translation; simpl. f_equal. lia.
Qed.

(** An append changes the buffer and the cursor, nothing else. *)
Lemma tio_printf_frame t s :
  flag (tio_printf t s) = flag t /\ waiting (tio_printf t s) = waiting t
  /\ sio (tio_printf t s) = sio t /\ sec (tio_printf t s) = sec t
  /\ sttb (tio_printf t s) = sttb t.
Proof.
  unfold tio_printf, tio_vprintf. destruct (_ <=? _); [done|].
  cbn [snd]. by destruct (0 <? _).
Qed.

Lemma tio_printf_cur t s :
  cur t < sizeof_translation -> cur (tio_printf t s) = cur t + strlen s.
Proof. intros Hroom. by rewrite tio_printf_unfold. Qed.

Lemma tio_printf_cur_mono t s : cur t <= cur (tio_printf t s).
Proof.
  destruct (Z.lt_ge_cases (cur t) sizeof_translation) as [Hroom|Hfull].
  - rewrite tio_printf_cur by done. pose proof (strlen_nonneg s). lia.
  - rewrite tio_printf_full by done. lia.
Qed.

Lemma tio_printf_line_grows t s :
  cur t < sizeof_translation -> cur t < cur (tio_printf t (nl +:+ s)).
Proof.
  intros Hroom. rewrite tio_printf_cur by done.
  unfold strlen. simpl. lia.
Qed.

(** An append that fits: the text grows by [s], the cursor stays inside
    the array and the byte under it is NUL. *)
Lemma tio_printf_fits t s :
  buffer_ok t -> cur t + strlen s < sizeof_translation ->
  buffer_ok (tio_printf t s)
  /\ cur (tio_printf t s) = cur t + strlen s
  /\ text (tio_printf t s) = text t ++ chars s
  /\ peek (tio_printf t s) (cur (tio_printf t s)) = NUL.
Proof.
  intros [Hlen Hcur] Hfit.
  pose proof (strlen_nonneg s) as Hs.
  rewrite tio_printf_unfold by lia.
  unfold buffer_ok, text, peek. cbn [translation cur set_cur set_translation].
  rewrite vsnprintf_fits by (try lia; rewrite Hlen; f_equal; lia).
  assert (Htake : length (take (Z.to_nat (cur t)) (translation t))
                  = Z.to_nat (cur t))
    by (rewrite length_take; lia).
  assert (Hpre : length (take (Z.to_nat (cur t)) (translation t) ++ chars s)
                 = Z.to_nat (cur t + strlen s)).
  { rewrite length_app, Htake, chars_length. unfold strlen in *. lia. }
  rewrite app_assoc.
  repeat split; try lia.
  - rewrite length_app, Hpre. simpl. rewrite length_drop. lia.
  - by rewrite take_app_length'.
  - rewrite lookup_app_r by lia. rewrite Hpre, Nat.sub_diag. done.
Qed.

(** An append that does not fit: the cursor is moved past the end of the
    array, where no byte of the buffer lies. *)
Lemma tio_printf_overrun t s :
  buffer_ok t -> sizeof_translation < cur t + strlen s ->
  sizeof_translation < cur (tio_printf t s)
  /\ translation (tio_printf t s) !! Z.to_nat (cur (tio_printf t s)) = None.
Proof.
  intros [Hlen Hcur] Hover.
  rewrite tio_printf_unfold by lia.
  cbn [translation cur set_cur set_translation].
  split; [lia|].
  apply lookup_ge_None_2. rewrite vsnprintf_length, Hlen. lia.
Qed.

(** What [vsnprintf] leaves in the array: the part of [s] that fits before
    the last byte of the room, then NUL. *)
Lemma vsnprintf_stored buf pos n s :
  0 <= pos -> 1 <= n -> Z.to_nat (pos + n) = length buf ->
  vsnprintf buf pos n s
  = take (Z.to_nat pos) buf
    ++ take (Z.to_nat (Z.min (strlen s) (n - 1))) (chars s)
    ++ NUL :: drop (Z.to_nat (pos + Z.min (strlen s) (n - 1) + 1)) buf.
Proof.
  intros Hpos Hn Hlen. unfold vsnprintf.
  pose proof (strlen_nonneg s) as Hs.
  assert (Htake : take (Z.to_nat (n - 1)) (chars s)
                  = take (Z.to_nat (Z.min (strlen s) (n - 1))) (chars s)).
  { destruct (Z.min_spec (strlen s) (n - 1)) as [[Hlt ->]|[Hge ->]]; [|done].
    rewrite !take_ge; [done| |]; rewrite chars_length; unfold strlen in *; lia. }
  rewrite Htake.
  assert (Hk : length (take (Z.to_nat (Z.min (strlen s) (n - 1))) (chars s))
               = Z.to_nat (Z.min (strlen s) (n - 1))).
  { rewrite length_take, chars_length. unfold strlen in *. lia. }
  rewrite list_inserts_split by (rewrite length_app, Hk; simpl; lia).
  rewrite <- app_assoc. simpl. do 3 f_equal.
  rewrite length_app, Hk. simpl. f_equal. lia.
Qed.

(** An append changes no byte before the cursor and keeps the size of the
    array. *)
Lemma tio_printf_prefix t s (k : nat) :
  0 <= cur t -> (k <= Z.to_nat (cur t))%nat ->
  length (translation t) = Z.to_nat sizeof_translation ->
  take k (translation (tio_printf t s)) = take k (translation t)
  /\ length (translation (tio_printf t s)) = length (translation t).
Proof.
  intros Hcur Hk Hlen.
  destruct (Z.lt_ge_cases (cur t) sizeof_translation) as [Hroom|Hfull].
  2: { by rewrite tio_printf_full. }
  rewrite tio_printf_unfold by done.
  cbn [translation set_cur set_translation].
  rewrite vsnprintf_length. split; [|done].
  rewrite vsnprintf_stored by (try lia; rewrite Hlen; f_equal; lia).
  rewrite take_app_le by (rewrite length_take; lia).
  rewrite take_take. f_equal. lia.
Qed.

(** An append for which the room does not suffice: the cursor reaches the
    capacity or passes it, and the last byte of the array is NUL. *)
Lemma tio_printf_no_room t s :
  length (translation t) = Z.to_nat sizeof_translation ->
  0 <= cur t < sizeof_translation ->
  sizeof_translation <= cur t + strlen s ->
  sizeof_translation <= cur (tio_printf t s)
  /\ translation (tio_printf t s) !! Z.to_nat (sizeof_translation - 1)
     = Some NUL.
Proof.
  intros Hlen Hcur Hover.
  pose proof (strlen_nonneg s) as Hs.
  rewrite tio_printf_unfold by lia.
  cbn [translation cur set_cur set_translation]. split; [lia|].
  rewrite vsnprintf_stored by (try lia; rewrite Hlen; f_equal; lia).
  replace (Z.min (strlen s) (sizeof_translation - cur t - 1))
    with (sizeof_translation - cur t - 1) by lia.
  assert (Hpre : length (take (Z.to_nat (cur t)) (translation t)
                         ++ take (Z.to_nat (sizeof_translation - cur t - 1))
                              (chars s))
                 = Z.to_nat (sizeof_translation - 1)).
  { rewrite length_app, !length_take, chars_length. unfold strlen in *. lia. }
  rewrite app_assoc, lookup_app_r by lia. by rewrite Hpre, Nat.sub_diag.
Qed.

End Buffer.

(** C1.  The code at a failing input: a file listing has filled 1020 of the
    1024 bytes of the buffer when "End file list" is appended.  [vsnprintf]
    stores three characters and a NUL and returns 13, and the cursor ends at
    1033, nine bytes past the end of the array; the claim has it bounded by
    the capacity, with a NUL under it. *)
Theorem tio_vprintf_overrun_listing :
  let t := tio_printf (hdr := sample_header) sample_tio (string_of 1020 "a") in
  let t' := tio_printf (hdr := sample_header) t "End file list" in
  sizeof_translation (hdr := sample_header) = 1024
  /\ cur t = 1020
  /\ tio_vprintf (hdr := sample_header) t "End file list" = (13, t')
  /\ cur t' = 1033
  /\ translation t' !! Z.to_nat (cur t') = None
  /\ c_string (translation t') = chars (string_of 1020 "a" +:+ "End").
Proof. vm_compute. repeat split. Qed.

(** ** The wait flags *)

Lemma wait_index_lookup f : all_wait_flags !! wait_index f = Some f.
Proof. by destruct f. Qed.

Lemma wait_index_inj f g : wait_index f = wait_index g -> f = g.
Proof. destruct f, g; simpl; congruence. Qed.

Create HintDb wait.

Section WaitFlags.
Context {hdr : Header}.
Hypothesis Hhdr : header_ok = true.

Lemma header_ok_parts :
  NoDup (wbit <$> all_wait_flags)
  /\ (forall f, 0 <= wbit f < 32)
  /\ NoDup case_labels /\ 0 <= BUFFER_MAX.
Proof.
  unfold header_ok, distinctb in Hhdr.
  apply andb_prop in Hhdr as [H1 Hmax].
  apply andb_prop in H1 as [H1 Hlabels].
  apply andb_prop in H1 as [Hbits Hrange].
  apply bool_decide_eq_true in Hbits, Hlabels.
  split_and!; [done| |done|lia].
  intros f. rewrite forallb_forall in Hrange.
  specialize (Hrange f). 
  assert (In f all_wait_flags) as Hin by (destruct f; simpl; tauto).
  apply Hrange in Hin. lia.
Qed.

Lemma wbit_range f : 0 <= wbit f < 32.
Proof. apply header_ok_parts. Qed.

Lemma wbit_inj f g : wbit f = wbit g -> f = g.
Proof.
  intros Heq. apply wait_index_inj.
  destruct header_ok_parts as [Hnd _].
  apply (NoDup_lookup _ _ _ (wbit f) Hnd).
  - by rewrite list_lookup_fmap, wait_index_lookup.
  - by rewrite list_lookup_fmap, wait_index_lookup, Heq.
Qed.

Lemma waitflag_set f g b t :
  waitflag f (set_waitflag g b t) = if same_flag f g then b else waitflag f t.
Proof.
  pose proof (wbit_range g) as Hg. pose proof (wbit_range f) as Hf.
  unfold waitflag, set_waitflag. cbn [waiting set_waiting].
  unfold same_flag. destruct (Nat.eqb_spec (wait_index f) (wait_index g)) as [E|Hne].
  - apply wait_index_inj in E as ->.
    destruct b; [apply Z.setbit_eq; lia | apply Z.clearbit_eq].
  - assert (wbit g <> wbit f) by (intros E; apply Hne; f_equal; symmetry; by apply wbit_inj).
    destruct b; [apply Z.setbit_neq | apply Z.clearbit_neq]; (lia || done).
Qed.

Lemma wait_word_ok_0 : wait_word_ok 0.
Proof. intros i Hi. by rewrite Z.bits_0 in Hi. Qed.

Lemma wait_word_ok_setbit w f : wait_word_ok w -> wait_word_ok (Z.setbit w (wbit f)).
Proof.
  intros Hw i Hi. apply Z.setbit_iff in Hi; [|apply wbit_range].
  destruct Hi as [<-|Hi]; eauto.
Qed.

Lemma wait_word_ok_clearbit w f : wait_word_ok w -> wait_word_ok (Z.clearbit w (wbit f)).
Proof.
  intros Hw i Hi. apply Z.clearbit_iff in Hi as [Hi _]. eauto.
Qed.

Lemma wait_word_any w :
  wait_word_ok w -> (w <> 0 <-> exists f, Z.testbit w (wbit f) = true).
Proof.
  intros Hw. split.
  - intros Hnz.
    destruct (existsb (fun f => Z.testbit w (wbit f)) all_wait_flags) eqn:E.
    + apply existsb_exists in E as (f & _ & Hf). eauto.
    + exfalso. apply Hnz. apply Z.bits_inj_0. intros n.
      destruct (Z.testbit w n) eqn:Hn; [|done].
      destruct (Hw n Hn) as [f ->].
      assert (existsb (fun f => Z.testbit w (wbit f)) all_wait_flags = true);
        [|congruence].
      apply existsb_exists. exists f. split; [|done].
      destruct f; simpl; tauto.
  - intros [f Hf] ->. by rewrite Z.bits_0 in Hf.
Qed.

(** *** Every function of the file keeps the bits of [waiting] among the
    ten flags *)

Lemma wait_inv_keep t t' : waiting t' = waiting t -> wait_inv t -> wait_inv t'.
Proof. unfold wait_inv. by intros ->. Qed.

Lemma wait_inv_set_waitflag f b t : wait_inv t -> wait_inv (set_waitflag f b t).
Proof.
  unfold wait_inv, set_waitflag. cbn [waiting set_waiting]. intros Hw.
  destruct b; [by apply wait_word_ok_setbit | by apply wait_word_ok_clearbit].
Qed.

Lemma wait_inv_zero t : wait_inv (set_waiting 0 t).
Proof. apply wait_word_ok_0. Qed.

Lemma waiting_tio_vprintf t s : waiting (tio_vprintf t s).2 = waiting t.
Proof.
  unfold tio_vprintf. destruct (_ <=? _); [done|].
  cbn [snd]. by destruct (0 <? _).
Qed.

Lemma wait_inv_tio_printf t s : wait_inv t -> wait_inv (tio_printf t s).
Proof. apply wait_inv_keep, waiting_tio_vprintf. Qed.

Lemma wait_inv_tio_vprintf t s : wait_inv t -> wait_inv (tio_vprintf t s).2.
Proof. apply wait_inv_keep, waiting_tio_vprintf. Qed.

Lemma wait_inv_set_cur v t : wait_inv t -> wait_inv (set_cur v t).
Proof. done. Qed.
Lemma wait_inv_set_sio v t : wait_inv t -> wait_inv (set_sio v t).
Proof. done. Qed.
Lemma wait_inv_set_sec v t : wait_inv t -> wait_inv (set_sec v t).
Proof. done. Qed.
Lemma wait_inv_set_sttb v t : wait_inv t -> wait_inv (set_sttb v t).
Proof. done. Qed.
Lemma wait_inv_set_flag v t : wait_inv t -> wait_inv (set_flag v t).
Proof. done. Qed.
Lemma wait_inv_set_listingFiles v t : wait_inv t -> wait_inv (set_listingFiles v t).
Proof. done. Qed.
Lemma wait_inv_set_getPosWhenReady v t :
  wait_inv t -> wait_inv (set_getPosWhenReady v t).
Proof. done. Qed.
Lemma wait_inv_set_okPending v t : wait_inv t -> wait_inv (set_okPending v t).
Proof. done. Qed.
Lemma wait_inv_set_cancelPending v t :
  wait_inv t -> wait_inv (set_cancelPending v t).
Proof. done. Qed.
Lemma wait_inv_set_waitClearedByCancel v t :
  wait_inv t -> wait_inv (set_waitClearedByCancel v t).
Proof. done. Qed.
Lemma wait_inv_poke i c t : wait_inv t -> wait_inv (poke i c t).
Proof. done. Qed.
Lemma wait_inv_tio_reset t : wait_inv t -> wait_inv (tio_reset t).
Proof. done. Qed.

#[local] Hint Resolve wait_inv_set_waitflag wait_inv_zero wait_inv_tio_printf
  wait_inv_tio_vprintf wait_inv_set_cur wait_inv_set_sio wait_inv_set_sec
  wait_inv_set_sttb wait_inv_set_flag wait_inv_set_listingFiles
  wait_inv_set_getPosWhenReady wait_inv_set_okPending
  wait_inv_set_cancelPending wait_inv_set_waitClearedByCancel wait_inv_poke
  wait_inv_tio_reset : wait.

(** Split every conditional of the goal, then close the branches with the
    lemmas above. *)
Ltac wait_cases :=
  intros; repeat case_match; simplify_eq; cbn [fst snd]; eauto 12 with wait.

Lemma wait_inv_flush_okPending t : wait_inv t -> wait_inv (flush_okPending t).
Proof. unfold flush_okPending. wait_cases. Qed.

Lemma wait_inv_extruder_query g t q buffer :
  wait_inv t -> wait_inv (translate_extruder_query_response g t q buffer).
Proof. unfold translate_extruder_query_response. wait_cases. Qed.

Lemma wait_inv_build_statistics now g t :
  wait_inv t -> wait_inv (translate_build_statistics now g t).
Proof.
  unfold translate_build_statistics, report_build_status. wait_cases.
Qed.

Lemma wait_inv_next_filename mem g t :
  wait_inv t -> wait_inv (translate_next_filename mem g t).
Proof. unfold translate_next_filename. wait_cases. Qed.

Lemma wait_inv_version g t : wait_inv t -> wait_inv (translate_version g t).
Proof. unfold translate_version. wait_cases. Qed.

Lemma wait_inv_motherboard t :
  wait_inv t ->
  match translate_motherboard t with
  | inl (_, t') => wait_inv t'
  | inr t' => wait_inv t'
  end.
Proof. unfold translate_motherboard. wait_cases. Qed.

Lemma wait_inv_untranslated mem g t :
  wait_inv t -> wait_inv (translate_untranslated mem g t).2.
Proof. unfold translate_untranslated. wait_cases. Qed.

#[local] Hint Resolve wait_inv_flush_okPending wait_inv_extruder_query
  wait_inv_build_statistics wait_inv_next_filename wait_inv_version
  wait_inv_untranslated : wait.

Lemma wait_inv_translate_handler ph gep mem now g t buffer length :
  (forall g0 t0, wait_inv t0 -> wait_inv (gep g0 t0).2) ->
  wait_inv t ->
  wait_inv (translate_handler ph gep mem now g t buffer length).2.
Proof.
  intros Hgep Ht. unfold translate_handler.
  destruct (length =? 0).
  { pose proof (wait_inv_untranslated mem g (flush_okPending t)) as Hu.
    destruct (translate_untranslated _ _ _). cbn in *. eauto with wait. }
  destruct (_ && _); [cbn; eauto with wait|].
  destruct (ph _ _ _ _) as [[rval g1] sio1].
  destruct (negb _); [cbn; eauto with wait|].
  set (t1 := if has_mask _ _ then _ else _).
  assert (Ht1 : wait_inv t1) by (subst t1; wait_cases).
  clearbody t1.
  repeat (destruct (_ || _) || destruct (_ =? _)); cbn [snd];
    try (wait_cases; fail).
  all: first
    [ (* command 11 *)
      destruct (nonzero _); [|done];
      destruct (getPosWhenReady _); cbn [snd]; [|wait_cases];
      pose proof (Hgep g1 (set_waitflag waitForEmptyQueue false
                             (set_waitflag waitForButton false t1))) as Hg;
      destruct (gep _ _); cbn in *; eauto 12 with wait
    | (* command 23 *)
      pose proof (wait_inv_motherboard t1 Ht1) as Hm;
      destruct (translate_motherboard t1) as [[r t2]|t2]; done ].
Qed.

Lemma wait_inv_translate_result g t fmt out :
  wait_inv t -> wait_inv (translate_result g t fmt out).2.
Proof.
  intros Ht. unfold translate_result.
  destruct (String.eqb _ _); [wait_cases|].
  pose proof (wait_inv_flush_okPending t Ht) as H0.
  set (t0 := flush_okPending t) in *. clearbody t0.
  destruct (_ && _).
  - pose proof (wait_inv_tio_vprintf t0 nl H0) as H1.
    destruct (tio_vprintf t0 nl) as [len t1].
    pose proof (wait_inv_tio_vprintf t1 "// echo: " H1) as H2.
    destruct (tio_vprintf t1 _) as [n1 t2].
    pose proof (wait_inv_tio_vprintf t2 out H2) as H3.
    by destruct (tio_vprintf t2 out).
  - pose proof (wait_inv_tio_vprintf t0 "// echo: " H0) as H2.
    destruct (tio_vprintf t0 _) as [n1 t2].
    pose proof (wait_inv_tio_vprintf t2 out H2) as H3.
    by destruct (tio_vprintf t2 out).
Qed.

Lemma wait_inv_callbacks t t' : callbacks t t' -> wait_inv t -> wait_inv t'.
Proof.
  induction 1 as [t | ph gep mem now g t buffer length t' _ IHgep _ IH
                    | g t fmt out t' _ IH]; intros Ht.
  - done.
  - apply IH, wait_inv_translate_handler; auto.
  - apply IH, wait_inv_translate_result; auto.
Qed.

Lemma wait_inv_clear_state_for_cancel g t :
  wait_inv (tio_clear_state_for_cancel g t).2.
Proof. unfold tio_clear_state_for_cancel. cbn [snd]. eauto with wait. Qed.

Lemma wait_inv_initialize mem g t : wait_inv (tio_initialize mem g t).2.
Proof. unfold tio_initialize. cbn [snd]. eauto with wait. Qed.

Lemma wait_inv_cleanup set_machine mem g t :
  wait_inv (tio_cleanup set_machine mem g t).2.
Proof. unfold tio_cleanup. cbn [snd]. eauto with wait. Qed.

Lemma wait_inv_convert_line conv g t line :
  callback_driven conv -> wait_inv t -> wait_inv (conv g t line).2.
Proof. intros Hconv. apply wait_inv_callbacks, Hconv. Qed.

Lemma wait_inv_implicit_poll conv g t rval :
  callback_driven conv -> wait_inv t -> wait_inv (implicit_poll conv g t rval).2.
Proof.
  intros Hconv Ht. unfold implicit_poll.
  destruct (_ && _); [|done]. by apply wait_inv_convert_line.
Qed.

Lemma wait_inv_report_rval g t rval :
  wait_inv t -> wait_inv (report_rval g t rval).2.
Proof.
  intros Ht. unfold report_rval.
  pose proof (wait_inv_clear_state_for_cancel g (set_cancelPending true t)) as Hc.
  destruct (tio_clear_state_for_cancel g _) as [g1 t1].
  wait_cases.
Qed.

Lemma wait_inv_finish_translation w t :
  wait_inv t -> wait_inv (finish_translation w t).
Proof. unfold finish_translation. wait_cases. Qed.

Lemma wait_inv_return_translation conv g t rval :
  callback_driven conv -> wait_inv t ->
  wait_inv (gpx_return_translation conv g t rval).2.
Proof.
  intros Hconv Ht. unfold gpx_return_translation.
  pose proof (wait_inv_implicit_poll conv g t rval Hconv Ht) as H1.
  destruct (implicit_poll conv g t rval) as [[r1 g1] t1].
  pose proof (wait_inv_report_rval g1 t1 r1 H1) as H2.
  destruct (report_rval g1 t1 r1) as [[r2 g2] t2].
  by apply wait_inv_finish_translation.
Qed.

Lemma wait_inv_write_string_core conv g t s :
  callback_driven conv -> wait_inv t ->
  wait_inv (gpx_write_string_core conv g t s).2.
Proof.
  intros Hconv Ht. unfold gpx_write_string_core.
  pose proof (wait_inv_convert_line conv (strncpy_in s g) t
                (buffer_in (strncpy_in s g)) Hconv Ht) as H1.
  destruct (conv _ _ _) as [[r1 g1] t1]. wait_cases.
Qed.

Lemma wait_inv_write_string conv g t s :
  callback_driven conv -> wait_inv t ->
  wait_inv (gpx_write_string conv g t s).2.
Proof.
  intros Hconv Ht. unfold gpx_write_string.
  pose proof (wait_inv_write_string_core conv g t s Hconv Ht) as H1.
  destruct (gpx_write_string_core conv g t s) as [[r1 g1] t1].
  by apply wait_inv_return_translation.
Qed.

Lemma wait_inv_daemon_line conv overflow g t line :
  callback_driven conv -> wait_inv t ->
  wait_inv (daemon_line conv overflow g t line).1.2.
Proof.
  intros Hconv Ht. unfold daemon_line.
  destruct overflow; [done|].
  set (t1 := set_okPending _ _).
  assert (H1 : wait_inv t1) by (subst t1; wait_cases).
  pose proof (wait_inv_write_string conv g t1 line Hconv H1) as H2.
  destruct (gpx_write_string conv g t1 line) as [[r2 g2] t2].
  cbn [fst snd]. eauto with wait.
Qed.

Lemma wait_inv_speed_from_long again t baudrate :
  wait_inv t -> wait_inv (speed_from_long again t baudrate).2.
Proof. unfold speed_from_long, tio_log_printf. wait_cases. Qed.

Lemma wait_inv_connect start open g t printer_port speed :
  wait_inv t -> wait_inv (gpx_connect start open g t printer_port speed).2.
Proof. unfold gpx_connect. wait_cases. Qed.

Lemma wait_inv_reachable t : reachable t -> wait_inv t.
Proof.
  induction 1.
  - apply wait_inv_initialize.
  - by eapply wait_inv_callbacks.
  - apply wait_inv_clear_state_for_cancel.
  - by apply wait_inv_return_translation.
  - by apply wait_inv_write_string_core.
  - by apply wait_inv_write_string.
  - by apply wait_inv_daemon_line.
  - by apply wait_inv_speed_from_long.
  - by apply wait_inv_connect.
  - apply wait_inv_cleanup.
Qed.

(** C7.  In every reachable session the word [waiting] is nonzero exactly
    when one of the ten wait flags is set. *)
Theorem waiting_iff_some_waitflag t :
  reachable t ->
  waiting t <> 0 <-> exists f, waitflag f t = true.
Proof. intros Hreach. apply wait_word_any, wait_inv_reachable, Hreach. Qed.

End WaitFlags.

(** The session that waits for extruder 0 is reachable, its word is 3, and
    [waitForEmptyQueue] is one of the flags that are set. *)
Lemma waiting_iff_some_waitflag_witness :
  header_ok (hdr := sample_header) = true
  /\ reachable (hdr := sample_header) waiting_tio
  /\ (waiting waiting_tio <> 0
      <-> exists f, waitflag (hdr := sample_header) f waiting_tio = true).
Proof.
  assert (Hhdr : header_ok (hdr := sample_header) = true) by reflexivity.
  assert (Hreach : reachable (hdr := sample_header) waiting_tio).
  { apply (reach_callbacks sample_tio); [apply reach_initialize|].
    eapply callbacks_handler; [|apply callbacks_none].
    intros g0 t0. apply callbacks_none. }
  split; [exact Hhdr|]. split; [exact Hreach|].
  exact (waiting_iff_some_waitflag Hhdr waiting_tio Hreach).
Defined.

(** ** Case-insensitive search in the string table *)

Lemma strcasecmp_eq_lower a b : strcasecmp_eq a b = true <-> lower a = lower b.
Proof.
  revert b. induction a as [|x a IH]; intros [|y b]; simpl; try done.
  destruct (Ascii.eqb_spec (tolower x) (tolower y)) as [E|E].
  - rewrite IH. split; [by intros ->; rewrite E | by intros [= _ ->]].
  - split; [done | by intros [= ? _]].
Qed.

Lemma find_from_first p s i n :
  (find_from p s i n = -1
   /\ forall j, i <= j < i + Z.of_nat n -> ~ matches_slot p s j)
  \/ (i <= find_from p s i n < i + Z.of_nat n
      /\ matches_slot p s (find_from p s i n)
      /\ forall j, i <= j < find_from p s i n -> ~ matches_slot p s j).
Proof.
  revert i. induction n as [|n IH]; intros i; cbn [find_from].
  - left. split; [done|]. intros j Hj. lia.
  - assert (Hmiss : ~ matches_slot p s i ->
              (find_from p s (i + 1) n = -1
               /\ forall j, i <= j < i + Z.of_nat (S n) -> ~ matches_slot p s j)
              \/ (i <= find_from p s (i + 1) n < i + Z.of_nat (S n)
                  /\ matches_slot p s (find_from p s (i + 1) n)
                  /\ forall j, i <= j < find_from p s (i + 1) n -> ~ matches_slot p s j)).
    { intros Hi. destruct (IH (i + 1)) as [[Hr Hnone]|(Hr & Hm & Hnone)].
      - left. split; [done|]. intros j Hj.
        destruct (decide (j = i)) as [->|]; [done|]. apply Hnone. lia.
      - right. split; [lia|split; [done|]]. intros j Hj.
        destruct (decide (j = i)) as [->|]; [done|]. apply Hnone. lia. }
    destruct (sttb_get p i) as [e|] eqn:Hget.
    + destruct (strcasecmp_eq s e) eqn:Hcmp.
      * right. split; [lia|split; [by exists e|]]. intros j Hj. lia.
      * apply Hmiss. intros (e' & He' & Hc). congruence.
    + apply Hmiss. intros (e' & He' & _). congruence.
Qed.

Lemma sttb_find_nocase_first p s :
  0 <= cs p ->
  (sttb_find_nocase p s = -1
   /\ forall j, 0 <= j < cs p -> ~ matches_slot p s j)
  \/ (0 <= sttb_find_nocase p s < cs p
      /\ matches_slot p s (sttb_find_nocase p s)
      /\ forall j, 0 <= j < sttb_find_nocase p s -> ~ matches_slot p s j).
Proof.
  intros Hcs. unfold sttb_find_nocase.
  pose proof (find_from_first p s 0 (Z.to_nat (cs p))) as H.
  rewrite Z2Nat.id in H by done. exact H.
Qed.


(** ** The deadline of the build status report *)

Section BuildStatus.
Context {hdr : Header}.
Hypothesis Hhdr : header_ok = true.

(** Every status of the protocol makes the M27 switch append a line. *)
Lemma report_build_status_grows status line t :
  cur t < sizeof_translation -> 0 <= status <= 5 ->
  cur t < cur (report_build_status status line t).
Proof.
  intros Hroom Hstatus.
  assert (status = 0 \/ status = 1 \/ status = 2 \/ status = 3
          \/ status = 4 \/ status = 5) as Hcases by lia.
  unfold report_build_status.
  destruct Hcases as [-> | [-> | [-> | [-> | [-> | ->]]]]]; cbn [Z.eqb BUILD_NONE
    BUILD_RUNNING BUILD_CANCELED BUILD_FINISHED_NORMALLY BUILD_PAUSED
    BUILD_CANCELLING Pos.eqb].
  - by apply tio_printf_line_grows.
  - by apply (tio_printf_line_grows (set_waitflag waitForStart false (set_sec 0 t))).
  - by apply tio_printf_line_grows.
  - by apply tio_printf_line_grows.
  - eapply Z.lt_le_trans; [|apply tio_printf_cur_mono].
    cbn [cur set_getPosWhenReady set_flag set_waiting].
    by apply tio_printf_line_grows.
  - by apply tio_printf_line_grows.
Qed.

(** C2, amended.  For command 24 answering M27 or a wait for start, with a
    status of the protocol and room in the buffer: the report is
    suppressed exactly when the deadline is set, the status is not
    RUNNING and the time is before the deadline.  If more than 4 seconds
    remain, the deadline and the wait for start are cleared, and the
    report is suppressed all the same; otherwise both are kept. *)
Theorem build_status_deadline now g t :
  cur t < sizeof_translation -> 0 <= sec t ->
  0 <= build_status (response (sio t)) <= 5 ->
  waitflag waitForStart t = true
    \/ (has_mask (command_flag g) M_IS_SET = true /\ command_m g = 27) ->
  let t' := translate_build_statistics now g t in
  (cur t' = cur t <-> too_early now t)
  /\ (too_early now t -> translation t' = translation t)
  /\ (too_early now t -> 4 < sec t - now ->
        sec t' = 0 /\ waitflag waitForStart t' = false)
  /\ (too_early now t -> sec t - now <= 4 ->
        sec t' = sec t /\ waitflag waitForStart t' = waitflag waitForStart t).
Proof.
  intros Hcur Hsec Hstatus Hm27 t'. subst t'.
  unfold translate_build_statistics, too_early.
  set (status := build_status (response (sio t))) in *.
  (* the first step touches the flag waitForBotCancel only *)
  set (t1 := if waitflag waitForBotCancel t then _ else t).
  assert (Hstart1 : waitflag waitForStart t1 = waitflag waitForStart t).
  { subst t1. repeat case_match; try done. by rewrite (waitflag_set Hhdr). }
  assert (Hsame : translation t1 = translation t /\ cur t1 = cur t
                  /\ sec t1 = sec t).
  { subst t1. by repeat case_match. }
  destruct Hsame as (Htr1 & Hcur1 & Hsec1).
  clearbody t1.
  assert (waitflag waitForStart t1
            || has_mask (command_flag g) M_IS_SET && (command_m g =? 27) = true)
    as ->.
  { rewrite Hstart1. destruct Hm27 as [->|[-> ->]]; [done|].
    by rewrite orb_true_r. }
  rewrite Hsec1. unfold nonzero, BUILD_RUNNING.
  destruct (Z.eqb_spec (sec t) 0) as [Hz|Hnz];
    [|destruct (Z.eqb_spec status 1) as [Hrun|Hrun];
      [|destruct (Z.ltb_spec now (sec t)) as [Hnow|Hnow]]];
    cbn [negb andb].
  3: { (* the deadline lies ahead: nothing is appended *)
    destruct (Z.ltb_spec 4 (sec t - now)) as [Hjump|Hjump];
      cbn [cur translation sec set_waitflag set_waiting set_sec];
      rewrite ?Hcur1, ?Htr1, ?Hsec1; split_and!; try done; try lia.
    intros _ _. split; [done|]. by rewrite (waitflag_set Hhdr). }
  all: pose proof (report_build_status_grows status
                     (build_lineNumber (response (sio t))) t1) as Hgrow;
    split_and!; try (intros; lia); split; lia.
Qed.
End BuildStatus.

(** C2 as stated fails.  The print was started at time 97 and the status
    NONE arrives when the clock reads 10: with 90 seconds left to the
    deadline the claim has the report delivered, and the code suppresses it
    while clearing the deadline. *)
Lemma build_status_clock_jump :
  let t := started_tio in
  let t' := translate_build_statistics (hdr := sample_header) 10 sample_gpx t in
  ~ (cur t' = cur t <->
       (0 < sec t /\ build_status (response (sio t)) <> BUILD_RUNNING
        /\ 10 < sec t /\ sec t - 10 <= 4))
  /\ 4 < sec t - 10 /\ cur t' = cur t /\ translation t' = translation t
  /\ sec t' = 0.
Proof.
  vm_compute. split_and!; try done.
  intros [H _]. destruct (H eq_refl) as (_ & _ & _ & Hle). by apply Hle.
Qed.

(** Two seconds before the deadline nothing is reported and the deadline
    stays. *)
Lemma build_status_deadline_witness :
  header_ok (hdr := sample_header) = true
  /\ cur started_tio < sizeof_translation (hdr := sample_header)
  /\ cur (translate_build_statistics (hdr := sample_header) 98 sample_gpx started_tio)
     = cur started_tio
  /\ sec (translate_build_statistics (hdr := sample_header) 98 sample_gpx started_tio)
     = 100.
Proof.
  assert (Hhdr : header_ok (hdr := sample_header) = true) by reflexivity.
  assert (Hroom : cur started_tio < sizeof_translation (hdr := sample_header))
    by reflexivity.
  assert (Hsec : 0 <= sec started_tio) by (vm_compute; congruence).
  assert (Hstatus : 0 <= build_status (response (sio started_tio)) <= 5)
    by (vm_compute; split; congruence).
  assert (Hstart :
            waitflag (hdr := sample_header) waitForStart started_tio = true
            \/ (has_mask (command_flag sample_gpx)
                   (M_IS_SET (Header := sample_header)) = true
                /\ command_m sample_gpx = 27))
    by (left; reflexivity).
  destruct (build_status_deadline (hdr := sample_header) Hhdr 98 sample_gpx
              started_tio Hroom Hsec Hstatus Hstart)
    as (Hsuppressed & _ & _ & Hkept).
  assert (Hearly : too_early 98 started_tio)
    by (vm_compute; split_and!; congruence).
  split_and!; [exact Hhdr | exact Hroom | by apply Hsuppressed |].
  apply Hkept; [exact Hearly | vm_compute; congruence].
Defined.

(** ** The cancel code 0x89 in the finalizer *)

Section Cancel.
Context {hdr : Header}.
Hypothesis Hhdr : header_ok = true.

Lemma label_0x89 :
  (0x89 =? SUCCESS) = false /\ (0x89 =? END_OF_FILE) = false
  /\ (0x89 =? EOSERROR) = false /\ (0x89 =? ERROR) = false
  /\ (0x89 =? ESIOWRITE) = false /\ (0x89 =? ESIOREAD) = false
  /\ (0x89 =? ESIOFRAME) = false /\ (0x89 =? ESIOCRC) = false
  /\ (0x89 =? ESIOTIMEOUT) = false.
Proof.
  destruct (header_ok_parts Hhdr) as (_ & _ & Hnd & _).
  unfold case_labels in Hnd.
  assert (forall i x, (i < 9)%nat -> case_labels !! i = Some x -> (0x89 =? x) = false)
    as Hother.
  { intros i x Hi Hx. apply Z.eqb_neq. intros <-.
    assert (case_labels !! 16%nat = Some 0x89) as H16 by done.
    pose proof (NoDup_lookup _ _ _ _ Hnd Hx H16). lia. }
  split_and!; [eapply (Hother 0%nat)|eapply (Hother 1%nat)|eapply (Hother 2%nat)
    |eapply (Hother 3%nat)|eapply (Hother 4%nat)|eapply (Hother 5%nat)
    |eapply (Hother 6%nat)|eapply (Hother 7%nat)|eapply (Hother 8%nat)];
    (lia || done).
Qed.

Lemma report_rval_0x89 g t :
  report_rval g t 0x89
  = if waitflag waitForBotCancel t
    then (SUCCESS, g, set_waitflag waitForBotCancel false t)
    else (0x89, (tio_clear_state_for_cancel g (set_cancelPending true t)).1,
          tio_printf (tio_clear_state_for_cancel g (set_cancelPending true t)).2
            "Build cancelled").
Proof.
  destruct label_0x89 as (H1 & H2 & H3 & H4 & H5 & H6 & H7 & H8 & H9).
  unfold report_rval.
  rewrite H1, H2, H3, H4, H5, H6, H7, H8, H9. cbn.
  by destruct (waitflag waitForBotCancel t).
Qed.

Lemma return_translation_0x89 conv g t :
  gpx_return_translation conv g t 0x89
  = let '(rval, g', t') := report_rval (leave_ended g) t 0x89 in
    (rval, g', finish_translation (waiting t) t').
Proof.
  destruct label_0x89 as (H1 & _).
  unfold gpx_return_translation, implicit_poll. rewrite H1. done.
Qed.

(** C3.  The finalizer called with 0x89 maps the code with [report_rval]
    and then applies its trailing rule.  If [waitForBotCancel] is set, the
    mapping clears that flag and returns SUCCESS, and leaves the text, the
    other wait flags and the session flags alone.  Otherwise it sets
    [cancelPending], resets the session (program state READY, known
    positions and excess cleared, [waiting] zeroed and then
    [waitForEmptyQueue] set, [getPosWhenReady] cleared,
    [waitClearedByCancel] recorded if a wait was active) and appends
    "Build cancelled". *)
Theorem cancel_code_handling conv g t :
  let r := report_rval (leave_ended g) t 0x89 in
  gpx_return_translation conv g t 0x89
    = (r.1.1, r.1.2, finish_translation (waiting t) r.2)
  /\ (waitflag waitForBotCancel t = true ->
       r.1.1 = SUCCESS /\ r.1.2 = leave_ended g
       /\ waitflag waitForBotCancel r.2 = false
       /\ (forall f, f <> waitForBotCancel -> waitflag f r.2 = waitflag f t)
       /\ translation r.2 = translation t /\ cur r.2 = cur t
       /\ flag r.2 = flag t)
  /\ (waitflag waitForBotCancel t = false ->
        r.1.1 = 0x89
        /\ cancelPending (flag r.2) = true
        /\ programState r.1.2 = READY_STATE
        /\ positionKnown r.1.2 = 0
        /\ excess_a r.1.2 = dzero /\ excess_b r.1.2 = dzero
        /\ (forall f, waitflag f r.2 = same_flag f waitForEmptyQueue)
        /\ getPosWhenReady (flag r.2) = false
        /\ waitClearedByCancel (flag r.2)
           = nonzero (waiting t) || waitClearedByCancel (flag t)
        /\ (buffer_ok t -> cur t + 15 < sizeof_translation ->
              text r.2 = text t ++ chars "Build cancelled")).
Proof.
  intros r. subst r. split.
  { rewrite return_translation_0x89.
    by destruct (report_rval (leave_ended g) t 137) as [[r1 g1] t1]. }
  set (g0 := leave_ended g). clearbody g0.
  rewrite report_rval_0x89. split; intros ->; cbn [fst snd].
  - split_and!; try done.
    + by rewrite (waitflag_set Hhdr).
    + intros f Hf. rewrite (waitflag_set Hhdr).
      unfold same_flag.
      destruct (Nat.eqb_spec (wait_index f) (wait_index waitForBotCancel))
        as [E|]; [|done].
      by apply wait_index_inj in E.
  - unfold tio_clear_state_for_cancel. cbn [fst snd].
    set (t1 := set_getPosWhenReady false _).
    destruct (tio_printf_frame t1 "Build cancelled") as (Hflag & Hwait & _).
    split_and!; try done.
    + rewrite Hflag. subst t1. cbn [waiting set_cancelPending set_flag].
      by destruct (nonzero (waiting t)).
    + intros f. unfold waitflag. rewrite Hwait. subst t1.
      change (waitflag f (set_waitflag waitForEmptyQueue true
                (set_waiting 0 (if nonzero (waiting (set_cancelPending true t))
                   then set_waitClearedByCancel true (set_cancelPending true t)
                   else set_cancelPending true t)))
              = same_flag f waitForEmptyQueue).
      rewrite (waitflag_set Hhdr).
      destruct (same_flag f waitForEmptyQueue); [done|].
      unfold waitflag. cbn [waiting set_waiting]. apply Z.bits_0.
    + by rewrite Hflag.
    + rewrite Hflag. subst t1. cbn [waiting set_cancelPending set_flag].
      destruct (nonzero (waiting t)); reflexivity.
    + intros [Hlen Hcur] Hroom.
      assert (Hok1 : buffer_ok t1).
      { subst t1. split; cbn [waiting set_cancelPending set_flag];
          destruct (nonzero (waiting t)); assumption. }
      assert (Htext : text t1 = text t /\ cur t1 = cur t).
      { subst t1. cbn [waiting set_cancelPending set_flag].
        destruct (nonzero (waiting t)); split; reflexivity. }
      destruct Htext as [Htext Hcur1].
      destruct (tio_printf_fits t1 "Build cancelled" Hok1) as (_ & _ & Happ & _).
      { rewrite Hcur1. unfold strlen. simpl. lia. }
      by rewrite Happ, Htext.
Qed.
End Cancel.

(** The device confirms an abort the host asked for: the code becomes
    SUCCESS, the flag is cleared and no text is emitted by the mapping. *)
Lemma cancel_code_handling_witness :
  header_ok (hdr := sample_header) = true
  /\ (report_rval (hdr := sample_header) (leave_ended sample_gpx) aborting_tio
        0x89).1.1 = 0
  /\ cur (report_rval (hdr := sample_header) (leave_ended sample_gpx)
            aborting_tio 0x89).2 = 0.
Proof.
  assert (Hhdr : header_ok (hdr := sample_header) = true) by reflexivity.
  destruct (cancel_code_handling Hhdr sample_parser sample_gpx aborting_tio)
    as (_ & Hasked & _).
  destruct (Hasked eq_refl) as (Hcode & _ & _ & _ & _ & Hcur & _).
  split; [exact Hhdr|]. split; [exact Hcode | exact Hcur].
Defined.

(** ** Queueable commands while a cancel is pending *)

Lemma top_bit_unsigned b : 128 <= b < 256 -> has_mask b 0x80 = true.
Proof.
  intros Hb.
  assert (forallb (fun b => has_mask b 0x80) (seqZ 128 128) = true) as Hall
    by (vm_compute; reflexivity).
  rewrite forallb_forall in Hall. apply Hall.
  apply list_elem_of_In, elem_of_seqZ. lia.
Qed.

Lemma top_bit_signed b : 128 <= b < 256 -> has_mask (b - 256 + 2 ^ 32) 0x80 = true.
Proof.
  intros Hb.
  assert (forallb (fun b => has_mask (b - 256 + 2 ^ 32) 0x80) (seqZ 128 128) = true)
    as Hall by (vm_compute; reflexivity).
  rewrite forallb_forall in Hall.
  apply (Hall b). apply list_elem_of_In, elem_of_seqZ. lia.
Qed.

Section CancelDrain.
Context {hdr : Header}.

Lemma queueable_command buffer b :
  buffer !! Z.to_nat COMMAND_OFFSET = Some b -> 128 <= b < 256 ->
  has_mask (packet_byte buffer COMMAND_OFFSET) 0x80 = true.
Proof.
  intros Hb Hrange. unfold packet_byte. rewrite Hb.
  change (default 0 (Some b)) with b.
  destruct (Z.leb_spec 128 b); [|lia].
  destruct char_is_signed; cbn [andb];
    [by apply top_bit_signed | by apply top_bit_unsigned].
Qed.

Lemma flush_okPending_frame t :
  waiting (flush_okPending t) = waiting t
  /\ sio (flush_okPending t) = sio t /\ sec (flush_okPending t) = sec t
  /\ sttb (flush_okPending t) = sttb t
  /\ listingFiles (flag (flush_okPending t)) = listingFiles (flag t)
  /\ getPosWhenReady (flag (flush_okPending t)) = getPosWhenReady (flag t)
  /\ cancelPending (flag (flush_okPending t)) = cancelPending (flag t)
  /\ waitClearedByCancel (flag (flush_okPending t)) = waitClearedByCancel (flag t).
Proof.
  unfold flush_okPending. destruct (okPending (flag t)); [|done].
  destruct (tio_printf_frame (set_okPending false t) "ok")
    as (-> & -> & -> & -> & ->). done.
Qed.

(** C8, amended.  While [cancelPending] is set, a reply to a queueable
    command (top bit of the command byte set) makes the translator return
    SUCCESS without calling the port handler, after the pending-ok rule
    that heads every call: if [okPending] is set it is cleared and "ok" is
    appended.  The wait flags and the rest of the session are unchanged,
    and with [okPending] clear nothing at all is modified. *)
Theorem cancel_drain ph gep mem now g t buffer length b :
  cancelPending (flag t) = true ->
  length <> 0 ->
  buffer !! Z.to_nat COMMAND_OFFSET = Some b -> 128 <= b < 256 ->
  translate_handler ph gep mem now g t buffer length
    = (SUCCESS, g, flush_okPending t)
  /\ (okPending (flag t) = false -> flush_okPending t = t)
  /\ (okPending (flag t) = true ->
        flush_okPending t = tio_printf (set_okPending false t) "ok")
  /\ waiting (flush_okPending t) = waiting t
  /\ sio (flush_okPending t) = sio t /\ sec (flush_okPending t) = sec t
  /\ sttb (flush_okPending t) = sttb t
  /\ listingFiles (flag (flush_okPending t)) = listingFiles (flag t)
  /\ getPosWhenReady (flag (flush_okPending t)) = getPosWhenReady (flag t)
  /\ cancelPending (flag (flush_okPending t)) = cancelPending (flag t)
  /\ waitClearedByCancel (flag (flush_okPending t)) = waitClearedByCancel (flag t).
Proof.
  intros Hcancel Hlen Hb Hrange.
  pose proof (flush_okPending_frame t) as Hframe.
  split; [|split; [|split]]; try exact Hframe.
  - unfold translate_handler.
    destruct (Z.eqb_spec length 0); [done|].
    destruct Hframe as (_ & _ & _ & _ & _ & _ & -> & _).
    by rewrite Hcancel, (queueable_command buffer b).
  - unfold flush_okPending. by intros ->.
  - unfold flush_okPending. by intros ->.
Qed.
End CancelDrain.

(** C8 as stated fails.  The device cancelled, the queue has drained, and
    the host sends a move before it acknowledges the cancel: the reply to
    the queueable command 155 is dropped, but "ok" is put into the
    translation buffer and [okPending] is cleared. *)
Lemma cancel_drain_emits_ok :
  let t := next_line_tio in
  let r := translate_handler (hdr := sample_header)
             (sample_port_handler sample_response) no_position heap_fine 0
             sample_gpx t (packet 155 0) 5 in
  cancelPending (flag t) = true
  /\ packet 155 0 !! Z.to_nat COMMAND_OFFSET = Some 155
  /\ r.1.1 = 0
  /\ text t = []
  /\ text r.2 = chars "ok"
  /\ okPending (flag t) = true /\ okPending (flag r.2) = false
  /\ r.2 <> t.
Proof. vm_compute. split_and!; done. Qed.

(** With [okPending] clear the reply to command 155 is dropped and the
    session stays as it is. *)
Lemma cancel_drain_witness :
  let t := set_cancelPending true sample_tio in
  cancelPending (flag t) = true
  /\ translate_handler (hdr := sample_header)
       (sample_port_handler sample_response) no_position heap_fine 0
       sample_gpx t (packet 155 0) 5
     = (0, sample_gpx, t).
Proof.
  intros t.
  assert (Hcancel : cancelPending (flag t) = true) by reflexivity.
  assert (Hlen : 5 <> 0) by congruence.
  assert (Hbyte : packet 155 0 !! Z.to_nat COMMAND_OFFSET = Some 155)
    by reflexivity.
  assert (Hrange : 128 <= 155 < 256) by (split; vm_compute; congruence).
  destruct (cancel_drain (hdr := sample_header)
              (sample_port_handler sample_response) no_position heap_fine 0
              sample_gpx t (packet 155 0) 5 155 Hcancel Hlen Hbyte Hrange)
    as (Hdrop & Hsame & _).
  split; [exact Hcancel|].
  rewrite Hdrop, (Hsame eq_refl). reflexivity.
Defined.


(** ** The finalizer *)

Section Finalizer.
Context {hdr : Header}.

Lemma return_translation_parts conv g t rval :
  (gpx_return_translation conv g t rval).2
  = finish_translation (waiting t) (before_finish conv g t rval).
Proof.
  unfold gpx_return_translation, before_finish.
  destruct (implicit_poll conv g t rval) as [[r1 g1] t1].
  by destruct (report_rval g1 t1 r1) as [[r2 g2] t2].
Qed.

Lemma text_length t : buffer_ok t -> length (text t) = Z.to_nat (cur t).
Proof. intros [Hlen Hcur]. unfold text. rewrite length_take. lia. Qed.

(** The character before the cursor is the last one of the text. *)
Lemma last_text t :
  buffer_ok t ->
  last (text t) = if 0 <? cur t then Some (peek t (cur t - 1)) else None.
Proof.
  intros Hok. pose proof (text_length t Hok) as Hlen.
  destruct Hok as [Hsize Hcur].
  rewrite last_lookup, Hlen.
  destruct (Z.ltb_spec 0 (cur t)) as [Hpos|Hzero].
  - unfold text, peek. rewrite lookup_take_lt by lia.
    replace (Init.Nat.pred (Z.to_nat (cur t))) with (Z.to_nat (cur t - 1)) by lia.
    destruct (translation t !! Z.to_nat (cur t - 1)) eqn:E; [done|].
    apply lookup_ge_None in E. lia.
  - unfold text. replace (Z.to_nat (cur t)) with 0%nat by lia. done.
Qed.

Lemma waiting_finish_translation w t :
  waiting (finish_translation w t) = waiting t.
Proof.
  unfold finish_translation.
  repeat case_match; try done;
    repeat (match goal with
            | |- context [waiting (tio_printf ?t ?s)] =>
                destruct (tio_printf_frame t s) as (_ & -> & _)
            end); done.
Qed.

(** The character before the cursor is the last one of the text, also when
    the cursor stands at the end of the array. *)
Lemma last_text_within t :
  length (translation t) = Z.to_nat sizeof_translation ->
  0 <= cur t <= sizeof_translation ->
  last (text t)
  = if 0 <? cur t then translation t !! Z.to_nat (cur t - 1) else None.
Proof.
  intros Hsize Hcur.
  assert (Hlen : length (text t) = Z.to_nat (cur t))
    by (unfold text; rewrite length_take; lia).
  rewrite last_lookup, Hlen.
  destruct (Z.ltb_spec 0 (cur t)) as [Hpos|Hzero].
  - unfold text. rewrite lookup_take_lt by lia.
    f_equal. lia.
  - unfold text. replace (Z.to_nat (cur t)) with 0%nat by lia. done.
Qed.

(** The test [tio.cur > 0 && tio.translation[tio.cur - 1] == '\n'] in terms
    of the text. *)
Lemma ends_in_newline t :
  length (translation t) = Z.to_nat sizeof_translation ->
  0 <= cur t <= sizeof_translation ->
  (0 <? cur t) && Ascii.eqb (peek t (cur t - 1)) LF
  = bool_decide (last (text t) = Some LF).
Proof.
  intros Hsize Hcur. rewrite (last_text_within t Hsize Hcur).
  destruct (Z.ltb_spec 0 (cur t)) as [Hpos|Hzero]; cbn [andb].
  2: { by rewrite bool_decide_eq_false_2. }
  unfold peek.
  destruct (translation t !! Z.to_nat (cur t - 1)) as [c|] eqn:E.
  - cbn. destruct (Ascii.eqb_spec c LF) as [->|Hne].
    + by rewrite bool_decide_eq_true_2.
    + rewrite bool_decide_eq_false_2; [done|]. congruence.
  - apply lookup_ge_None in E. lia.
Qed.

(** The last part of the finalizer when the call has cleared the wait. *)
Lemma finish_translation_ok_room w t :
  length (translation t) = Z.to_nat sizeof_translation ->
  0 <= cur t <= sizeof_translation ->
  w <> 0 -> waiting t = 0 ->
  let sep := newline_if_needed (text t) in
  let t' := finish_translation w t in
  (cur t + Z.of_nat (length sep) + 2 < sizeof_translation ->
   text t' = text t ++ sep ++ chars "ok"
   /\ cur t' = cur t + Z.of_nat (length sep) + 2
   /\ translation t' !! Z.to_nat (cur t') = Some NUL
   /\ length (translation t') = length (translation t))
  /\ (sizeof_translation <= cur t + Z.of_nat (length sep) + 2 ->
      sizeof_translation <= cur t'
      /\ take (Z.to_nat (cur t)) (translation t') = text t
      /\ length (translation t') = length (translation t)
      /\ (cur t < sizeof_translation ->
          translation t' !! Z.to_nat (sizeof_translation - 1) = Some NUL)).
Proof.
  intros Hsize Hcur Hw Hwait sep t'.
  assert (Hsep : sep = if (0 <? cur t)
                          && negb (Ascii.eqb (peek t (cur t - 1)) LF)
                       then [LF] else []).
  { subst sep. unfold newline_if_needed.
    rewrite (last_text_within t Hsize Hcur).
    destruct (Z.ltb_spec 0 (cur t)) as [Hpos|Hzero]; cbn [andb]; [|done].
    unfold peek.
    destruct (translation t !! Z.to_nat (cur t - 1)) as [c|] eqn:E.
    - cbn. by destruct (Ascii.eqb c LF).
    - apply lookup_ge_None in E. lia. }
  assert (Ht' : t' = tio_printf
                       (if (0 <? cur t)
                           && negb (Ascii.eqb (peek t (cur t - 1)) LF)
                        then tio_printf t nl else t) "ok").
  { subst t'. unfold finish_translation, nonzero. rewrite Hwait.
    by destruct (Z.eqb_spec w 0). }
  clearbody t' sep. subst t' sep.
  assert (Hnl : strlen nl = 1) by done.
  assert (Hokl : strlen "ok" = 2) by done.
  assert (Hnul : forall u, buffer_ok u -> peek u (cur u) = NUL ->
                   translation u !! Z.to_nat (cur u) = Some NUL).
  { intros u [Hl Hc] Hp. unfold peek in Hp.
    destruct (translation u !! Z.to_nat (cur u)) as [c|] eqn:E; [by cbn in Hp; subst|].
    apply lookup_ge_None in E. lia. }
  destruct ((0 <? cur t) && negb (Ascii.eqb (peek t (cur t - 1)) LF));
    cbn [length Z.of_nat Pos.of_succ_nat].
  - (* a newline, then ok *)
    split.
    + intros Hroom.
      assert (Hok : buffer_ok t) by (split; [done|lia]).
      destruct (tio_printf_fits t nl Hok) as (Hok1 & Hcur1 & Htext1 & _); [lia|].
      destruct (tio_printf_fits (tio_printf t nl) "ok" Hok1)
        as (Hok2 & Hcur2 & Htext2 & Hpeek2); [lia|].
      destruct (tio_printf_prefix t nl 0) as [_ Hl1]; [lia|lia|done|].
      destruct (tio_printf_prefix (tio_printf t nl) "ok" 0) as [_ Hl2];
        [lia|lia|congruence|].
      split_and!.
      * by rewrite Htext2, Htext1, <- app_assoc.
      * lia.
      * by apply Hnul.
      * congruence.
    + intros Hover.
      destruct (Z.lt_ge_cases (cur t) sizeof_translation) as [Hin|Hfull].
      2: { rewrite (tio_printf_full t nl) by done.
           rewrite tio_printf_full by done. split_and!; try done; lia. }
      destruct (tio_printf_prefix t nl (Z.to_nat (cur t))) as [Hp1 Hl1];
        [lia|lia|done|].
      destruct (Z.lt_ge_cases (cur t + 1) sizeof_translation) as [Hone|Hnone].
      * assert (Hok : buffer_ok t) by (split; [done|lia]).
        destruct (tio_printf_fits t nl Hok) as (Hok1 & Hcur1 & _); [lia|].
        destruct (tio_printf_no_room (tio_printf t nl) "ok") as [Hc2 Hn2];
          [congruence|lia|lia|].
        destruct (tio_printf_prefix (tio_printf t nl) "ok" (Z.to_nat (cur t)))
          as [Hp2 Hl2]; [lia|lia|congruence|].
        split_and!; [done| |congruence|done].
        by rewrite Hp2, Hp1.
      * destruct (tio_printf_no_room t nl) as [Hc1 Hn1]; [done|lia|lia|].
        rewrite (tio_printf_full (tio_printf t nl)) by done.
        split_and!; done.
  - (* ok only *)
    rewrite Z.add_0_r. split.
    + intros Hroom.
      assert (Hok : buffer_ok t) by (split; [done|lia]).
      destruct (tio_printf_fits t "ok" Hok) as (Hok2 & Hcur2 & Htext2 & Hpeek2);
        [lia|].
      destruct (tio_printf_prefix t "ok" 0) as [_ Hl2]; [lia|lia|done|].
      split_and!; [done|lia|by apply Hnul|done].
    + intros Hover.
      destruct (Z.lt_ge_cases (cur t) sizeof_translation) as [Hin|Hfull].
      2: { rewrite tio_printf_full by done. split_and!; try done; lia. }
      destruct (tio_printf_no_room t "ok") as [Hc2 Hn2]; [done|lia|lia|].
      destruct (tio_printf_prefix t "ok" (Z.to_nat (cur t))) as [Hp2 Hl2];
        [lia|lia|done|].
      split_and!; done.
Qed.

(** The last part of the finalizer when the call has not cleared a wait. *)
Lemma finish_translation_strip_store w t :
  length (translation t) = Z.to_nat sizeof_translation ->
  0 <= cur t <= sizeof_translation ->
  ~ (w <> 0 /\ waiting t = 0) ->
  let t' := finish_translation w t in
  text t' = strip_newline (text t)
  /\ (last (text t) = Some LF ->
      cur t' = cur t - 1
      /\ translation t' = <[Z.to_nat (cur t - 1) := NUL]> (translation t)
      /\ translation t' !! Z.to_nat (cur t') = Some NUL)
  /\ (last (text t) <> Some LF -> t' = t).
Proof.
  intros Hsize Hcur Hnot t'.
  assert (Ht' : t' = if bool_decide (last (text t) = Some LF)
                     then poke (cur t - 1) NUL (set_cur (cur t - 1) t) else t).
  { subst t'. unfold finish_translation, nonzero.
    rewrite <- (ends_in_newline t Hsize Hcur).
    destruct (Z.eqb_spec w 0); [done|].
    destruct (Z.eqb_spec (waiting t) 0); [|done]. tauto. }
  clearbody t'. subst t'.
  pose proof (last_text_within t Hsize Hcur) as Hlast.
  destruct (decide (last (text t) = Some LF)) as [Hlf|Hnlf].
  - rewrite bool_decide_eq_true_2 by done.
    assert (Hpos : 0 < cur t).
    { destruct (Z.ltb_spec 0 (cur t)); [done|]. rewrite Hlf in Hlast. done. }
    unfold poke. cbn [translation cur set_cur set_translation].
    split_and!.
    + unfold strip_newline, text. fold (text t). rewrite Hlf.
      cbn [translation cur set_cur set_translation]. rewrite Ascii.eqb_refl.
      rewrite take_insert_ge by lia.
      unfold text. rewrite take_take, length_take. f_equal. lia.
    + intros _. split_and!; [done|done|].
      rewrite list_lookup_insert_eq by lia. done.
    + done.
  - rewrite bool_decide_eq_false_2 by done.
    split_and!; [|done|done].
    unfold strip_newline. destruct (last (text t)) as [c|]; [|done].
    destruct (Ascii.eqb_spec c LF); [congruence|done].
Qed.

(** C4, amended.  The last part of the finalizer leaves [waiting] alone,
    and for every call that reaches it with the cursor within the array it
    does the following.  If the session was waiting when the finalizer was
    called and is not waiting when it returns, "ok" is appended to the text,
    after a newline when the text is not empty and does not end in one,
    provided the buffer has room for these bytes and the NUL; the cursor is
    then inside the array with a NUL under it.  Without that room the
    overflow policy of the buffer applies: the text before the cursor stays,
    the cursor reaches the capacity or passes it and the array ends in NUL,
    so the "ok" is cut or dropped.  Otherwise a trailing newline, if
    present, is stripped: NUL is stored over it and the cursor moves back by
    one; a text without a trailing newline leaves the session as it is. *)
Theorem finalizer_trailing_ok conv g t rval :
  let mid := before_finish conv g t rval in
  let t' := (gpx_return_translation conv g t rval).2 in
  let sep := newline_if_needed (text mid) in
  length (translation mid) = Z.to_nat sizeof_translation ->
  0 <= cur mid <= sizeof_translation ->
  waiting t' = waiting mid
  /\ (waiting t <> 0 -> waiting t' = 0 ->
      (cur mid + Z.of_nat (length sep) + 2 < sizeof_translation ->
       text t' = text mid ++ sep ++ chars "ok"
       /\ cur t' = cur mid + Z.of_nat (length sep) + 2
       /\ translation t' !! Z.to_nat (cur t') = Some NUL
       /\ length (translation t') = length (translation mid))
      /\ (sizeof_translation <= cur mid + Z.of_nat (length sep) + 2 ->
          sizeof_translation <= cur t'
          /\ take (Z.to_nat (cur mid)) (translation t') = text mid
          /\ length (translation t') = length (translation mid)
          /\ (cur mid < sizeof_translation ->
              translation t' !! Z.to_nat (sizeof_translation - 1) = Some NUL)))
  /\ (~ (waiting t <> 0 /\ waiting t' = 0) ->
      text t' = strip_newline (text mid)
      /\ (last (text mid) = Some LF ->
          cur t' = cur mid - 1
          /\ translation t'
             = <[Z.to_nat (cur mid - 1) := NUL]> (translation mid)
          /\ translation t' !! Z.to_nat (cur t') = Some NUL)
      /\ (last (text mid) <> Some LF -> t' = mid)).
Proof.
  intros mid t' sep Hsize Hcur. subst t' sep.
  rewrite return_translation_parts. fold mid.
  rewrite waiting_finish_translation.
  split_and!; [done| |].
  - intros Hbefore Hafter. by apply finish_translation_ok_room.
  - intros Hnot. by apply finish_translation_strip_store.
Qed.

(** C5.  When the finalizer is called with SUCCESS for a session that is
    waiting and whose translation buffer is empty, it stores "M105" in the
    input buffer and runs the parser on it; the code the parser returns and
    the session it leaves are what the rest of the finalizer works on. *)
Theorem implicit_temperature_poll conv g t rval :
  rval = SUCCESS -> waiting t <> 0 -> cur t = 0 ->
  implicit_poll conv g t rval
    = conv (set_buffer_in "M105" (leave_ended g)) t "M105"
  /\ gpx_return_translation conv g t rval
     = let '(rval, g, t1) := conv (set_buffer_in "M105" (leave_ended g)) t "M105" in
       let '(rval, g, t2) := report_rval g t1 rval in
       (rval, g, finish_translation (waiting t) t2).
Proof.
  intros -> Hwait Hcur.
  assert (Hpoll : implicit_poll conv g t SUCCESS
                  = conv (set_buffer_in "M105" (leave_ended g)) t "M105").
  { unfold implicit_poll, nonzero. rewrite Z.eqb_refl, Hcur.
    by destruct (Z.eqb_spec (waiting t) 0). }
  split; [done|]. unfold gpx_return_translation. by rewrite Hpoll.
Qed.

(** Otherwise the parser is not called: the finalizer's result does not
    depend on it. *)
Lemma no_poll_otherwise conv conv' g t rval :
  ~ (rval = SUCCESS /\ waiting t <> 0 /\ cur t = 0) ->
  gpx_return_translation conv g t rval = gpx_return_translation conv' g t rval.
Proof.
  intros Hnot. unfold gpx_return_translation, implicit_poll, nonzero.
  destruct (Z.eqb_spec rval SUCCESS); cbn [andb]; [|done].
  destruct (Z.eqb_spec (waiting t) 0); cbn [negb andb]; [done|].
  destruct (Z.eqb_spec (cur t) 0); [|done]. tauto.
Qed.
End Finalizer.

(** C4 as stated fails.  The device confirms the abort while the response
    holds 1022 characters: the call clears the wait, but of the newline and
    "ok" that the claim has appended only the newline fits; the response
    ends in it and the cursor is left at 1025. *)
Lemma finalizer_trailing_ok_no_room :
  let t := crowded_tio in
  let mid := before_finish (hdr := sample_header) sample_parser sample_gpx t
               0x89 in
  let t' := (gpx_return_translation (hdr := sample_header) sample_parser
               sample_gpx t 0x89).2 in
  waiting t <> 0 /\ waiting t' = 0
  /\ cur mid = 1022 /\ length (translation mid) = 1024%nat
  /\ text t' <> text mid ++ newline_if_needed (text mid) ++ chars "ok"
  /\ c_string (translation t') = text mid ++ [LF]
  /\ cur t' = 1025.
Proof.
  intros t mid t'. split_and!.
  - vm_compute. congruence.
  - vm_compute. reflexivity.
  - vm_compute. reflexivity.
  - vm_compute. reflexivity.
  - intros Heq. apply (f_equal length) in Heq. vm_compute in Heq. congruence.
  - vm_compute. reflexivity.
  - vm_compute. reflexivity.
Qed.

(** The device confirms the abort while [waitForBotCancel] is the only wait:
    the call clears the wait and the response is "ok", NUL after it.  A
    status report that ends in a newline, with no wait to clear: NUL is
    stored over the newline. *)
Lemma finalizer_trailing_ok_witness :
  let t' := (gpx_return_translation (hdr := sample_header) sample_parser
               sample_gpx aborting_tio 0x89).2 in
  let u' := (gpx_return_translation (hdr := sample_header) sample_parser
               sample_gpx reported_tio 0).2 in
  (text t' = chars "ok" /\ translation t' !! 2%nat = Some NUL)
  /\ (text reported_tio = chars (nl +:+ "Not SD printing" +:+ nl)
      /\ text u' = chars (nl +:+ "Not SD printing")
      /\ translation u' !! 16%nat = Some NUL).
Proof.
  cbv zeta.
  destruct (finalizer_trailing_ok (hdr := sample_header) sample_parser
              sample_gpx aborting_tio 0x89) as (_ & Hadd & _);
    [reflexivity | split; vm_compute; congruence |].
  destruct Hadd as [Hroom _];
    [vm_compute; congruence | reflexivity |].
  destruct Hroom as (Htext & Hcur & Hnul & _); [vm_compute; reflexivity|].
  destruct (finalizer_trailing_ok (hdr := sample_header) sample_parser
              sample_gpx reported_tio 0) as (_ & _ & Hstrip);
    [reflexivity | split; vm_compute; congruence |].
  destruct Hstrip as (Hstripped & Hstore & _);
    [intros [Hwait _]; apply Hwait; reflexivity |].
  destruct Hstore as (Hback & _ & Hzero); [reflexivity|].
  split.
  - split; [rewrite Htext; reflexivity|].
    rewrite Hcur in Hnul. exact Hnul.
  - split; [reflexivity|]. split; [rewrite Hstripped; reflexivity|].
    rewrite Hback in Hzero. exact Hzero.
Defined.

(** The session waits for extruder 0 and the line produced nothing: the
    finalizer polls, and the response carries the temperature. *)
Lemma implicit_temperature_poll_witness :
  waiting waiting_tio <> 0 /\ cur waiting_tio = 0
  /\ implicit_poll (hdr := sample_header) sample_parser sample_gpx waiting_tio 0
     = sample_parser (set_buffer_in "M105" (leave_ended sample_gpx)) waiting_tio
         "M105"
  /\ text (gpx_return_translation (hdr := sample_header) sample_parser
             sample_gpx waiting_tio 0).2
     = chars " T:205".
Proof.
  assert (Hwait : waiting waiting_tio <> 0) by (vm_compute; congruence).
  assert (Hcur : cur waiting_tio = 0) by reflexivity.
  destruct (implicit_temperature_poll (hdr := sample_header) sample_parser
              sample_gpx waiting_tio 0 eq_refl Hwait Hcur) as [Hpoll Hall].
  split; [exact Hwait|]. split; [exact Hcur|]. split; [exact Hpoll|].
  rewrite Hall. reflexivity.
Defined.

(** ** M23, select SD file *)

Section SelectFile.
Context {hdr : Header}.

(** C6.  The translator called with length 0 for M23 looks the selected
    name up in the string table, case ignored, and takes the first entry
    that matches.  If there is one, its cached spelling replaces the
    caller's name ([strdup] succeeding); the response appended, after the
    pending "ok", is a newline and the two lines "File opened:<name> Size:0"
    and "File selected:<name>" with the name that results. *)
Theorem m23_select_file ph gep mem now g t buffer :
  has_mask (command_flag g) M_IS_SET = true -> command_m g = 23 ->
  strdup_ok mem = true -> 0 <= cs (sttb t) ->
  let i := sttb_find_nocase (sttb t) (selectedFilename g) in
  let r := translate_handler ph gep mem now g t buffer 0 in
  ((i = -1 /\ (forall j, 0 <= j < cs (sttb t) ->
                 ~ matches_slot (sttb t) (selectedFilename g) j)
    /\ r = (SUCCESS, g,
            tio_printf (flush_okPending t) (m23_response (selectedFilename g))))
   \/ (0 <= i < cs (sttb t)
       /\ (forall j, 0 <= j < i -> ~ matches_slot (sttb t) (selectedFilename g) j)
       /\ exists cached,
            sttb_get (sttb t) i = Some cached
            /\ lower cached = lower (selectedFilename g)
            /\ r = (SUCCESS, set_selectedFilename cached g,
                    tio_printf (flush_okPending t) (m23_response cached)))).
Proof.
  intros Hm Hm23 Hdup Hcs i r. subst i r.
  assert (Hsttb : sttb (flush_okPending t) = sttb t).
  { unfold flush_okPending. destruct (okPending (flag t)); [|done].
    by destruct (tio_printf_frame (set_okPending false t) "ok")
      as (_ & _ & _ & _ & ->). }
  unfold translate_handler, translate_untranslated.
  rewrite Z.eqb_refl, Hm, Hm23, Z.eqb_refl, Hsttb, Hdup. cbn [andb].
  destruct (sttb_find_nocase_first (sttb t) (selectedFilename g) Hcs)
    as [[Hi Hnone]|(Hi & (e & He & Hcmp) & Hfirst)].
  - left. split; [done|split; [done|]]. rewrite Hi. done.
  - right. split; [lia|split; [done|]]. exists e.
    split; [done|split; [symmetry; by apply strcasecmp_eq_lower|]].
    destruct (Z.leb_spec 0 (sttb_find_nocase (sttb t) (selectedFilename g)));
      [|lia].
    rewrite He. done.
Qed.
End SelectFile.

(** "abc.gco" selects the cached "ABC.gco". *)
Lemma m23_select_file_witness :
  has_mask (command_flag m23_gpx) (M_IS_SET (Header := sample_header)) = true
  /\ command_m m23_gpx = 23
  /\ text (translate_handler (hdr := sample_header)
             (sample_port_handler sample_response) no_position heap_fine 0
             m23_gpx listed_tio [] 0).2
     = chars (nl +:+ "File opened:ABC.gco Size:0" +:+ nl
              +:+ "File selected:ABC.gco").
Proof.
  assert (Hm : has_mask (command_flag m23_gpx)
                 (M_IS_SET (Header := sample_header)) = true) by reflexivity.
  assert (Hcs : 0 <= cs (sttb listed_tio)) by (vm_compute; congruence).
  destruct (m23_select_file (hdr := sample_header)
              (sample_port_handler sample_response) no_position heap_fine 0
              m23_gpx listed_tio [] Hm eq_refl eq_refl Hcs)
    as [(Hnone & _)|(_ & _ & cached & Hget & _ & Hres)].
  - vm_compute in Hnone. congruence.
  - split; [exact Hm|]. split; [reflexivity|].
    rewrite Hres. vm_compute in Hget. injection Hget as <-. reflexivity.
Defined.

(** ** The baud rate *)

Section Baud.
Context {hdr : Header}.

Lemma baud_table_no_B0 baudrate : lookup_rate baudrate baud_table <> Some B0.
Proof.
  unfold baud_table. destruct has_B14400, has_B28800; cbn;
    repeat (destruct (_ =? _); [done|]); done.
Qed.

(** C9.  [speed_from_long] returns the speed constant the table gives for
    the rate and B0 for a rate that is not in the table; B0 is not the speed
    of any supported rate.  Rate 0 is replaced by 115200.  Given B0,
    [gpx_connect] returns ESIOBADBAUD and leaves the session as it is,
    whatever the function that opens the port would do. *)
Theorem baud_rate_mapping again t baudrate :
  let r := speed_from_long again t baudrate in
  r.1.1 = default B0 (lookup_rate baudrate baud_table)
  /\ (r.1.1 = B0 <-> lookup_rate baudrate baud_table = None)
  /\ r.1.2 = (if baudrate =? 0 then 115200 else baudrate)
  /\ (r.1.1 <> B0 -> r.2 = t)
  /\ (forall start open g t' printer_port,
        r.1.1 = B0 ->
        gpx_connect start open g t' printer_port r.1.1 = (ESIOBADBAUD, g, t')).
Proof.
  intros r.
  assert (Hspeed : r.1.1 = default B0 (lookup_rate baudrate baud_table)).
  { subst r. unfold speed_from_long, baud_table.
    destruct has_B14400, has_B28800; cbn;
      repeat match goal with
             | |- context [baudrate =? ?k] =>
                 destruct (Z.eqb_spec baudrate k) as [->|?]; [reflexivity|]
             end; try done. }
  split_and!.
  - done.
  - rewrite Hspeed. pose proof (baud_table_no_B0 baudrate).
    destruct (lookup_rate baudrate baud_table) as [s|]; cbn; [|done].
    split; [congruence|done].
  - subst r. unfold speed_from_long.
    destruct has_B14400, has_B28800; cbn [andb];
      repeat match goal with
             | |- context [baudrate =? ?k] =>
                 destruct (Z.eqb_spec baudrate k) as [->|?]; [reflexivity|]
             end; try done.
  - subst r. unfold speed_from_long.
    destruct has_B14400, has_B28800; cbn [andb];
      repeat match goal with
             | |- context [baudrate =? ?k] =>
                 destruct (Z.eqb_spec baudrate k) as [->|?]; [reflexivity|]
             end; try done.
  - intros start open g t' printer_port ->. done.
Qed.
End Baud.

(** ** The scenarios of the specification, run on the model *)

(** Temperature poll: M105 on an idle session is answered "ok T:205". *)
Example scenario_temperature_poll :
  upstream (daemon_line (hdr := sample_header) sample_parser false sample_gpx
              sample_tio "M105")
  = Some ("ok T:205" +:+ nl).
Proof. reflexivity. Qed.

(** Wait for extruder: while the wait lasts a line is answered with the
    temperatures of the implicit poll and no "ok"; once the device reports
    ready the wait is over and the response ends in "ok". *)
Example scenario_wait_for_extruder :
  waitflag (hdr := sample_header) waitForExtruderA waiting_tio = true
  /\ upstream (daemon_line (hdr := sample_header) sample_parser false
                 sample_gpx waiting_tio "G1 X10")
     = Some (" T:205" +:+ nl)
  /\ upstream (daemon_line (hdr := sample_header) ready_parser false
                 sample_gpx waiting_tio "M105")
     = Some (" T:210" +:+ nl +:+ "ok" +:+ nl)
  /\ waiting (daemon_line (hdr := sample_header) ready_parser false sample_gpx
                waiting_tio "M105").1.2 = 0.
Proof. repeat split; reflexivity. Qed.

(** Cancel: the device raises 0x89 during a wait.  The response is "Build
    cancelled", only the wait for the empty queue is left and the cancel is
    pending; "@clear_cancel" from the host then clears it. *)
Example scenario_cancel :
  text cancelled_tio = chars "Build cancelled"
  /\ (forall f, waitflag (hdr := sample_header) f cancelled_tio
                = same_flag f waitForEmptyQueue)
  /\ cancelPending (flag cancelled_tio) = true
  /\ waitClearedByCancel (flag cancelled_tio) = true
  /\ cancelPending
       (flag (translate_result (hdr := sample_header) sample_gpx cancelled_tio
                "@clear_cancel" "@clear_cancel").2) = false.
Proof. split_and!; try reflexivity. by intros []. Qed.

(** Buffer full: 0x82 is reported as a status line and sets the wait for
    the buffer. *)
Example scenario_buffer_full :
  let r := gpx_return_translation (hdr := sample_header) sample_parser
             sample_gpx sample_tio 0x82 in
  text r.2 = chars "Status: Buffer full"
  /\ waitflag (hdr := sample_header) waitForBuffer r.2 = true.
Proof. split; reflexivity. Qed.

(** Identification: M115 with a device that reports variant 0x80 and
    version 723. *)
Example scenario_identification :
  text (translate_handler (hdr := sample_header)
          (sample_port_handler sailfish_response) no_position heap_fine 0
          m115_gpx sample_tio (packet 27 0) 5).2
  = chars (" PROTOCOL_VERSION:0.1 FIRMWARE_NAME:Sailfish FIRMWARE_VERSION:7.23"
           +:+ " FIRMWARE_URL:http://www.sailfishfirmware.com"
           +:+ " MACHINE_TYPE:r2 EXTRUDER_COUNT:1" +:+ nl).
Proof. reflexivity. Qed.

(** * Further properties *)

(** ** The string table: invariant, lookup after insertion, removal *)

Section StringTableMore.

Variables ptr size_bits : Z.

Lemma sttb_get_slot p slots i :
  rgs p = Some slots -> 0 <= i ->
  sttb_get p i = mjoin (slots !! Z.to_nat i).
Proof.
  intros Hrgs Hi. unfold sttb_get. rewrite Hrgs.
  by destruct (Z.leb_spec 0 i); [|lia].
Qed.

Lemma sttb_init_wf mem p cs_chunk :
  sttb_wf ptr (sttb_init ptr size_bits mem p cs_chunk).2.
Proof.
  unfold sttb_init, sttb_wf. destruct (malloc_ok mem); cbn.
  - split; [lia|]. rewrite length_replicate. split; [done|]. split; [lia|].
    intros i Hi. lia.
  - split; [lia|done].
Qed.

Lemma sttb_add_wf mem p s :
  sttb_wf ptr p -> sttb_addressable ptr size_bits p ->
  sttb_wf ptr (sttb_add ptr size_bits mem p s).2.
Proof.
  intros Hwf Hok. pose proof Hwf as [Hcs Hslots].
  destruct (rgs p) as [slots|] eqn:Hrgs.
  2: { by rewrite sttb_add_no_array. }
  destruct Hslots as (Hlen & Hcount & Hsome).
  pose proof Hok as (Hp & _ & _).
  unfold sttb_add. rewrite Hrgs, (needed_bytes ptr size_bits p Hok).
  assert (Hkeep : forall (slots' : list (option string)) i,
            0 <= i < cs p ->
            mjoin (slots' !! Z.to_nat i) = mjoin (slots !! Z.to_nat i) ->
            is_Some (mjoin (slots' !! Z.to_nat i))).
  { intros slots' i Hi ->. rewrite <- (sttb_get_slot p slots i Hrgs) by lia.
    by apply Hsome. }
  destruct (Z.ltb_spec (cb p) (ptr * (cs p + 1))) as [Hgrow|Hfits].
  - destruct (realloc_ok mem); [|done].
    set (n := if _ <? _ then _ else _).
    assert (Hn : ptr * (cs p + 1) <= n).
    { subst n.
      destruct (Z.ltb_spec (ptr * (cs p + 1))
                  (to_size_t size_bits (cb p + cb_expand p))); lia. }
    pose proof (slots_of_needed ptr size_bits p n Hok Hn) as Hroom.
    destruct (strdup_ok mem); unfold sttb_wf; cbn.
    + split; [lia|]. rewrite length_insert, realloc_slots_length.
      split; [done|]. split; [lia|].
      intros i Hi. destruct (decide (i = cs p)) as [->|Hne].
      * destruct (Z.leb_spec 0 (cs p)); [|lia].
        rewrite list_lookup_insert_eq by (rewrite realloc_slots_length; lia).
        done.
      * destruct (Z.leb_spec 0 i); [|lia].
        rewrite list_lookup_insert_ne by lia.
        apply Hkeep; [lia|]. apply realloc_slots_get. lia.
    + split; [lia|]. rewrite realloc_slots_length.
      split; [done|]. split; [lia|].
      intros i Hi. destruct (Z.leb_spec 0 i); [|lia].
      apply Hkeep; [lia|]. apply realloc_slots_get. lia.
  - assert (Hroom : (Z.to_nat (cs p) < length slots)%nat).
    { rewrite Hlen. by apply (slots_of_needed ptr size_bits p). }
    destruct (strdup_ok mem); [|done]. unfold sttb_wf; cbn.
    rewrite Hrgs. cbn. split; [lia|]. rewrite length_insert.
    split; [done|]. split; [lia|].
    intros i Hi. destruct (decide (i = cs p)) as [->|Hne].
    + destruct (Z.leb_spec 0 (cs p)); [|lia].
      by rewrite list_lookup_insert_eq by lia.
    + destruct (Z.leb_spec 0 i); [|lia].
      rewrite list_lookup_insert_ne by lia.
      apply Hkeep; [lia|done].
Qed.

(** X1.  The string table keeps its invariant: whatever [sttb_init] is
    given and whether or not [malloc] succeeds, the table it leaves is well
    formed, and [sttb_add] leaves a well-formed table well formed, on
    success and on each of its failures. *)
Theorem sttb_invariant mem p s cs_chunk :
  sttb_wf ptr (sttb_init ptr size_bits mem p cs_chunk).2
  /\ (sttb_wf ptr p -> sttb_addressable ptr size_bits p ->
      sttb_wf ptr (sttb_add ptr size_bits mem p s).2).
Proof. split; [apply sttb_init_wf | apply sttb_add_wf]. Qed.

Lemma matches_slot_lower p s s' j :
  lower s' = lower s -> matches_slot p s j -> matches_slot p s' j.
Proof.
  intros Hlow (e & He & Hcmp). exists e. split; [done|].
  apply strcasecmp_eq_lower. rewrite Hlow. by apply strcasecmp_eq_lower.
Qed.

(** X2.  Lookup after insertion.  After a successful [sttb_add] of [s] to a
    well-formed table, [sttb_find_nocase] finds every spelling of [s]: it
    returns an index up to the old count, the entry there matches, and the
    index is the old count itself (the slot of the new copy) when no
    earlier entry matches. *)
Theorem sttb_add_then_find mem p s s' copy :
  sttb_wf ptr p -> sttb_addressable ptr size_bits p ->
  (sttb_add ptr size_bits mem p s).1 = Some copy ->
  lower s' = lower s ->
  0 <= sttb_find_nocase (sttb_add ptr size_bits mem p s).2 s' <= cs p
  /\ matches_slot (sttb_add ptr size_bits mem p s).2 s'
       (sttb_find_nocase (sttb_add ptr size_bits mem p s).2 s')
  /\ ((forall j, 0 <= j < cs p -> ~ matches_slot p s' j) ->
      sttb_find_nocase (sttb_add ptr size_bits mem p s).2 s' = cs p).
Proof.
  intros Hwf Hok Hadd Hlow.
  pose proof Hwf as [Hcs Hslots].
  destruct (rgs p) as [slots|] eqn:Hrgs.
  2: { rewrite sttb_add_no_array in Hadd by done. done. }
  destruct Hslots as (Hlen & _ & _).
  destruct (sttb_add_stores ptr size_bits mem p s slots copy Hok Hrgs Hlen Hadd)
    as [_ Hnew].
  pose proof (sttb_add_count ptr size_bits mem p s) as Hcount.
  rewrite Hadd in Hcount.
  set (p' := (sttb_add ptr size_bits mem p s).2) in *.
  assert (Hmatch_new : matches_slot p' s' (cs p)).
  { exists s. split; [done|]. by apply strcasecmp_eq_lower. }
  assert (Hold : forall j, 0 <= j < cs p -> matches_slot p' s' j -> matches_slot p s' j).
  { intros j Hj (e & He & Hcmp). exists e. split; [|done].
    subst p'. by rewrite sttb_add_keeps in He. }
  destruct (sttb_find_nocase_first p' s') as [[_ Hnone]|(Hi & Hm & Hfirst)];
    [lia | exfalso; apply (Hnone (cs p)); [lia|done] |].
  assert (Hle : sttb_find_nocase p' s' <= cs p).
  { destruct (Z.le_gt_cases (sttb_find_nocase p' s') (cs p)); [done|].
    exfalso. apply (Hfirst (cs p)); [lia|done]. }
  split; [lia|]. split; [done|].
  intros Hfresh.
  destruct (Z.eq_dec (sttb_find_nocase p' s') (cs p)) as [|Hne]; [done|].
  exfalso. apply (Hfresh (sttb_find_nocase p' s')); [lia|].
  apply Hold; [lia|done].
Qed.

(** X3.  The result of [sttb_find_nocase]: it is -1 exactly when no entry
    below the count matches, otherwise it is the index of the first entry
    that matches; and it depends on the name only up to the case of its
    letters. *)
Theorem sttb_find_nocase_result p s s' :
  0 <= cs p ->
  -1 <= sttb_find_nocase p s < cs p
  /\ (sttb_find_nocase p s = -1
      <-> forall j, 0 <= j < cs p -> ~ matches_slot p s j)
  /\ (sttb_find_nocase p s <> -1 ->
      matches_slot p s (sttb_find_nocase p s)
      /\ forall j, 0 <= j < sttb_find_nocase p s -> ~ matches_slot p s j)
  /\ (lower s' = lower s -> sttb_find_nocase p s' = sttb_find_nocase p s).
Proof.
  intros Hcs.
  assert (Hshape : forall x,
            (sttb_find_nocase p x = -1
             /\ forall j, 0 <= j < cs p -> ~ matches_slot p x j)
            \/ (0 <= sttb_find_nocase p x < cs p
                /\ matches_slot p x (sttb_find_nocase p x)
                /\ forall j, 0 <= j < sttb_find_nocase p x -> ~ matches_slot p x j))
    by (intros x; by apply sttb_find_nocase_first).
  split_and!.
  - destruct (Hshape s) as [[-> _]|[? _]]; lia.
  - destruct (Hshape s) as [[-> _]|[? _]]; lia.
  - destruct (Hshape s) as [[Hr Hnone]|(Hr & Hm & _)]; [done|].
    split; [lia|]. intros Hnone. exfalso. by apply (Hnone _ Hr).
  - destruct (Hshape s) as [[Hr _]|(_ & Hm & Hfirst)]; done.
  - intros Hlow.
    assert (Hsym : lower s = lower s') by done.
    destruct (Hshape s) as [[Hr Hnone]|(Hr & Hm & Hfirst)],
             (Hshape s') as [[Hr' Hnone']|(Hr' & Hm' & Hfirst')].
    + congruence.
    + exfalso. apply (Hnone _ Hr'). by apply (matches_slot_lower p s' s).
    + exfalso. apply (Hnone' _ Hr). by apply (matches_slot_lower p s s').
    + destruct (Z.lt_trichotomy (sttb_find_nocase p s') (sttb_find_nocase p s))
        as [Hlt|[Heq|Hgt]]; [|done|].
      * exfalso. apply (Hfirst (sttb_find_nocase p s')); [lia|].
        by apply (matches_slot_lower p s' s).
      * exfalso. apply (Hfirst' (sttb_find_nocase p s)); [lia|].
        by apply (matches_slot_lower p s s').
Qed.

(** X4.  [sttb_remove] checks its index and undoes an insertion: with an
    index below zero or not below the count it leaves the table as it is;
    applied to the entry that a successful [sttb_add] has just stored, it
    restores the count and keeps every older entry; applied to the entry
    before the last, it moves the last entry down. *)
Theorem sttb_remove_bounds_and_undo mem p s i copy :
  (i < 0 \/ cs p <= i -> sttb_remove p i = Some p)
  /\ (sttb_wf ptr p -> sttb_addressable ptr size_bits p ->
      (sttb_add ptr size_bits mem p s).1 = Some copy ->
      exists p'',
        sttb_remove (sttb_add ptr size_bits mem p s).2 (cs p) = Some p''
        /\ cs p'' = cs p
        /\ forall j, 0 <= j < cs p -> sttb_get p'' j = sttb_get p j)
  /\ (sttb_wf ptr p -> i = cs p - 2 -> 0 <= i ->
      exists p'',
        sttb_remove p i = Some p''
        /\ cs p'' = cs p - 1
        /\ sttb_get p'' i = sttb_get p (i + 1)
        /\ forall j, 0 <= j < i -> sttb_get p'' j = sttb_get p j).
Proof.
  split; [|split].
  - intros Hout. unfold sttb_remove.
    destruct (Z.ltb_spec i 0), (Z.leb_spec (cs p) i); cbn [orb]; try done; lia.
  - intros Hwf Hok Hadd.
    pose proof Hwf as [Hcs Hslots].
    destruct (rgs p) as [slots|] eqn:Hrgs.
    2: { rewrite sttb_add_no_array in Hadd by done. done. }
    destruct Hslots as (Hlen & _ & _).
    destruct (sttb_add_stores ptr size_bits mem p s slots copy Hok Hrgs Hlen Hadd)
      as [_ Hnew].
    pose proof (sttb_add_count ptr size_bits mem p s) as Hcount.
    rewrite Hadd in Hcount.
    pose proof (fun j => sttb_add_keeps ptr size_bits mem p s j Hok) as Hkeep.
    set (p' := (sttb_add ptr size_bits mem p s).2) in *.
    unfold sttb_remove. rewrite Hcount.
    destruct (Z.ltb_spec (cs p) 0), (Z.leb_spec (cs p + 1) (cs p));
      cbn [orb]; try lia.
    unfold sttb_get in Hnew.
    destruct (rgs p') as [slots'|] eqn:Hrgs'; [|done].
    destruct (Z.leb_spec 0 (cs p)); [|lia].
    destruct (slots' !! Z.to_nat (cs p)) as [[e|]|] eqn:Hslot; try done.
    replace (cs p + 1 - cs p - 1) with 0 by lia. cbn [Z.eqb].
    eexists. split; [done|]. cbn. split; [lia|].
    intros j Hj. rewrite <- Hkeep by done.
    unfold sttb_get. cbn. by rewrite Hrgs'.
  - intros [Hcs Hslots] -> Hi.
    destruct (rgs p) as [slots|] eqn:Hrgs; [|lia].
    destruct Hslots as (Hlen & Hcount & Hsome).
    pose proof (Hsome (cs p - 2)) as Hthis.
    pose proof (Hsome (cs p - 2 + 1)) as Hnext.
    rewrite (sttb_get_slot p slots) in Hthis, Hnext by (done || lia).
    destruct Hthis as [e He]; [lia|]. destruct Hnext as [e' He']; [lia|].
    unfold sttb_remove. rewrite Hrgs.
    destruct (Z.ltb_spec (cs p - 2) 0), (Z.leb_spec (cs p) (cs p - 2));
      cbn [orb]; try lia.
    destruct (slots !! Z.to_nat (cs p - 2)) as [[x|]|] eqn:Hslot; try done.
    replace (cs p - (cs p - 2) - 1) with 1 by lia. cbn [Z.eqb Pos.eqb].
    destruct (slots !! Z.to_nat (cs p - 2 + 1)) as [next|] eqn:Hslot'; [|done].
    eexists. split; [done|]. cbn. split; [lia|].
    assert (Hin : (Z.to_nat (cs p - 2) < length slots)%nat)
      by (by apply lookup_lt_Some in Hslot).
    split.
    + unfold sttb_get. cbn. rewrite Hrgs.
      destruct (Z.leb_spec 0 (cs p - 2)), (Z.leb_spec 0 (cs p - 2 + 1)); try lia.
      by rewrite list_lookup_insert_eq, Hslot'.
    + intros j Hj. unfold sttb_get. cbn. rewrite Hrgs.
      destruct (Z.leb_spec 0 j); [|lia].
      by rewrite list_lookup_insert_ne by lia.
Qed.

End StringTableMore.

(** The invariant at the sample tables: the empty table after [sttb_init],
    the table with one name and the table with two. *)
Lemma sttb_invariant_witness :
  sttb_addressable 8 64 sample_table
  /\ sttb_wf 8 sample_table /\ sttb_wf 8 sample_table2.
Proof.
  set (empty := {| rgs := None; cb := 0; cb_expand := 0; cs := 0 |}).
  assert (Hok0 : sttb_addressable 8 64 (sttb_init 8 64 heap_fine empty 10).2)
    by (repeat split; vm_compute; congruence).
  assert (Hok1 : sttb_addressable 8 64 sample_table)
    by (repeat split; vm_compute; congruence).
  destruct (sttb_invariant 8 64 heap_fine (sttb_init 8 64 heap_fine empty 10).2
              "ABC.gco" 10) as [_ Hstep0].
  destruct (sttb_invariant 8 64 heap_fine empty "ABC.gco" 10) as [Hinit _].
  destruct (sttb_invariant 8 64 heap_fine sample_table "DEF.gco" 10)
    as [_ Hstep1].
  split; [exact Hok1|].
  split; [exact (Hstep0 Hinit Hok0) | exact (Hstep1 (Hstep0 Hinit Hok0) Hok1)].
Defined.

(** After "DEF.gco" is added to the sample table, "def.GCO" is found in
    the new slot, index 1. *)
Lemma sttb_add_then_find_witness :
  sttb_wf 8 sample_table /\ sttb_addressable 8 64 sample_table
  /\ (sttb_add 8 64 heap_fine sample_table "DEF.gco").1 = Some "DEF.gco"
  /\ lower "def.GCO" = lower "DEF.gco"
  /\ sttb_find_nocase sample_table2 "def.GCO" = 1.
Proof.
  assert (Hwf : sttb_wf 8 sample_table).
  { split; [vm_compute; congruence|]. cbn.
    split; [reflexivity|]. split; [vm_compute; lia|].
    intros i Hi. assert (i = 0) as -> by (change (cs sample_table) with 1 in Hi; lia).
    vm_compute. eauto. }
  assert (Hok : sttb_addressable 8 64 sample_table)
    by (repeat split; vm_compute; congruence).
  assert (Hadd : (sttb_add 8 64 heap_fine sample_table "DEF.gco").1
                 = Some "DEF.gco") by reflexivity.
  assert (Hlow : lower "def.GCO" = lower "DEF.gco") by reflexivity.
  destruct (sttb_add_then_find 8 64 heap_fine sample_table "DEF.gco" "def.GCO"
              "DEF.gco" Hwf Hok Hadd Hlow) as (_ & _ & Hfresh).
  split_and!; [exact Hwf|exact Hok|exact Hadd|exact Hlow|].
  apply Hfresh. intros j Hj (e & He & Hcmp).
  assert (j = 0) as -> by (change (cs sample_table) with 1 in Hj; lia).
  vm_compute in He. injection He as <-. vm_compute in Hcmp. discriminate.
Defined.

(** In the table with two names "def.gco" is at index 1, whatever its
    case, and "GHI.gco" is not found. *)
Lemma sttb_find_nocase_result_witness :
  0 <= cs sample_table2
  /\ sttb_find_nocase sample_table2 "DEF.GCO"
     = sttb_find_nocase sample_table2 "def.gco"
  /\ (forall j, 0 <= j < cs sample_table2 ->
      ~ matches_slot sample_table2 "GHI.gco" j).
Proof.
  assert (Hcs : 0 <= cs sample_table2) by (vm_compute; congruence).
  destruct (sttb_find_nocase_result sample_table2 "def.gco" "DEF.GCO" Hcs)
    as (_ & _ & _ & Hcase).
  destruct (sttb_find_nocase_result sample_table2 "GHI.gco" "ghi.gco" Hcs)
    as (_ & [Hnone _] & _).
  split; [exact Hcs|]. split; [exact (Hcase eq_refl) | exact (Hnone eq_refl)].
Defined.

(** Removal at the sample tables: index 5 is out of range; removing the
    name just added gives back a table with one name; removing the first
    of two names moves the second down. *)
Lemma sttb_remove_bounds_and_undo_witness :
  sttb_remove sample_table 5 = Some sample_table
  /\ (exists p'', sttb_remove sample_table2 1 = Some p'' /\ cs p'' = 1
                  /\ sttb_get p'' 0 = Some "ABC.gco")
  /\ (exists p'', sttb_remove sample_table2 0 = Some p'' /\ cs p'' = 1
                  /\ sttb_get p'' 0 = Some "DEF.gco").
Proof.
  assert (Hwf : sttb_wf 8 sample_table).
  { split; [vm_compute; congruence|]. cbn.
    split; [reflexivity|]. split; [vm_compute; lia|].
    intros i Hi. assert (i = 0) as -> by (change (cs sample_table) with 1 in Hi; lia).
    vm_compute. eauto. }
  assert (Hwf2 : sttb_wf 8 sample_table2).
  { split; [vm_compute; congruence|]. cbn.
    split; [reflexivity|]. split; [vm_compute; lia|].
    intros i Hi.
    assert (i = 0 \/ i = 1) as [-> | ->]
      by (change (cs sample_table2) with 2 in Hi; lia);
      vm_compute; eauto. }
  assert (Hok : sttb_addressable 8 64 sample_table)
    by (repeat split; vm_compute; congruence).
  destruct (sttb_remove_bounds_and_undo 8 64 heap_fine sample_table "DEF.gco" 5
              "DEF.gco") as (Hout & Hundo & _).
  destruct (sttb_remove_bounds_and_undo 8 64 heap_fine sample_table2 "DEF.gco" 0
              "DEF.gco") as (_ & _ & Hdown).
  split; [apply Hout; right; vm_compute; congruence|]. split.
  - destruct (Hundo Hwf Hok eq_refl) as (p'' & Hrem & Hcs & Hkeep).
    exists p''. split; [exact Hrem|]. split; [exact Hcs|].
    rewrite (Hkeep 0) by (vm_compute; split; congruence). reflexivity.
  - destruct (Hdown Hwf2 eq_refl) as (p'' & Hrem & Hcs & Hnext & _);
      [vm_compute; congruence|].
    exists p''. split; [exact Hrem|]. split; [exact Hcs|].
    rewrite Hnext. reflexivity.
Defined.

(** ** The translation buffer: truncation, composition, saturation *)

Lemma chars_app a b : chars (a +:+ b) = chars a ++ chars b.
Proof. unfold chars. induction a as [|c a IH]; simpl; [done|]. by rewrite IH. Qed.

Lemma strlen_app a b : strlen (a +:+ b) = strlen a + strlen b.
Proof.
  unfold strlen. rewrite <- !chars_length, chars_app, length_app. lia.
Qed.

Section BufferMore.

Context {hdr : Header}.

(** X5.  An append truncates silently and keeps the buffer terminated: the
    array keeps its size, the text before the cursor is untouched, as much
    of the new text as fits before the last byte is stored, a NUL follows
    it inside the array, and the bytes after that NUL are untouched. *)
Theorem tio_printf_truncates t s :
  buffer_ok t ->
  let k := Z.min (strlen s) (sizeof_translation - cur t - 1) in
  translation (tio_printf t s)
  = take (Z.to_nat (cur t)) (translation t)
    ++ take (Z.to_nat k) (chars s)
    ++ NUL :: drop (Z.to_nat (cur t + k + 1)) (translation t)
  /\ length (translation (tio_printf t s)) = length (translation t)
  /\ translation (tio_printf t s) !! Z.to_nat (cur t + k) = Some NUL
  /\ cur t + k < sizeof_translation.
Proof.
  intros [Hlen Hcur] k.
  pose proof (strlen_nonneg s) as Hs.
  assert (Hk : 0 <= k < sizeof_translation - cur t) by (subst k; lia).
  rewrite tio_printf_unfold by lia.
  cbn [translation cur set_cur set_translation].
  assert (Hstored := vsnprintf_stored (translation t) (cur t)
                       (sizeof_translation - cur t) s).
  fold k in Hstored. rewrite Hstored by (try lia; rewrite Hlen; f_equal; lia).
  assert (Hpre : length (take (Z.to_nat (cur t)) (translation t)
                         ++ take (Z.to_nat k) (chars s))
                 = Z.to_nat (cur t + k)).
  { rewrite length_app, !length_take, chars_length. unfold strlen in *. lia. }
  split_and!; [done| | |lia].
  - rewrite app_assoc, length_app, Hpre. simpl. rewrite length_drop. lia.
  - rewrite app_assoc, lookup_app_r by lia. by rewrite Hpre, Nat.sub_diag.
Qed.

(** X6.  Appends compose: two appends that fit together leave the session
    exactly as one append of the concatenated text does. *)
Theorem tio_printf_app t a b :
  buffer_ok t -> cur t + strlen a + strlen b < sizeof_translation ->
  tio_printf (tio_printf t a) b = tio_printf t (a +:+ b).
Proof.
  intros [Hlen Hcur] Hfit.
  pose proof (strlen_nonneg a) as Ha. pose proof (strlen_nonneg b) as Hb.
  rewrite (tio_printf_unfold t a), (tio_printf_unfold t (a +:+ b)) by lia.
  rewrite tio_printf_unfold by (cbn; lia).
  cbn [translation cur set_cur set_translation].
  rewrite strlen_app.
  assert (Hbuf :
    vsnprintf (vsnprintf (translation t) (cur t) (sizeof_translation - cur t) a)
      (cur t + strlen a) (sizeof_translation - (cur t + strlen a)) b
    = vsnprintf (translation t) (cur t) (sizeof_translation - cur t) (a +:+ b)).
  { rewrite (vsnprintf_fits (translation t) (cur t) _ a)
      by (try lia; rewrite Hlen; f_equal; lia).
    rewrite (vsnprintf_fits (translation t) (cur t) _ (a +:+ b))
      by (rewrite ?strlen_app; try lia; rewrite Hlen; f_equal; lia).
    assert (Htake : length (take (Z.to_nat (cur t)) (translation t))
                    = Z.to_nat (cur t)) by (rewrite length_take; lia).
    assert (Hpre : length (take (Z.to_nat (cur t)) (translation t) ++ chars a)
                   = Z.to_nat (cur t + strlen a)).
    { rewrite length_app, Htake, chars_length. unfold strlen in *. lia. }
    rewrite vsnprintf_fits.
    - rewrite (app_assoc _ (chars a)).
      rewrite take_app_length' by done.
      rewrite drop_app_ge by lia. rewrite Hpre.
      replace (Z.to_nat (cur t + strlen a + strlen b + 1)
               - Z.to_nat (cur t + strlen a))%nat
        with (S (Z.to_nat (strlen b))) by lia.
      simpl. rewrite drop_drop, chars_app, strlen_app, <- !app_assoc.
      do 5 f_equal. lia.
    - lia.
    - lia.
    - rewrite app_assoc, length_app, Hpre. simpl. rewrite length_drop. lia. }
  rewrite Hbuf. unfold set_cur, set_translation; cbn. f_equal. lia.
Qed.

(** X7.  Saturation: once an append has not fitted, every later append is
    dropped; the response ends where the buffer ended. *)
Theorem tio_printf_saturates t s later :
  buffer_ok t -> sizeof_translation <= cur t + strlen s ->
  foldl tio_printf (tio_printf t s) later = tio_printf t s
  /\ forall s', tio_vprintf (tio_printf t s) s' = (0, tio_printf t s).
Proof.
  intros [Hlen Hcur] Hover.
  assert (Hfull : sizeof_translation <= cur (tio_printf t s))
    by (rewrite tio_printf_cur by lia; lia).
  split.
  - induction later as [|s' later IH]; [done|].
    cbn [foldl]. by rewrite tio_printf_full.
  - intros s'. by apply tio_vprintf_full.
Qed.

End BufferMore.

(** "End file list" appended at cursor 1020 of the 1024 bytes: the array
    keeps its size and the NUL is stored in its last byte. *)
Lemma tio_printf_truncates_witness :
  let t := set_cur 1020 sample_tio in
  buffer_ok (hdr := sample_header) t
  /\ length (translation (tio_printf (hdr := sample_header) t "End file list"))
     = 1024%nat
  /\ translation (tio_printf (hdr := sample_header) t "End file list")
       !! 1023%nat = Some NUL.
Proof.
  intros t.
  assert (Hok : buffer_ok (hdr := sample_header) t)
    by (split; [reflexivity | split; vm_compute; congruence]).
  destruct (tio_printf_truncates (hdr := sample_header) t "End file list" Hok)
    as (_ & Hlen & Hnul & _).
  split; [exact Hok|]. split; [rewrite Hlen; reflexivity | exact Hnul].
Defined.

(** "ok" and then a newline, or both at once. *)
Lemma tio_printf_app_witness :
  buffer_ok (hdr := sample_header) sample_tio
  /\ tio_printf (hdr := sample_header)
       (tio_printf (hdr := sample_header) sample_tio "ok") nl
     = tio_printf (hdr := sample_header) sample_tio ("ok" +:+ nl).
Proof.
  assert (Hok : buffer_ok (hdr := sample_header) sample_tio)
    by (split; [reflexivity | split; vm_compute; congruence]).
  split; [exact Hok|].
  apply (tio_printf_app (hdr := sample_header) sample_tio "ok" nl Hok).
  vm_compute. reflexivity.
Defined.

(** After "End file list" has overrun the buffer, "ok" and a newline are
    dropped. *)
Lemma tio_printf_saturates_witness :
  let t := set_cur 1020 sample_tio in
  buffer_ok (hdr := sample_header) t
  /\ foldl (tio_printf (hdr := sample_header))
       (tio_printf (hdr := sample_header) t "End file list") ["ok"; nl]
     = tio_printf (hdr := sample_header) t "End file list".
Proof.
  intros t.
  assert (Hok : buffer_ok (hdr := sample_header) t)
    by (split; [reflexivity | split; vm_compute; congruence]).
  assert (Hover : sizeof_translation (hdr := sample_header)
                  <= cur t + strlen "End file list")
    by (vm_compute; congruence).
  destruct (tio_printf_saturates (hdr := sample_header) t "End file list"
              ["ok"; nl] Hok Hover) as [Hdrop _].
  split; [exact Hok | exact Hdrop].
Defined.

(** ** The callbacks and the finalizer: more of their behaviour *)

Section CallbacksMore.

Context {hdr : Header}.
Hypothesis Hhdr : header_ok = true.

Lemma tio_vprintf_room t s :
  cur t < sizeof_translation -> tio_vprintf t s = (strlen s, tio_printf t s).
Proof.
  intros Hroom. unfold tio_printf, tio_vprintf.
  by destruct (Z.leb_spec sizeof_translation (cur t)); [lia|].
Qed.

Lemma flush_okPending_fits t :
  buffer_ok t -> cur t + 2 < sizeof_translation ->
  buffer_ok (flush_okPending t)
  /\ cur t <= cur (flush_okPending t) <= cur t + 2
  /\ okPending (flag (flush_okPending t)) = false.
Proof.
  intros Hok Hroom. unfold flush_okPending.
  destruct (okPending (flag t)) eqn:Hpending; [|split_and!; (done || lia)].
  destruct (tio_printf_fits (set_okPending false t) "ok") as (Hok' & Hcur & _);
    [done | unfold strlen; simpl; lia |].
  destruct (tio_printf_frame (set_okPending false t) "ok") as (Hflag & _).
  split; [done|]. rewrite Hcur, Hflag. unfold strlen. simpl. split; [lia|done].
Qed.

(** X8.  An echo line starts on a line of its own.  For a format other than
    "@clear_cancel" and with room in the buffer, [translate_result] appends
    the pending "ok" if one is owed, then a newline unless the text is
    empty or ends in one, then "// echo: " and the formatted message; it
    returns the number of characters appended after the "ok", and leaves
    the wait flags alone. *)
Theorem translate_result_echo g t fmt out :
  String.eqb fmt "@clear_cancel" = false ->
  buffer_ok t -> cur t + 12 + strlen out < sizeof_translation ->
  let t0 := flush_okPending t in
  let r := translate_result g t fmt out in
  text r.2 = text t0 ++ newline_if_needed (text t0) ++ chars "// echo: "
             ++ chars out
  /\ r.1 = Z.of_nat (length (newline_if_needed (text t0))) + 9 + strlen out
  /\ waiting r.2 = waiting t
  /\ okPending (flag r.2) = false.
Proof.
  intros Hfmt Hok Hroom t0 r. subst r.
  pose proof (strlen_nonneg out) as Hout.
  destruct (flush_okPending_fits t Hok) as (Hok0 & Hcur0 & Hpend0); [lia|].
  destruct (flush_okPending_frame t) as (Hwait0 & _).
  fold t0 in Hok0, Hcur0, Hpend0, Hwait0.
  unfold translate_result. rewrite Hfmt. fold t0.
  unfold newline_if_needed. rewrite (last_text t0 Hok0).
  set (t1 := if (0 <? cur t0) && negb (Ascii.eqb (peek t0 (cur t0 - 1)) LF)
             then tio_printf t0 nl else t0).
  set (sep := if 0 <? cur t0
              then (if Ascii.eqb (peek t0 (cur t0 - 1)) LF then [] else [LF])
              else []).
  assert (H1 : buffer_ok t1 /\ cur t1 = cur t0 + Z.of_nat (length sep)
               /\ text t1 = text t0 ++ sep /\ flag t1 = flag t0
               /\ waiting t1 = waiting t0).
  { subst t1 sep. destruct (0 <? cur t0); cbn [andb];
      [destruct (Ascii.eqb _ LF); cbn [negb]|];
      try (rewrite app_nil_r; split_and!; (done || (cbn; lia))).
    destruct (tio_printf_fits t0 nl Hok0) as (? & ? & ? & _);
      [unfold strlen; simpl; lia|].
    destruct (tio_printf_frame t0 nl) as (? & ? & _).
    split_and!; try done; unfold strlen in *; simpl in *; lia. }
  destruct H1 as (Hok1 & Hcur1 & Htext1 & Hflag1 & Hwait1).
  assert (Hsep : (length sep <= 1)%nat).
  { subst sep. destruct (0 <? cur t0); [destruct (Ascii.eqb _ LF)|]; simpl; lia. }
  assert (Hfirst : (if (0 <? cur t0) && negb (Ascii.eqb (peek t0 (cur t0 - 1)) LF)
                    then tio_vprintf t0 nl else (0, t0))
                   = (Z.of_nat (length sep), t1)).
  { subst t1 sep. destruct (0 <? cur t0); cbn [andb]; [|done].
    destruct (Ascii.eqb _ LF); cbn [negb]; [done|].
    by rewrite tio_vprintf_room by lia. }
  rewrite Hfirst.
  destruct (tio_printf_fits t1 "// echo: " Hok1) as (Hok2 & Hcur2 & Htext2 & _);
    [unfold strlen; simpl; lia|].
  destruct (tio_printf_frame t1 "// echo: ") as (Hflag2 & Hwait2 & _).
  rewrite (tio_vprintf_room t1) by lia.
  change (strlen "// echo: ") with 9 in *.
  destruct (tio_printf_fits (tio_printf t1 "// echo: ") out Hok2)
    as (_ & _ & Htext3 & _); [lia|].
  destruct (tio_printf_frame (tio_printf t1 "// echo: ") out)
    as (Hflag3 & Hwait3 & _).
  rewrite (tio_vprintf_room (tio_printf t1 "// echo: ")) by lia.
  cbn [fst snd].
  assert (match (if 0 <? cur t0 then Some (peek t0 (cur t0 - 1)) else None) with
          | Some c => if Ascii.eqb c LF then [] else [LF]
          | None => []
          end = sep) as -> by (subst sep; by destruct (0 <? cur t0)).
  split_and!.
  - rewrite Htext3, Htext2, Htext1. by rewrite <- !app_assoc.
  - done.
  - congruence.
  - congruence.
Qed.

(** X9.  Every return code other than SUCCESS, END_OF_FILE, 0x82 and 0x89 is
    passed on unchanged and replaces the response: the cursor is reset
    before a message, which is not empty, is appended, so that the text is
    the message alone when it fits.  The wait flags, the session flags and
    the [Gpx] state are as before. *)
Theorem report_rval_error g t rval :
  rval <> SUCCESS -> rval <> END_OF_FILE -> rval <> 0x82 -> rval <> 0x89 ->
  exists msg,
    msg <> EmptyString
    /\ report_rval g t rval = (rval, g, tio_printf (set_cur 0 t) msg)
    /\ waiting (report_rval g t rval).2 = waiting t
    /\ flag (report_rval g t rval).2 = flag t
    /\ (length (translation t) = Z.to_nat sizeof_translation ->
        strlen msg < sizeof_translation ->
        text (report_rval g t rval).2 = chars msg).
Proof.
  intros Hs He H82 H89.
  assert (Hmsg : forall msg, msg <> EmptyString ->
            exists msg',
              msg' <> EmptyString
              /\ (rval, g, tio_printf (set_cur 0 t) msg)
                 = (rval, g, tio_printf (set_cur 0 t) msg')
              /\ waiting (rval, g, tio_printf (set_cur 0 t) msg).2 = waiting t
              /\ flag (rval, g, tio_printf (set_cur 0 t) msg).2 = flag t
              /\ (length (translation t) = Z.to_nat sizeof_translation ->
                  strlen msg' < sizeof_translation ->
                  text (rval, g, tio_printf (set_cur 0 t) msg).2 = chars msg')).
  { intros msg Hne. exists msg. cbn [snd].
    destruct (tio_printf_frame (set_cur 0 t) msg) as (-> & -> & _).
    split_and!; try done.
    intros Hlen Hfit. pose proof (strlen_nonneg msg).
    destruct (tio_printf_fits (set_cur 0 t) msg) as (_ & _ & -> & _);
      [split; cbn; (done || lia) | cbn; lia | done]. }
  unfold report_rval. cbv zeta.
  destruct (Z.eqb_spec rval SUCCESS); [done|].
  destruct (Z.eqb_spec rval END_OF_FILE); [done|]. cbn [orb].
  destruct (Z.eqb_spec rval 0x82); [done|].
  destruct (Z.eqb_spec rval 0x89); [done|].
  repeat (destruct (_ || _) || destruct (_ =? _)); by apply Hmsg.
Qed.

(** The command byte of a queueable command, read as [unsigned], is not
    one of the commands below 128 whatever the sign of [char]. *)
Lemma queueable_command_high buffer b :
  buffer !! Z.to_nat COMMAND_OFFSET = Some b -> 128 <= b < 256 ->
  128 <= packet_byte buffer COMMAND_OFFSET.
Proof.
  intros Hb Hrange. unfold packet_byte. rewrite Hb.
  change (default 0 (Some b)) with b.
  destruct (Z.leb_spec 128 b); [|lia].
  destruct char_is_signed; cbn [andb]; lia.
Qed.

(** X10.  A reply the port handler rejects changes nothing but the reply
    record: for a packet that is not dropped, if [port_handler] returns a
    code other than SUCCESS, the translator returns that code and the [Gpx]
    state the handler left; the session is the one after the pending-ok
    rule with the handler's [Sio], so no wait flag and no other text
    changes. *)
Theorem translate_handler_failure ph gep mem now g t buffer length rval g' sio' :
  length <> 0 ->
  cancelPending (flag t) && has_mask (packet_byte buffer COMMAND_OFFSET) 0x80
    = false ->
  ph g (sio (flush_okPending t)) buffer length = (rval, g', sio') ->
  rval <> SUCCESS ->
  translate_handler ph gep mem now g t buffer length
    = (rval, g', set_sio sio' (flush_okPending t))
  /\ waiting (translate_handler ph gep mem now g t buffer length).2
     = waiting t
  /\ text (translate_handler ph gep mem now g t buffer length).2
     = text (flush_okPending t).
Proof.
  intros Hlen Hdrop Hph Hfail.
  destruct (flush_okPending_frame t) as (Hwait & _ & _ & _ & _ & _ & Hcancel & _).
  assert (Heq : translate_handler ph gep mem now g t buffer length
                = (rval, g', set_sio sio' (flush_okPending t))).
  { unfold translate_handler.
    destruct (Z.eqb_spec length 0); [done|].
    rewrite Hcancel, Hdrop, Hph.
    by destruct (Z.eqb_spec rval SUCCESS). }
  rewrite Heq. by split_and!.
Qed.

(** X11.  Recovery from "buffer full": when the device accepts a queueable
    command (top bit of the command byte set, [port_handler] returns
    SUCCESS, no cancel pending), the translator returns SUCCESS and the
    flag [waitForBuffer] is clear afterwards, whatever the command. *)
Theorem queueable_success_clears_waitForBuffer
    ph gep mem now g t buffer length b g' sio' :
  length <> 0 ->
  buffer !! Z.to_nat COMMAND_OFFSET = Some b -> 128 <= b < 256 ->
  cancelPending (flag t) = false ->
  ph g (sio (flush_okPending t)) buffer length = (SUCCESS, g', sio') ->
  (translate_handler ph gep mem now g t buffer length).1.1 = SUCCESS
  /\ waitflag waitForBuffer
       (translate_handler ph gep mem now g t buffer length).2 = false.
Proof.
  intros Hlen Hb Hrange Hcancel Hph.
  pose proof (queueable_command_high buffer b Hb Hrange) as Hhigh.
  pose proof (queueable_command buffer b Hb Hrange) as Hmask.
  destruct (flush_okPending_frame t) as (_ & _ & _ & _ & _ & _ & Hc & _).
  unfold translate_handler.
  destruct (Z.eqb_spec length 0); [done|].
  rewrite Hc, Hcancel, Hph, Z.eqb_refl, Hmask. cbn [andb negb].
  set (c := packet_byte buffer COMMAND_OFFSET) in *.
  set (t1 := set_waitflag waitForBuffer false (set_sio sio' (flush_okPending t))).
  assert (H1 : waitflag waitForBuffer t1 = false)
    by (subst t1; by rewrite (waitflag_set Hhdr)).
  assert (Hkeep : forall f b' t2, f <> waitForBuffer ->
            waitflag waitForBuffer t2 = false ->
            waitflag waitForBuffer (set_waitflag f b' t2) = false).
  { intros f b' t2 Hf H2. rewrite (waitflag_set Hhdr).
    unfold same_flag.
    destruct (Nat.eqb_spec (wait_index waitForBuffer) (wait_index f)) as [E|];
      [|done].
    apply wait_index_inj in E. congruence. }
  clearbody t1.
  repeat match goal with
         | |- context [c =? ?k] =>
             destruct (Z.eqb_spec c k) as [Hk|_]; [lia|]
         end.
  cbn [orb].
  repeat match goal with
         | |- context [c =? ?k] => destruct (c =? k)
         end;
    cbn [orb fst snd]; (split; [done|]);
    repeat case_match; unfold waitflag in *; cbn [waiting set_getPosWhenReady
      set_flag tio_reset poke set_cur set_translation] in *;
    repeat (apply Hkeep; [done|]); done.
Qed.

(** X12.  A device cancel followed by the host's "@clear_cancel": after the
    finalizer has mapped 0x89 for a session that did not ask for the
    cancel, the result callback called with "@clear_cancel" clears
    [cancelPending], returns 0, appends nothing, and leaves
    [waitForEmptyQueue] as the only wait flag. *)
Theorem cancel_then_clear_cancel g t out :
  waitflag waitForBotCancel t = false ->
  let r1 := report_rval g t 0x89 in
  let r2 := translate_result r1.1.2 r1.2 "@clear_cancel" out in
  cancelPending (flag r1.2) = true
  /\ r2.1 = 0
  /\ cancelPending (flag r2.2) = false
  /\ (forall f, waitflag f r2.2 = same_flag f waitForEmptyQueue)
  /\ translation r2.2 = translation r1.2 /\ cur r2.2 = cur r1.2.
Proof.
  intros Hnot r1 r2. subst r2 r1.
  rewrite (report_rval_0x89 Hhdr), Hnot. cbn [fst snd].
  set (t1 := tio_printf _ "Build cancelled").
  assert (Hflag : cancelPending (flag t1) = true).
  { subst t1. destruct (tio_printf_frame
      (tio_clear_state_for_cancel g (set_cancelPending true t)).2
      "Build cancelled") as (-> & _).
    unfold tio_clear_state_for_cancel. cbn [snd waiting set_cancelPending set_flag].
    by destruct (nonzero (waiting t)). }
  assert (Hwait : forall f, waitflag f t1 = same_flag f waitForEmptyQueue).
  { intros f. subst t1. unfold waitflag.
    destruct (tio_printf_frame
      (tio_clear_state_for_cancel g (set_cancelPending true t)).2
      "Build cancelled") as (_ & -> & _).
    unfold tio_clear_state_for_cancel. cbn [snd].
    change (waitflag f (set_waitflag waitForEmptyQueue true
              (set_waiting 0 (if nonzero (waiting (set_cancelPending true t))
                 then set_waitClearedByCancel true (set_cancelPending true t)
                 else set_cancelPending true t)))
            = same_flag f waitForEmptyQueue).
    rewrite (waitflag_set Hhdr).
    destruct (same_flag f waitForEmptyQueue); [done|].
    unfold waitflag. cbn [waiting set_waiting]. apply Z.bits_0. }
  clearbody t1.
  unfold translate_result. cbn [String.eqb Ascii.eqb Bool.eqb].
  rewrite Hflag. cbn [negb andb fst snd].
  split_and!; try done.
  intros f. rewrite (waitflag_set Hhdr).
  destruct (same_flag f waitForEmptyQueue) eqn:E; [done|].
  change (waitflag f t1 = false). by rewrite Hwait.
Qed.

(** X13.  The routine build-status check (command 24 when the session
    does not wait for a start and the host did not send M27), on the wait
    flags: PAUSED raises [waitForUnpause]; any other status clears it, and
    NONE or RUNNING arriving while it is set raise [waitForEmptyQueue];
    [waitForBotCancel] survives only RUNNING, PAUSED and CANCELLING; no
    other flag changes.  Text is appended for PAUSED only. *)
Theorem routine_build_status now g t f :
  waitflag waitForStart t = false ->
  has_mask (command_flag g) M_IS_SET && (command_m g =? 27) = false ->
  let status := build_status (response (sio t)) in
  let t' := translate_build_statistics now g t in
  waitflag f t'
  = (if same_flag f waitForBotCancel then
       waitflag f t
       && ((status =? BUILD_RUNNING) || (status =? BUILD_PAUSED)
           || (status =? BUILD_CANCELLING))
     else if same_flag f waitForUnpause then status =? BUILD_PAUSED
     else if same_flag f waitForEmptyQueue then
       waitflag f t
       || (waitflag waitForUnpause t
           && ((status =? BUILD_NONE) || (status =? BUILD_RUNNING)))
     else waitflag f t)
  /\ (status <> BUILD_PAUSED ->
      cur t' = cur t /\ translation t' = translation t).
Proof.
  intros Hstart Hm27 status t'. subst t'.
  unfold translate_build_statistics. fold status.
  set (t1 := if waitflag waitForBotCancel t then _ else t).
  assert (H1 : forall f', waitflag f' t1
             = if same_flag f' waitForBotCancel
               then waitflag f' t
                    && ((status =? BUILD_RUNNING) || (status =? BUILD_PAUSED)
                        || (status =? BUILD_CANCELLING))
               else waitflag f' t).
  { intros f'. subst t1.
    destruct (same_flag f' waitForBotCancel) eqn:E.
    - apply Nat.eqb_eq, wait_index_inj in E as ->.
      destruct (waitflag waitForBotCancel t) eqn:Hbot; [|done].
      destruct (_ || _); [by rewrite Hbot|].
      by rewrite (waitflag_set Hhdr).
    - destruct (waitflag waitForBotCancel t); [|done].
      destruct (_ || _); [done|].
      by rewrite (waitflag_set Hhdr), E. }
  assert (Hsame : cur t1 = cur t /\ translation t1 = translation t).
  { subst t1. by repeat case_match. }
  destruct Hsame as [Hcur1 Htr1].
  clearbody t1.
  rewrite (H1 waitForStart), Hstart, Hm27. cbn [same_flag wait_index Nat.eqb orb].
  assert (Hun1 := H1 waitForUnpause). cbn [same_flag wait_index Nat.eqb] in Hun1.
  rewrite Hun1.
  unfold BUILD_NONE, BUILD_RUNNING, BUILD_PAUSED, BUILD_CANCELLING in *.
  destruct (Z.eqb_spec status 0) as [H0|H0];
    [|destruct (Z.eqb_spec status 1) as [Hrun|Hrun]]; cbn [orb].
  3: destruct (Z.eqb_spec status 3) as [Hp|Hp].
  all: split; [|try (intros _; repeat case_match; done); try done].
  all: try (unfold waitflag at 1;
            match goal with
            | |- context [tio_printf ?a ?b] =>
                destruct (tio_printf_frame a b) as (_ & -> & _);
                change (Z.testbit (waiting a) (wbit f)) with (waitflag f a)
            end).
  all: destruct (waitflag waitForUnpause t) eqn:Hun;
       rewrite ?(waitflag_set Hhdr), ?H1;
       destruct f; cbn [same_flag wait_index Nat.eqb]; rewrite ?Hun;
       repeat match goal with
         | |- context [?a =? ?b] => destruct (Z.eqb_spec a b); try lia
         end;
       cbn [orb andb]; rewrite ?andb_true_r, ?andb_false_r, ?orb_false_r,
         ?orb_true_r; try done.
Qed.

End CallbacksMore.

(** The parser reports "hello" through the result callback on the fresh
    session: the response is the echo line and its length is returned. *)
Lemma translate_result_echo_witness :
  buffer_ok (hdr := sample_header) sample_tio
  /\ text (translate_result (hdr := sample_header) sample_gpx sample_tio
             "%s" "hello").2 = chars "// echo: hello"
  /\ (translate_result (hdr := sample_header) sample_gpx sample_tio
        "%s" "hello").1 = 14.
Proof.
  assert (Hok : buffer_ok (hdr := sample_header) sample_tio)
    by (split; [reflexivity | split; vm_compute; congruence]).
  assert (Hfit : cur sample_tio + 12 + strlen "hello"
                 < sizeof_translation (hdr := sample_header))
    by (vm_compute; reflexivity).
  destruct (translate_result_echo (hdr := sample_header) sample_gpx sample_tio
              "%s" "hello" eq_refl Hok Hfit) as (Htext & Hret & _).
  split; [exact Hok|].
  split; [rewrite Htext; reflexivity | rewrite Hret; reflexivity].
Defined.

(** The code 0x83 (checksum mismatch) replaces the response by a message
    and is returned. *)
Lemma report_rval_error_witness :
  exists msg,
    msg <> EmptyString
    /\ report_rval (hdr := sample_header) sample_gpx waiting_tio 0x83
       = (0x83, sample_gpx,
          tio_printf (hdr := sample_header) (set_cur 0 waiting_tio) msg)
    /\ waiting (report_rval (hdr := sample_header) sample_gpx waiting_tio
                  0x83).2 = waiting waiting_tio.
Proof.
  assert (H1 : 0x83 <> SUCCESS (Header := sample_header))
    by (vm_compute; congruence).
  assert (H2 : 0x83 <> END_OF_FILE (Header := sample_header))
    by (vm_compute; congruence).
  assert (H3 : 0x83 <> 0x82) by congruence.
  assert (H4 : 0x83 <> 0x89) by congruence.
  destruct (report_rval_error (hdr := sample_header) sample_gpx waiting_tio
              0x83 H1 H2 H3 H4) as (msg & Hmsg & Heq & Hwait & _).
  exists msg. split; [exact Hmsg|]. split; [exact Heq | exact Hwait].
Defined.

(** The device answers "buffer full" to "wait for extruder": the
    translator passes the code on and the session does not start to wait. *)
Lemma translate_handler_failure_witness :
  translate_handler (hdr := sample_header) busy_port_handler no_position
    heap_fine 0 sample_gpx sample_tio (packet 135 0) 5
  = (0x82, sample_gpx,
     set_sio (sio (flush_okPending (hdr := sample_header) sample_tio))
       (flush_okPending (hdr := sample_header) sample_tio))
  /\ waiting (translate_handler (hdr := sample_header) busy_port_handler
                no_position heap_fine 0 sample_gpx sample_tio (packet 135 0)
                5).2 = waiting sample_tio.
Proof.
  assert (Hlen : 5 <> 0) by congruence.
  assert (Hfail : 0x82 <> SUCCESS (Header := sample_header))
    by (vm_compute; congruence).
  destruct (translate_handler_failure (hdr := sample_header) busy_port_handler
              no_position heap_fine 0 sample_gpx sample_tio (packet 135 0) 5
              0x82 sample_gpx
              (sio (flush_okPending (hdr := sample_header) sample_tio))
              Hlen eq_refl eq_refl Hfail) as (Heq & Hwait & _).
  split; [exact Heq | exact Hwait].
Defined.

(** The device accepts "wait for extruder" while the session waits for
    room in its buffer: that wait is over. *)
Lemma queueable_success_clears_waitForBuffer_witness :
  let t := set_waitflag (hdr := sample_header) waitForBuffer true sample_tio in
  header_ok (hdr := sample_header) = true
  /\ waitflag (hdr := sample_header) waitForBuffer t = true
  /\ waitflag (hdr := sample_header) waitForBuffer
       (translate_handler (hdr := sample_header)
          (sample_port_handler sample_response) no_position heap_fine 0
          sample_gpx t (packet 135 0) 5).2 = false.
Proof.
  intros t.
  assert (Hhdr : header_ok (hdr := sample_header) = true) by reflexivity.
  assert (Hlen : 5 <> 0) by congruence.
  assert (Hrange : 128 <= 135 < 256) by (split; vm_compute; congruence).
  destruct (queueable_success_clears_waitForBuffer (hdr := sample_header) Hhdr
              (sample_port_handler sample_response) no_position heap_fine 0
              sample_gpx t (packet 135 0) 5 135 sample_gpx
              (set_response sample_response
                 (sio (flush_okPending (hdr := sample_header) t)))
              Hlen eq_refl Hrange eq_refl eq_refl) as [_ Hclear].
  split; [exact Hhdr|]. split; [reflexivity | exact Hclear].
Defined.

(** The device cancels while the session waits for extruder 0; when the
    parser then sends "@clear_cancel" the cancel is over and the session
    waits for the queue to drain. *)
Lemma cancel_then_clear_cancel_witness :
  let r1 := report_rval (hdr := sample_header) sample_gpx waiting_tio 0x89 in
  let r2 := translate_result (hdr := sample_header) r1.1.2 r1.2
              "@clear_cancel" EmptyString in
  header_ok (hdr := sample_header) = true
  /\ waitflag (hdr := sample_header) waitForBotCancel waiting_tio = false
  /\ cancelPending (flag r1.2) = true
  /\ cancelPending (flag r2.2) = false
  /\ waitflag (hdr := sample_header) waitForEmptyQueue r2.2 = true.
Proof.
  intros r1 r2.
  assert (Hhdr : header_ok (hdr := sample_header) = true) by reflexivity.
  assert (Hbot : waitflag (hdr := sample_header) waitForBotCancel waiting_tio
                 = false) by reflexivity.
  destruct (cancel_then_clear_cancel (hdr := sample_header) Hhdr sample_gpx
              waiting_tio EmptyString Hbot) as (Hp1 & _ & Hp2 & Hflags & _).
  split; [exact Hhdr|]. split; [exact Hbot|]. split; [exact Hp1|].
  split; [exact Hp2 | exact (Hflags waitForEmptyQueue)].
Defined.

(** The session waits for the unpause button and a routine status check
    says RUNNING: the print goes on and the session waits for the queue. *)
Lemma routine_build_status_witness :
  let t := set_sio (set_response (status_reply BUILD_RUNNING) (sio sample_tio))
             (set_waitflag (hdr := sample_header) waitForUnpause true
                sample_tio) in
  header_ok (hdr := sample_header) = true
  /\ waitflag (hdr := sample_header) waitForStart t = false
  /\ waitflag (hdr := sample_header) waitForEmptyQueue
       (translate_build_statistics (hdr := sample_header) 0 sample_gpx t)
     = true
  /\ waitflag (hdr := sample_header) waitForUnpause
       (translate_build_statistics (hdr := sample_header) 0 sample_gpx t)
     = false.
Proof.
  intros t.
  assert (Hhdr : header_ok (hdr := sample_header) = true) by reflexivity.
  assert (Hstart : waitflag (hdr := sample_header) waitForStart t = false)
    by reflexivity.
  destruct (routine_build_status (hdr := sample_header) Hhdr 0 sample_gpx t
              waitForEmptyQueue Hstart eq_refl) as [Hqueue _].
  destruct (routine_build_status (hdr := sample_header) Hhdr 0 sample_gpx t
              waitForUnpause Hstart eq_refl) as [Hunpause _].
  split; [exact Hhdr|]. split; [exact Hstart|].
  split; [rewrite Hqueue; reflexivity | rewrite Hunpause; reflexivity].
Defined.

(** ** Replies of the tools and of the SD card *)

Section RepliesMore.

Context {hdr : Header}.

Hypothesis Hhdr : header_ok = true.

Lemma waitflag_tio_printf f t s : waitflag f (tio_printf t s) = waitflag f t.
Proof.
  unfold waitflag. by destruct (tio_printf_frame t s) as (_ & -> & _).
Qed.

Lemma same_flag_refl f : same_flag f f = true.
Proof. by destruct f. Qed.

Lemma same_flag_ne f g : f <> g -> same_flag f g = false.
Proof. by destruct f, g. Qed.

(** X14.  A reply to a tool query (command 10) and the wait flags.  Only
    the three heating flags can change.  A flag is raised only by the two
    readiness queries (22 for an extruder, 35 for the platform) when the
    device says not ready, and those two queries set their flag to the
    negation of the answer and append no text.  The device reply and the
    session flags are left alone by every query. *)
Theorem extruder_query_wait_flags g t q buffer f :
  let t' := translate_extruder_query_response g t q buffer in
  let ready := nonzero (isReady (response (sio t))) in
  let tool :=
    if nonzero (packet_byte buffer EXTRUDER_ID_OFFSET)
    then waitForExtruderB else waitForExtruderA in
  (f <> waitForExtruderA -> f <> waitForExtruderB -> f <> waitForPlatform ->
   waitflag f t' = waitflag f t)
  /\ (waitflag f t' = true -> waitflag f t = false ->
      ready = false
      /\ ((q = 22 /\ f = tool) \/ (q = 35 /\ f = waitForPlatform)))
  /\ (q = 22 -> waitflag tool t' = negb ready)
  /\ (q = 35 -> waitflag waitForPlatform t' = negb ready)
  /\ (q = 22 \/ q = 35 -> cur t' = cur t /\ translation t' = translation t)
  /\ sio t' = sio t /\ flag t' = flag t.
Proof.
  intros t' ready tool. subst t' ready tool.
  unfold translate_extruder_query_response.
  set (id := nonzero (packet_byte buffer EXTRUDER_ID_OFFSET)).
  set (ready := nonzero (isReady (response (sio t)))).
  set (cold := nonzero (waiting t) && negb (waitflag waitForEmptyQueue t)
               && (temperature (response (sio t)) =? 0)).
  repeat match goal with
         | |- context [q =? ?k] => destruct (Z.eqb_spec q k) as [->|?]
         end.
  all: destruct (1 <? extruder_count g).
  all: repeat match goal with
         | |- context [sio (tio_printf ?a ?b)] =>
             destruct (tio_printf_frame a b) as (-> & _ & -> & _)
         end.
  all: destruct id, ready, cold; cbn [negb].
  all: rewrite ?waitflag_tio_printf, ?(waitflag_set Hhdr).
  all: split_and!; try done; try lia; try (intros [?|?]; done).
  all: try (by rewrite same_flag_refl).
  all: try (intros Ha Hb Hp; destruct f; done).
  all: intros Hset Hclear; split; [try done|];
       destruct f; cbn [same_flag wait_index Nat.eqb] in Hset;
       first [congruence | by left | by right].
Qed.

End RepliesMore.

(** Extruder 0 reports ready while the session waits for it: its flag is
    cleared, and nothing is said. *)
Lemma extruder_query_wait_flags_witness :
  let t := set_sio (set_response (reply 0 1) (sio waiting_tio)) waiting_tio in
  let t' := translate_extruder_query_response (hdr := sample_header)
              sample_gpx t 22 [0xD5; 3; 10; 0; 22] in
  header_ok (hdr := sample_header) = true
  /\ waitflag (hdr := sample_header) waitForExtruderA t = true
  /\ waitflag (hdr := sample_header) waitForExtruderA t' = false
  /\ waitflag (hdr := sample_header) waitForEmptyQueue t' = true
  /\ cur t' = cur t.
Proof.
  intros t t'.
  assert (Hhdr : header_ok (hdr := sample_header) = true) by reflexivity.
  destruct (extruder_query_wait_flags (hdr := sample_header) Hhdr sample_gpx t
              22 [0xD5; 3; 10; 0; 22] waitForEmptyQueue)
    as (Hother & _ & Htool & _ & Hsilent & _).
  split; [exact Hhdr|]. split; [reflexivity|].
  split; [exact (Htool eq_refl)|].
  split.
  - fold t' in Hother. rewrite Hother by congruence. reflexivity.
  - exact (proj1 (Hsilent (or_introl eq_refl))).
Defined.

(** ** Listing the files of the SD card *)

Section ListingMore.

Context {hdr : Header}.







End ListingMore.


(** ** The daemon *)

Lemma strlen_string_of_list_ascii l :
  strlen (string_of_list_ascii l) = Z.of_nat (length l).
Proof.
  unfold strlen. f_equal. induction l as [|c l IH]; [done|]. cbn. by rewrite IH.
Qed.

Lemma c_string_app_nul l rest :
  Forall (fun c => c <> NUL) l -> c_string (l ++ NUL :: rest) = l.
Proof.
  induction 1 as [|c l Hc _ IH]; cbn.
  - done.
  - destruct (Ascii.eqb_spec c NUL); [done|]. by rewrite IH.
Qed.

Lemma c_string_no_nul l : Forall (fun c => c <> NUL) l -> c_string l = l.
Proof.
  induction 1 as [|c l Hc _ IH]; cbn; [done|].
  destruct (Ascii.eqb_spec c NUL); [done|]. by rewrite IH.
Qed.

Lemma read_line_newline n line rest :
  Forall (fun c => c <> LF) line -> (length line < n)%nat ->
  read_line n (line ++ LF :: rest) = Some (line, rest).
Proof.
  intros Hline. revert n.
  induction Hline as [|c line Hc _ IH]; intros [|n] Hlen; cbn in *; try lia.
  - done.
  - destruct (Ascii.eqb_spec c LF); [done|]. rewrite IH by lia. done.
Qed.

Lemma read_line_full n line rest :
  Forall (fun c => c <> LF) line -> length line = n ->
  read_line n (line ++ rest) = Some (line, rest).
Proof.
  intros Hline. revert n.
  induction Hline as [|c line Hc _ IH]; intros [|n] Hlen; cbn in *; try lia.
  - done.
  - destruct (Ascii.eqb_spec c LF); [done|]. rewrite IH by lia. done.
Qed.

Lemma read_line_result n : forall input bytes rest,
  read_line n input = Some (bytes, rest) ->
  Forall (fun c => c <> LF) bytes /\ (length bytes <= n)%nat
  /\ (input = bytes ++ LF :: rest
      \/ (length bytes = n /\ input = bytes ++ rest)).
Proof.
  induction n as [|n IH]; intros input bytes rest Hread; cbn in Hread.
  - simplify_eq. split_and!; [done|done|]. by right.
  - destruct input as [|c input]; [done|].
    destruct (Ascii.eqb_spec c LF) as [->|Hc].
    + simplify_eq. split_and!; [done|cbn; lia|]. by left.
    + destruct (read_line n input) as [[line rest']|] eqn:E; [|done].
      simplify_eq. destruct (IH _ _ _ E) as (Hline & Hlen & Hin).
      split_and!; [by constructor|cbn; lia|].
      destruct Hin as [->|[Hfull ->]]; [by left|right]. cbn. by rewrite Hfull.
Qed.

(** X16.  The read loop frames the input into lines.  A line shorter than
    the limit is returned without its newline, which is consumed; a run of
    [remaining] bytes without a newline is cut there and nothing more is
    consumed; the read fails when the input ends before either.  Whatever
    is returned holds no newline, is at most [remaining] bytes long, and
    the input is made of it, the newline if one ended it, and the rest. *)
Theorem read_line_frames remaining line rest :
  Forall (fun c => c <> LF) line ->
  ((length line < remaining)%nat ->
   read_line remaining (line ++ LF :: rest) = Some (line, rest)
   /\ read_line remaining line = None)
  /\ (length line = remaining ->
      read_line remaining (line ++ rest) = Some (line, rest))
  /\ (forall input bytes rest',
      read_line remaining input = Some (bytes, rest') ->
      Forall (fun c => c <> LF) bytes /\ (length bytes <= remaining)%nat
      /\ (input = bytes ++ LF :: rest'
          \/ (length bytes = remaining /\ input = bytes ++ rest'))).
Proof.
  intros Hline. split_and!.
  - intros Hlen. split; [by apply read_line_newline|].
    clear rest. revert remaining Hlen.
    induction Hline as [|c line Hc _ IH]; intros [|n] Hlen; cbn in *; try lia.
    + done.
    + destruct (Ascii.eqb_spec c LF); [done|]. rewrite IH by lia. done.
  - by apply read_line_full.
  - apply read_line_result.
Qed.

(** Two lines arrive in one piece: the first is split off at its newline. *)
Lemma read_line_frames_witness :
  Forall (fun c => c <> LF) (chars "G28")
  /\ read_line 1023 (chars "G28" ++ LF :: chars "M105")
     = Some (chars "G28", chars "M105")
  /\ read_line 1023 (chars "G28") = None
  /\ read_line 3 (chars "G28" ++ chars "M105")
     = Some (chars "G28", chars "M105").
Proof.
  assert (Hline : Forall (fun c => c <> LF) (chars "G28"))
    by (repeat constructor; discriminate).
  destruct (read_line_frames 1023 (chars "G28") (chars "M105") Hline)
    as (Hshort & _ & _).
  destruct (read_line_frames 3 (chars "G28") (chars "M105") Hline)
    as (_ & Hfull & _).
  assert (Hlen : (length (chars "G28") < 1023)%nat) by (cbn; lia).
  split; [exact Hline|].
  split; [exact (proj1 (Hshort Hlen))|].
  split; [exact (proj2 (Hshort Hlen)) | exact (Hfull eq_refl)].
Defined.

Section DaemonMore.

Context {hdr : Header}.

Variable conv : Gpx -> Tio -> string -> Z * Gpx * Tio.

(** The flag the body of the loop leaves when no overflow is pending. *)
Lemma daemon_line_flag g t line :
  (daemon_line conv false g t line).1.1.1 = (strlen line =? BUFFER_MAX - 1).
Proof.
  unfold daemon_line.
  by destruct (gpx_write_string conv g _ line) as [[rval g'] t'].
Qed.

(** X17.  The overflow test of the daemon is off by one.  A complete line
    of [BUFFER_MAX - 1] characters, read with its newline, is taken for an
    overflow: the flag is raised and the line that follows, although
    complete and short, is dropped, with nothing written and the session
    untouched.  A run of [BUFFER_MAX] characters without a newline, which
    does fill the buffer, raises no flag, and what follows it in the same
    input line is left to be read as a line of its own. *)
Theorem daemon_overflow_off_by_one g t line line2 rest :
  1 <= BUFFER_MAX ->
  Forall (fun c => c <> LF /\ c <> NUL) line ->
  Forall (fun c => c <> LF /\ c <> NUL) line2 ->
  (Z.of_nat (length line) = BUFFER_MAX - 1 ->
   Z.of_nat (length line2) < BUFFER_MAX - 1 ->
   exists g' t' out,
     daemon_turn conv false g t (line ++ LF :: line2 ++ LF :: rest)
     = Some (true, g', t', out, line2 ++ LF :: rest)
     /\ daemon_turn conv true g' t' (line2 ++ LF :: rest)
        = Some (false, set_buffer_in (string_of_list_ascii line2) g', t',
                None, rest))
  /\ (Z.of_nat (length line) = BUFFER_MAX ->
      exists g' t' out,
        daemon_turn conv false g t (line ++ rest)
        = Some (false, g', t', out, rest)).
Proof.
  intros Hmax Hline Hline2.
  assert (Hlf : Forall (fun c => c <> LF) line)
    by (eapply Forall_impl; [exact Hline|]; intros c Hc; cbn in Hc; tauto).
  assert (Hnul : Forall (fun c => c <> NUL) line)
    by (eapply Forall_impl; [exact Hline|]; intros c Hc; cbn in Hc; tauto).
  assert (Hlf2 : Forall (fun c => c <> LF) line2)
    by (eapply Forall_impl; [exact Hline2|]; intros c Hc; cbn in Hc; tauto).
  assert (Hnul2 : Forall (fun c => c <> NUL) line2)
    by (eapply Forall_impl; [exact Hline2|]; intros c Hc; cbn in Hc; tauto).
  split.
  - intros Hlen Hlen2. unfold daemon_turn.
    rewrite read_line_newline by (done || lia).
    rewrite (c_string_no_nul line Hnul). cbn [buffer_in set_buffer_in].
    pose proof (daemon_line_flag
                  (set_buffer_in (string_of_list_ascii line) g) t
                  (string_of_list_ascii line)) as Hflag.
    rewrite strlen_string_of_list_ascii, Hlen, Z.eqb_refl in Hflag.
    destruct (daemon_line conv false _ t (string_of_list_ascii line))
      as [[[fl g'] t'] out].
    cbn in Hflag. subst fl. exists g', t', out. split; [done|].
    rewrite read_line_newline by (done || lia).
    rewrite (c_string_no_nul line2 Hnul2). cbn [buffer_in set_buffer_in].
    unfold daemon_line. rewrite strlen_string_of_list_ascii.
    destruct (Z.eqb_spec (Z.of_nat (length line2)) (BUFFER_MAX - 1)); [lia|].
    done.
  - intros Hlen. unfold daemon_turn.
    rewrite read_line_full by (done || lia).
    rewrite (c_string_no_nul line Hnul). cbn [buffer_in set_buffer_in].
    pose proof (daemon_line_flag
                  (set_buffer_in (string_of_list_ascii line) g) t
                  (string_of_list_ascii line)) as Hflag.
    rewrite strlen_string_of_list_ascii, Hlen in Hflag.
    destruct (Z.eqb_spec BUFFER_MAX (BUFFER_MAX - 1)); [lia|].
    destruct (daemon_line conv false _ t (string_of_list_ascii line))
      as [[[fl g'] t'] out].
    cbn in Hflag. subst fl. by exists g', t', out.
Qed.

Hypothesis Hhdr : header_ok = true.

(** The bytes passed to [write] are the text of the response when the
    buffer is terminated under the cursor. *)
Lemma c_string_text t :
  buffer_ok t -> peek t (cur t) = NUL ->
  Forall (fun c => c <> NUL) (text t) ->
  c_string (translation t) = text t.
Proof.
  intros [Hlen Hcur] Hnul Htext.
  rewrite <- (take_drop (Z.to_nat (cur t)) (translation t)) at 1.
  fold (text t).
  unfold peek in Hnul.
  destruct (translation t !! Z.to_nat (cur t)) as [c|] eqn:E.
  - cbn in Hnul. subst c.
    rewrite (drop_S _ _ _ E). by apply c_string_app_nul.
  - apply lookup_ge_None in E. lia.
Qed.

(** The state in which the body of the loop hands a line to the parser. *)
Lemma daemon_line_entry g t line :
  (0 < length (translation t))%nat ->
  exists t1,
    cur t1 = 0 /\ c_string (translation t1) = []
    /\ length (translation t1) = length (translation t)
    /\ waiting t1 = Z.clearbit (waiting t) (wbit waitForBuffer)
    /\ okPending (flag t1) = negb (nonzero (waiting t1))
    /\ sio t1 = sio t /\ sttb t1 = sttb t /\ sec t1 = sec t
    /\ daemon_line conv false g t line
       = (let '(rval, g', t') := gpx_write_string conv g t1 line in
          let t' := tio_printf (set_okPending false t') nl in
          (strlen line =? BUFFER_MAX - 1, g', t',
           Some (c_string (translation t')))).
Proof.
  intros Hlen. unfold daemon_line.
  set (tw := if _ && _ then _ else t).
  assert (Hw : length (translation tw) = length (translation t)
               /\ waiting tw = waiting t /\ sio tw = sio t
               /\ sttb tw = sttb t /\ sec tw = sec t).
  { subst tw. destruct (_ && _); [|done].
    match goal with
    | |- context [tio_printf t ?s] =>
        destruct (tio_printf_frame t s) as (_ & -> & -> & -> & ->);
        split; [|done];
        unfold tio_printf, tio_vprintf; destruct (_ <=? _); [done|];
        cbn [snd]; destruct (0 <? _); cbn; by rewrite vsnprintf_length
    end. }
  destruct Hw as (Hlw & Hww & Hsw & Htw & Hcw).
  clearbody tw.
  eexists. split_and!; [| | | | | | | |reflexivity]; cbn; try done.
  - destruct (translation tw) as [|c l]; [cbn in *; lia|done].
  - by rewrite length_insert.
  - by rewrite Hww.
Qed.

(** X18.  The overflow warning never reaches the host.  Whatever the body
    of the loop finds in the session, and whether or not it has just
    printed the warning, the parser gets the line with an empty response
    buffer (cursor 0, NUL in front), [waitForBuffer] clear, the other wait
    flags as they were, and an ok owed exactly when no wait flag is left;
    what is written upstream is the response after the parser and the
    finalizer, plus a newline. *)
Theorem daemon_line_starts_empty g t line :
  (0 < length (translation t))%nat ->
  exists t1,
    cur t1 = 0 /\ c_string (translation t1) = []
    /\ waitflag waitForBuffer t1 = false
    /\ (forall f, f <> waitForBuffer -> waitflag f t1 = waitflag f t)
    /\ okPending (flag t1) = negb (nonzero (waiting t1))
    /\ sio t1 = sio t /\ sttb t1 = sttb t /\ sec t1 = sec t
    /\ daemon_line conv false g t line
       = (let '(rval, g', t') := gpx_write_string conv g t1 line in
          let t' := tio_printf (set_okPending false t') nl in
          (strlen line =? BUFFER_MAX - 1, g', t',
           Some (c_string (translation t')))).
Proof.
  intros Hlen.
  destruct (daemon_line_entry g t line Hlen)
    as (t1 & H1 & H2 & _ & H4 & H5 & H6 & H7 & H8 & H9).
  exists t1. split_and!; try done.
  - unfold waitflag. rewrite H4. apply Z.clearbit_eq.
  - intros f Hf. unfold waitflag. rewrite H4.
    apply Z.clearbit_neq. intros Heq. apply Hf. symmetry.
    by apply (wbit_inj Hhdr).
Qed.

(** X19.  An idle line is answered with ok.  When no wait flag other than
    [waitForBuffer] is set and the parser accepts the line without talking
    to the device or touching the session, the daemon writes exactly "ok"
    and a newline upstream, and leaves the session with no wait flag and
    no ok owed. *)
Theorem daemon_idle_line_ok g t line g' :
  length (translation t) = Z.to_nat sizeof_translation ->
  3 <= BUFFER_MAX ->
  wait_inv t ->
  (forall f, f <> waitForBuffer -> waitflag f t = false) ->
  (forall t0, conv (strncpy_in line g) t0 (buffer_in (strncpy_in line g))
              = (SUCCESS, g', t0)) ->
  exists t',
    daemon_line conv false g t line
    = (strlen line =? BUFFER_MAX - 1, leave_ended g', t',
       Some (chars ("ok" +:+ nl)))
    /\ text t' = chars ("ok" +:+ nl)
    /\ waiting t' = 0 /\ okPending (flag t') = false.
Proof.
  intros Hlen Hmax Hinv Hidle Hquiet.
  assert (Hsize : sizeof_translation = BUFFER_MAX + 1) by done.
  destruct (daemon_line_entry g t line)
    as (t1 & Hcur1 & _ & Hlen1 & Hw1 & Hok1 & _ & _ & _ & ->); [lia|].
  assert (Hzero : waiting t1 = 0).
  { rewrite Hw1. apply Z.bits_inj_0. intros i.
    destruct (Z.testbit (Z.clearbit (waiting t) (wbit waitForBuffer)) i) eqn:E;
      [|done].
    apply Z.clearbit_iff in E as [Hbit Hne].
    destruct (Hinv i Hbit) as [f ->].
    rewrite <- (Hidle f) by congruence. done. }
  rewrite Hzero in Hok1. cbn in Hok1.
  assert (Hb1 : buffer_ok t1) by (split; [congruence|lia]).
  unfold gpx_write_string, gpx_write_string_core.
  rewrite Hquiet, Hok1.
  destruct (tio_printf_fits t1 "ok" Hb1) as (Hb2 & Hcur2 & Htext2 & _).
  { change (strlen "ok") with 2. lia. }
  change (strlen "ok") with 2 in Hcur2.
  assert (Htext1 : text t1 = []) by (unfold text; by rewrite Hcur1).
  rewrite Htext1 in Htext2. cbn [app] in Htext2.
  destruct (tio_printf_frame t1 "ok") as (Hfl2 & Hw2 & _).
  set (t2 := set_okPending false (tio_printf t1 "ok")).
  assert (Hbt2 : buffer_ok t2) by exact Hb2.
  assert (Hwt2 : waiting t2 = 0) by (transitivity (waiting t1); done).
  assert (Hct2 : cur t2 = 2) by (transitivity (cur (tio_printf t1 "ok")); [done|lia]).
  assert (Htt2 : text t2 = chars "ok") by exact Htext2.
  assert (Hpeek : peek t2 (cur t2 - 1) = "k"%char).
  { pose proof (last_text t2 Hbt2) as Hl. rewrite Htt2, Hct2 in Hl.
    cbn in Hl. rewrite Hct2. by injection Hl. }
  unfold gpx_return_translation, implicit_poll.
  rewrite Z.eqb_refl, Hwt2. cbn [nonzero Z.eqb negb andb].
  unfold report_rval. rewrite Z.eqb_refl. cbn [orb].
  unfold finish_translation. cbn [nonzero Z.eqb negb andb].
  rewrite Hpeek. change (Ascii.eqb "k" LF) with false.
  rewrite andb_false_r.
  set (t3 := tio_printf (set_okPending false t2) nl).
  assert (Hbo : buffer_ok (set_okPending false t2)) by exact Hbt2.
  destruct (tio_printf_fits (set_okPending false t2) nl Hbo)
    as (Hb3 & Hcur3 & Htext3 & Hnul3).
  { change (cur (set_okPending false t2)) with (cur t2).
    change (strlen nl) with 1. lia. }
  fold t3 in Hb3, Hcur3, Htext3, Hnul3.
  change (text (set_okPending false t2)) with (text t2) in Htext3.
  rewrite Htt2 in Htext3.
  exists t3. split_and!.
  - do 2 f_equal. rewrite (c_string_text t3 Hb3 Hnul3); rewrite Htext3.
    + done.
    + repeat constructor; done.
  - by rewrite Htext3.
  - destruct (tio_printf_frame (set_okPending false t2) nl) as (_ & Hw3 & _).
    transitivity (waiting (set_okPending false t2)); [exact Hw3|done].
  - destruct (tio_printf_frame (set_okPending false t2) nl) as (Hf3 & _).
    fold t3 in Hf3. by rewrite Hf3.
Qed.

Variable start_convert : Gpx -> Gpx.
Variable sio_open : Gpx -> string -> speed_t -> bool * Z.
Variable create_daemon_port : Gpx -> string -> Z * Gpx.




End DaemonMore.

(** With [BUFFER_MAX] 1023, a line of 1022 letters raises the overflow
    flag and the "M105" that follows is dropped; 1023 letters without a
    newline raise no flag. *)
Lemma daemon_overflow_off_by_one_witness :
  (exists g' t' out,
     daemon_turn (hdr := sample_header) sample_parser false sample_gpx
       sample_tio (letters 1022 ++ LF :: chars "M105" ++ LF :: [])
     = Some (true, g', t', out, chars "M105" ++ LF :: [])
     /\ daemon_turn (hdr := sample_header) sample_parser true g' t'
          (chars "M105" ++ LF :: [])
        = Some (false, set_buffer_in "M105" g', t', None, []))
  /\ (exists g' t' out,
        daemon_turn (hdr := sample_header) sample_parser false sample_gpx
          sample_tio (letters 1023 ++ chars "M105")
        = Some (false, g', t', out, chars "M105")).
Proof.
  assert (Hmax : 1 <= BUFFER_MAX (Header := sample_header))
    by (vm_compute; congruence).
  assert (Hletter : forall n, Forall (fun c => c <> LF /\ c <> NUL) (letters n))
    by (intros n; apply Forall_replicate; split; discriminate).
  assert (Hline2 : Forall (fun c => c <> LF /\ c <> NUL) (chars "M105"))
    by (repeat constructor; discriminate).
  destruct (daemon_overflow_off_by_one (hdr := sample_header) sample_parser
              sample_gpx sample_tio (letters 1022) (chars "M105") []
              Hmax (Hletter 1022%nat) Hline2) as [Hflag _].
  destruct (daemon_overflow_off_by_one (hdr := sample_header) sample_parser
              sample_gpx sample_tio (letters 1023) (chars "M105")
              (chars "M105") Hmax (Hletter 1023%nat) Hline2) as [_ Hnone].
  split.
  - apply Hflag; vm_compute; reflexivity.
  - apply Hnone. vm_compute. reflexivity.
Defined.

(** The session waits for extruder 0 when "M105" arrives: the parser gets
    an empty buffer and no ok is owed. *)
Lemma daemon_line_starts_empty_witness :
  header_ok (hdr := sample_header) = true
  /\ exists t1,
       cur t1 = 0 /\ c_string (translation t1) = []
       /\ waitflag (hdr := sample_header) waitForExtruderA t1 = true
       /\ okPending (flag t1) = false
       /\ daemon_line (hdr := sample_header) sample_parser false sample_gpx
            waiting_tio "M105"
          = (let '(rval, g', t') :=
               gpx_write_string (hdr := sample_header) sample_parser
                 sample_gpx t1 "M105" in
             let t' := tio_printf (hdr := sample_header)
                         (set_okPending false t') nl in
             (false, g', t', Some (c_string (translation t')))).
Proof.
  assert (Hhdr : header_ok (hdr := sample_header) = true) by reflexivity.
  assert (Hlen : (0 < length (translation waiting_tio))%nat)
    by (change (length (translation waiting_tio)) with 1024%nat; lia).
  destruct (daemon_line_starts_empty (hdr := sample_header) sample_parser Hhdr
              sample_gpx waiting_tio "M105" Hlen)
    as (t1 & Hcur & Hstr & _ & Hflags & Hok & _ & _ & _ & Heq).
  split; [exact Hhdr|]. exists t1.
  assert (Hwait : waitflag (hdr := sample_header) waitForExtruderA t1 = true)
    by (rewrite Hflags by congruence; reflexivity).
  split; [exact Hcur|]. split; [exact Hstr|]. split; [exact Hwait|].
  split; [|exact Heq].
  rewrite Hok. unfold nonzero.
  destruct (Z.eqb_spec (waiting t1) 0) as [Hzero|]; [|reflexivity].
  unfold waitflag in Hwait. rewrite Hzero, Z.bits_0 in Hwait. discriminate.
Defined.

(** "G21" on the idle session: the daemon answers ok. *)
Lemma daemon_idle_line_ok_witness :
  wait_inv (hdr := sample_header) sample_tio
  /\ (daemon_line (hdr := sample_header) sample_parser false sample_gpx
        sample_tio "G21").2 = Some (chars ("ok" +:+ nl)).
Proof.
  assert (Hmax : 3 <= BUFFER_MAX (Header := sample_header))
    by (vm_compute; congruence).
  assert (Hinv : wait_inv (hdr := sample_header) sample_tio).
  { intros i Hi. change (waiting sample_tio) with 0 in Hi.
    rewrite Z.bits_0 in Hi. discriminate. }
  assert (Hidle : forall f, f <> waitForBuffer ->
                    waitflag (hdr := sample_header) f sample_tio = false)
    by (intros f _; destruct f; reflexivity).
  destruct (daemon_idle_line_ok (hdr := sample_header) sample_parser sample_gpx
              sample_tio "G21"
              (strncpy_in (hdr := sample_header) "G21" sample_gpx)
              eq_refl Hmax Hinv Hidle (fun t0 => eq_refl))
    as (t' & Heq & _).
  split; [exact Hinv|]. rewrite Heq. reflexivity.
Defined.


(** ** Opening and closing the session, and the commands that start a wait *)

Section SessionMore.

Context {hdr : Header}.

Hypothesis Hhdr : header_ok = true.

(** X21.  [gpx_connect] and the session.  Whatever the outcome, the wait
    flags, the session flags, the deadline and the string table are left as
    they were.  With speed [B0] nothing at all changes; when the port does
    not open only the port descriptor changes; otherwise the counters are
    zeroed, the connection flags are set and the response is replaced by
    the banner "start" and a newline, whatever the buffer held. *)
Theorem gpx_connect_outcomes sc so g t printer_port speed :
  let r := gpx_connect sc so g t printer_port speed in
  (waiting r.2 = waiting t /\ flag r.2 = flag t /\ sec r.2 = sec t
   /\ sttb r.2 = sttb t)
  /\ (is_B0 speed = true -> r = (ESIOBADBAUD, g, t))
  /\ (is_B0 speed = false -> (so g printer_port speed).1 = false ->
      r = (EOSERROR, g,
           set_sio (set_port (so g printer_port speed).2 (sio t)) t))
  /\ (is_B0 speed = false -> (so g printer_port speed).1 = true ->
      r.1.1 = SUCCESS
      /\ sioConnected r.1.2 = true /\ framingEnabled r.1.2 = true
      /\ port (sio r.2) = (so g printer_port speed).2
      /\ bytes_in (sio r.2) = 0 /\ bytes_out (sio r.2) = 0
      /\ (length (translation t) = Z.to_nat sizeof_translation ->
          6 <= BUFFER_MAX ->
          text r.2 = chars ("start" +:+ nl)
          /\ c_string (translation r.2) = chars ("start" +:+ nl))).
Proof.
  intros r. subst r. unfold gpx_connect.
  destruct (is_B0 speed); [split_and!; done|].
  destruct (so g printer_port speed) as [opened fd]. cbn [fst snd].
  destruct opened; cbn [negb].
  2: { split_and!; done. }
  set (t1 := set_sio _ (set_sio _ t)).
  destruct (tio_printf_frame (set_cur 0 t1) ("start" +:+ nl))
    as (Hf & Hw & Hs & Hc & Ht).
  cbn [fst snd]. split_and!; try done.
  intros _ _. rewrite Hs. split_and!; try done.
  intros Hlen Hmax.
  assert (Hok : buffer_ok (set_cur 0 t1)).
  { split; [exact Hlen|]. cbn [cur set_cur]. unfold sizeof_translation. lia. }
  destruct (tio_printf_fits (set_cur 0 t1) ("start" +:+ nl) Hok)
    as (Hok' & _ & Htext & Hnul).
  { cbn [cur set_cur]. change (strlen ("start" +:+ nl)) with 6.
    unfold sizeof_translation. lia. }
  assert (Htext' : text (tio_printf (set_cur 0 t1) ("start" +:+ nl))
                   = chars ("start" +:+ nl)) by (by rewrite Htext).
  split; [done|].
  rewrite (c_string_text _ Hok' Hnul); rewrite Htext'; [done|].
  repeat constructor; done.
Qed.

(** X22.  [tio_cleanup] leaves a closed, idle session and is idempotent on
    it: no wait flag and no session flag is set, the deadline is zero, the
    port is closed, and the table is empty whenever its count was not
    negative.  The response buffer is not touched.  A second clean-up,
    whatever the allocator does, changes nothing. *)
Theorem tio_cleanup_session sm mem mem' g g2 t :
  let t' := (tio_cleanup sm mem g t).2 in
  waiting t' = 0 /\ (forall f, waitflag f t' = false)
  /\ flag t' = no_flags /\ sec t' = 0 /\ port (sio t') <= -1
  /\ (0 <= cs (sttb t) -> cs (sttb t') = 0)
  /\ translation t' = translation t /\ cur t' = cur t
  /\ (tio_cleanup sm mem' g2 t').2 = t'.
Proof.
  intros t'. subst t'. unfold tio_cleanup. cbn [snd].
  set (t1 := if -1 <? port (sio t) then _ else t).
  assert (H1 : port (sio t1) <= -1 /\ sttb t1 = sttb t
               /\ translation t1 = translation t /\ cur t1 = cur t).
  { subst t1. destruct (Z.ltb_spec (-1) (port (sio t))); [done|].
    split_and!; done || lia. }
  destruct H1 as (Hport & Hst1 & Htr1 & Hcu1).
  clearbody t1.
  set (t2 := if 0 <? cs (sttb t1) then _ else t1).
  assert (H2 : port (sio t2) <= -1 /\ cs (sttb t2) <= 0
               /\ (0 <= cs (sttb t) -> cs (sttb t2) = 0)
               /\ translation t2 = translation t /\ cur t2 = cur t).
  { subst t2. rewrite Hst1.
    destruct (Z.ltb_spec 0 (cs (sttb t))).
    - unfold sttb_init. destruct (malloc_ok mem); cbn; split_and!; done || lia.
    - rewrite ?Hst1. split_and!; done || lia. }
  destruct H2 as (Hport2 & Hcs2 & Hcs2' & Htr2 & Hcu2).
  clearbody t2.
  split_and!; try done.
  - intros f. unfold waitflag. cbn. apply Z.bits_0.
  - cbn [sio set_flag set_waiting set_sec port cs sttb].
    destruct (Z.ltb_spec (-1) (port (sio t2))); [lia|].
    change (cs (sttb (set_flag no_flags (set_waiting 0 (set_sec 0 t2)))))
      with (cs (sttb t2)).
    destruct (Z.ltb_spec 0 (cs (sttb t2))); [lia|]. done.
Qed.

(** X23.  Where plain [char] is unsigned, a command that starts a wait
    (131, 132, 133, 135, 141, 144, 148, 149), once the device has accepted
    it, empties the response and leaves the session waiting:
    [waitForButton] after 148 and 149, [waitForEmptyQueue] after the
    others, together with the extruder named by the packet after 135, the
    platform after 141 and the position request after 131, 132 and 144;
    [waitForBuffer] is clear. *)
Theorem wait_command_starts_wait ph gep mem now g t buffer length b g' sio' :
  char_is_signed = false ->
  length <> 0 ->
  buffer !! Z.to_nat COMMAND_OFFSET = Some b ->
  In b [131; 132; 133; 135; 141; 144; 148; 149] ->
  cancelPending (flag t) = false ->
  ph g (sio (flush_okPending t)) buffer length = (SUCCESS, g', sio') ->
  let r := translate_handler ph gep mem now g t buffer length in
  r.1 = (SUCCESS, g') /\ cur r.2 = 0 /\ text r.2 = []
  /\ waiting r.2 <> 0 /\ waitflag waitForBuffer r.2 = false
  /\ waitflag (if (b =? 148) || (b =? 149)
               then waitForButton else waitForEmptyQueue) r.2 = true
  /\ (b = 135 ->
      waitflag (if packet_byte buffer EXTRUDER_ID_OFFSET =? 0
                then waitForExtruderA else waitForExtruderB) r.2 = true)
  /\ (b = 141 -> waitflag waitForPlatform r.2 = true)
  /\ (b = 131 \/ b = 132 \/ b = 144 -> getPosWhenReady (flag r.2) = true).
Proof.
  intros Hsign Hlen Hb Hin Hcancel Hph r. subst r.
  destruct (flush_okPending_frame t) as (_ & _ & _ & _ & _ & _ & Hc & _).
  assert (Hcmd : packet_byte buffer COMMAND_OFFSET = b).
  { unfold packet_byte. by rewrite Hb, Hsign. }
  assert (Hnz : forall f u, waitflag f u = true -> waiting u <> 0).
  { intros f u Hf Hz. unfold waitflag in Hf. rewrite Hz, Z.bits_0 in Hf. done. }
  unfold translate_handler.
  destruct (Z.eqb_spec length 0); [done|].
  rewrite Hc, Hcancel, Hph, Z.eqb_refl, Hcmd. cbn [andb negb].
  set (e := packet_byte buffer EXTRUDER_ID_OFFSET).
  set (t0 := set_sio sio' (flush_okPending t)).
  clearbody t0 e.
  cbn in Hin.
  destruct Hin as [<-|[<-|[<-|[<-|[<-|[<-|[<-|[<-|[]]]]]]]]].
  all: cbn [Z.eqb Pos.eqb orb andb negb].
  all: match goal with
       | |- context [has_mask ?b 128] => change (has_mask b 128) with true
       end.
  all: cbn iota; try destruct (e =? 0); cbn [fst snd].
  all: split; [done|]; split; [done|]; split; [done|].
  all: assert (Hpos : forall f b' u,
                 waitflag f (set_getPosWhenReady b' u) = waitflag f u) by done.
  all: assert (Hreset : forall f u, waitflag f (tio_reset u) = waitflag f u)
         by done.
  all: split;
       [first [ apply (Hnz waitForEmptyQueue);
                rewrite ?Hpos, !(waitflag_set Hhdr); done
              | apply (Hnz waitForButton);
                rewrite ?Hpos, !(waitflag_set Hhdr); done ]|].
  all: repeat (rewrite Hpos || rewrite Hreset || rewrite (waitflag_set Hhdr)).
  all: split_and!; try done; try lia; intros; try lia; done.
Qed.

(** X24.  Where plain [char] is signed, the command byte of a queueable
    command (128 to 255) is sign-extended when it is stored in the unsigned
    [command], so no label of the switch matches it: once the device has
    accepted the packet the translator clears [waitForBuffer] and does
    nothing else.  In particular 135, 141, 133 and the others start no
    wait. *)
Theorem signed_char_hides_queueable_cases
    ph gep mem now g t buffer length b g' sio' :
  char_is_signed = true ->
  length <> 0 ->
  buffer !! Z.to_nat COMMAND_OFFSET = Some b -> 128 <= b < 256 ->
  cancelPending (flag t) = false ->
  ph g (sio (flush_okPending t)) buffer length = (SUCCESS, g', sio') ->
  translate_handler ph gep mem now g t buffer length
  = (SUCCESS, g',
     set_waitflag waitForBuffer false (set_sio sio' (flush_okPending t))).
Proof.
  intros Hsign Hlen Hb Hrange Hcancel Hph.
  destruct (flush_okPending_frame t) as (_ & _ & _ & _ & _ & _ & Hc & _).
  pose proof (queueable_command buffer b Hb Hrange) as Hmask.
  assert (Hcmd : packet_byte buffer COMMAND_OFFSET = b - 256 + 2 ^ 32).
  { unfold packet_byte. rewrite Hb, Hsign.
    change (default 0 (Some b)) with b.
    by destruct (Z.leb_spec 128 b); [|lia]. }
  unfold translate_handler.
  destruct (Z.eqb_spec length 0); [done|].
  rewrite Hc, Hcancel, Hph, Z.eqb_refl, Hmask. cbn [andb negb].
  set (c := packet_byte buffer COMMAND_OFFSET) in *.
  assert (Hbig : 2 ^ 31 <= c) by (rewrite Hcmd; lia).
  clearbody c.
  repeat match goal with
         | |- context [c =? ?k] =>
             destruct (Z.eqb_spec c k) as [Hk|_]; [exfalso; lia|]
         end.
  done.
Qed.

(** X25.  After the start of an SD print the first status reports are
    held back.  Once the device has accepted "playback capture" (command
    16) at time [now] and has not answered "file not found", the response
    is empty, [waitForStart] is set and the deadline is [now + 3].  A build
    status (command 24, reply [sio2]) that arrives later but before the
    deadline, with a status other than RUNNING, is not reported: the
    response, the deadline and every wait flag but [waitForBotCancel] stay
    as they are, and [waitForBotCancel], if it was set, is cleared unless
    the status is PAUSED or CANCELLING; with that flag clear the session
    is left exactly as it is.  The status RUNNING ends the wait for the
    start and clears the deadline at any time. *)
Theorem sd_start_holds_back_status
    ph gep mem now now' g g2 t buffer length g' sio' sio2 :
  length <> 0 ->
  buffer !! Z.to_nat COMMAND_OFFSET = Some 16 ->
  ph g (sio (flush_okPending t)) buffer length = (SUCCESS, g', sio') ->
  sd_status (response sio') <> 7 ->
  0 <= now ->
  let t16 := (translate_handler ph gep mem now g t buffer length).2 in
  let t24 := set_sio sio2 t16 in
  let status := build_status (response sio2) in
  let t' := translate_build_statistics now' g2 t24 in
  cur t16 = 0 /\ text t16 = [] /\ sec t16 = now + 3
  /\ waitflag waitForStart t16 = true
  /\ (now <= now' < now + 3 -> status <> BUILD_RUNNING ->
      t' = (if waitflag waitForBotCancel t16
               && negb ((status =? BUILD_PAUSED)
                        || (status =? BUILD_CANCELLING))
            then set_waitflag waitForBotCancel false t24 else t24)
      /\ cur t' = 0 /\ translation t' = translation t16
      /\ sec t' = now + 3 /\ sio t' = sio2 /\ flag t' = flag t16
      /\ (forall f, f <> waitForBotCancel -> waitflag f t' = waitflag f t16)
      /\ (waitflag waitForBotCancel t16 = false -> t' = t24))
  /\ (status = BUILD_RUNNING ->
      waitflag waitForStart t' = false /\ sec t' = 0).
Proof.
  intros Hlen Hb Hph Hfound Hnow t16 t24 status t'.
  assert (Hcmd : packet_byte buffer COMMAND_OFFSET = 16).
  { unfold packet_byte. rewrite Hb. cbn. by rewrite andb_false_r. }
  set (t0 := set_sio sio' (flush_okPending t)).
  assert (H16 : t16 = set_waitflag waitForStart true
                        (set_sec (now + 3) (tio_reset t0))).
  { subst t16. unfold translate_handler.
    destruct (Z.eqb_spec length 0); [done|].
    rewrite Hcmd. change (has_mask 16 128) with false.
    rewrite andb_false_r, Hph, Z.eqb_refl.
    cbn [negb Z.eqb Pos.eqb orb snd sio set_sio].
    destruct (Z.eqb_spec (sd_status (response sio')) 7); [done|]. done. }
  assert (Hstart : waitflag waitForStart t24 = true).
  { change (waitflag waitForStart t16 = true).
    rewrite H16, (waitflag_set Hhdr). done. }
  assert (Hsec : sec t24 = now + 3) by (subst t24; by rewrite H16).
  assert (Hcur : cur t16 = 0) by (by rewrite H16).
  assert (Hst : build_status (response (sio t24)) = status) by done.
  split; [done|]. split; [by rewrite H16|].
  split; [done|]. split; [done|]. split.
  - intros Hearly Hstatus.
    assert (Hflags : forall f u, waitflag f (set_sio sio2 u) = waitflag f u)
      by done.
    assert (Heq : t' = (if waitflag waitForBotCancel t16
                           && negb ((status =? BUILD_PAUSED)
                                    || (status =? BUILD_CANCELLING))
                        then set_waitflag waitForBotCancel false t24
                        else t24)).
    { subst t'. change (waitflag waitForBotCancel t16)
        with (waitflag waitForBotCancel t24).
      clearbody t24. unfold translate_build_statistics. rewrite Hst.
      unfold nonzero, BUILD_RUNNING, BUILD_PAUSED, BUILD_CANCELLING in *.
      destruct (Z.eqb_spec status 1); [done|]. cbn [orb].
      set (tb := if waitflag waitForBotCancel t24 then _ else t24).
      assert (Htb : tb = if waitflag waitForBotCancel t24
                            && negb ((status =? 3) || (status =? 5))
                         then set_waitflag waitForBotCancel false t24
                         else t24).
      { subst tb. destruct (waitflag waitForBotCancel t24); [|done].
        by destruct (_ || _). }
      assert (Hkeep : waitflag waitForStart tb = true /\ sec tb = now + 3).
      { rewrite Htb. destruct (_ && _); [|done].
        rewrite (waitflag_set Hhdr). done. }
      destruct Hkeep as [Hs1 Hs2]. rewrite <- Htb. clearbody tb.
      rewrite Hs1, Hs2. cbn [orb negb andb].
      destruct (Z.eqb_spec (now + 3) 0); [lia|].
      destruct (Z.ltb_spec now' (now + 3)); [|lia].
      destruct (Z.ltb_spec 4 (now + 3 - now')); [lia|]. done. }
    split; [exact Heq|]. rewrite Heq.
    destruct (waitflag waitForBotCancel t16) eqn:Hbot; cbn [andb].
    2: { split_and!; done. }
    destruct (negb _).
    + split_and!; try done.
      intros f Hf. rewrite (waitflag_set Hhdr), same_flag_ne by done. done.
    + split_and!; done.
  - intros Hrun. subst t'. clearbody t24. unfold translate_build_statistics.
    rewrite Hst, Hrun. unfold BUILD_RUNNING, BUILD_PAUSED, BUILD_CANCELLING.
    cbn [Z.eqb Pos.eqb orb andb negb].
    replace (if waitflag waitForBotCancel t24 then t24 else t24) with t24
      by (by destruct (waitflag waitForBotCancel t24)).
    rewrite Hstart. cbn [orb]. rewrite andb_false_r. cbn [andb].
    unfold report_build_status, BUILD_NONE, BUILD_RUNNING.
    cbn [Z.eqb Pos.eqb].
    match goal with
    | |- context [tio_printf ?a ?b] =>
        destruct (tio_printf_frame a b) as (_ & Hw & _ & Hs & _)
    end.
    split.
    + unfold waitflag. rewrite Hw.
      change (Z.testbit (waiting ?u) (wbit ?f)) with (waitflag f u).
      by rewrite (waitflag_set Hhdr).
    + by rewrite Hs.
Qed.

End SessionMore.

(** The port opens at 115200 baud: whatever the response held, it is the
    banner now, and the wait for extruder 0 is still on. *)
Lemma gpx_connect_outcomes_witness :
  let r := gpx_connect (hdr := sample_header) sample_start_convert
             sample_sio_open sample_gpx
             (tio_printf (hdr := sample_header) waiting_tio "ok")
             "/dev/ttyACM0" B115200 in
  text r.2 = chars ("start" +:+ nl)
  /\ port (sio r.2) = 3
  /\ waiting r.2 = waiting waiting_tio.
Proof.
  intros r.
  destruct (gpx_connect_outcomes (hdr := sample_header) sample_start_convert
              sample_sio_open sample_gpx
              (tio_printf (hdr := sample_header) waiting_tio "ok")
              "/dev/ttyACM0" B115200) as ((Hwait & _) & _ & _ & Hopen).
  destruct (Hopen eq_refl eq_refl) as (_ & _ & _ & Hport & _ & _ & Hbanner).
  destruct Hbanner as [Htext _]; [reflexivity | vm_compute; congruence |].
  split; [exact Htext|]. split; [exact Hport | exact Hwait].
Defined.

(** Clean-up of the session that waits for extruder 0 and caches a file
    name: idle, empty table, and a second clean-up changes nothing. *)
Lemma tio_cleanup_session_witness :
  let t := set_sttb sample_table waiting_tio in
  let t' := (tio_cleanup (hdr := sample_header) sample_set_machine heap_fine
               sample_gpx t).2 in
  0 <= cs (sttb t)
  /\ waiting t' = 0 /\ cs (sttb t') = 0
  /\ (tio_cleanup (hdr := sample_header) sample_set_machine heap_fine
        sample_gpx t').2 = t'.
Proof.
  intros t t'.
  assert (Hcs : 0 <= cs (sttb t)) by (vm_compute; congruence).
  destruct (tio_cleanup_session (hdr := sample_header) sample_set_machine
              heap_fine heap_fine sample_gpx sample_gpx t)
    as (Hwait & _ & _ & _ & _ & Hempty & _ & _ & Hagain).
  split; [exact Hcs|]. split; [exact Hwait|].
  split; [exact (Hempty Hcs) | exact Hagain].
Defined.

(** "Wait for platform" (141) accepted by the device, [char] unsigned. *)
Lemma wait_command_starts_wait_witness :
  let r := translate_handler (hdr := sample_header)
             (sample_port_handler sample_response) no_position heap_fine 0
             sample_gpx sample_tio (packet 141 0) 5 in
  header_ok (hdr := sample_header) = true
  /\ char_is_signed (Header := sample_header) = false
  /\ waiting r.2 <> 0
  /\ waitflag (hdr := sample_header) waitForPlatform r.2 = true
  /\ waitflag (hdr := sample_header) waitForEmptyQueue r.2 = true.
Proof.
  intros r.
  assert (Hhdr : header_ok (hdr := sample_header) = true) by reflexivity.
  assert (Hlen : 5 <> 0) by congruence.
  assert (Hin : In 141 [131; 132; 133; 135; 141; 144; 148; 149])
    by (cbn; tauto).
  destruct (wait_command_starts_wait (hdr := sample_header) Hhdr
              (sample_port_handler sample_response) no_position heap_fine 0
              sample_gpx sample_tio (packet 141 0) 5 141 sample_gpx
              (set_response sample_response
                 (sio (flush_okPending (hdr := sample_header) sample_tio)))
              eq_refl Hlen eq_refl Hin eq_refl eq_refl)
    as (_ & _ & _ & Hnz & _ & Hqueue & _ & Hplat & _).
  split; [exact Hhdr|]. split; [reflexivity|]. split; [exact Hnz|].
  split; [exact (Hplat eq_refl) | exact Hqueue].
Defined.

(** The same packet where [char] is signed: no wait starts. *)
Lemma signed_char_hides_queueable_cases_witness :
  let t := (tio_initialize (hdr := signed_header) heap_fine signed_gpx
              (tio_zero (hdr := signed_header))).2 in
  let r := translate_handler (hdr := signed_header) signed_port_handler
             (fun g t => (g, t)) heap_fine 0 signed_gpx t (packet 141 0) 5 in
  char_is_signed (Header := signed_header) = true
  /\ r.1.1 = 0 /\ waiting r.2 = 0.
Proof.
  intros t r.
  assert (Hlen : 5 <> 0) by congruence.
  assert (Hrange : 128 <= 141 < 256) by (split; vm_compute; congruence).
  pose proof (signed_char_hides_queueable_cases (hdr := signed_header)
                signed_port_handler (fun g t => (g, t)) heap_fine 0 signed_gpx
                t (packet 141 0) 5 141 signed_gpx
                (set_response sample_response
                   (sio (flush_okPending (hdr := signed_header) t)))
                eq_refl Hlen eq_refl Hrange eq_refl eq_refl) as Heq.
  fold r in Heq.
  split; [reflexivity|]. rewrite Heq. split; reflexivity.
Defined.

(** The print is started at time 97 and a status NONE arrives at time 98.
    On the idle session nothing changes; when the print was started after
    an abort that the device has not confirmed, the status ends the wait
    for the confirmation and the wait for the start goes on. *)
Lemma sd_start_holds_back_status_witness :
  let t24 := set_sio (set_response (status_reply BUILD_NONE) (sio started_tio))
               started_tio in
  let a16 := (translate_handler (hdr := sample_header)
                (sample_port_handler sample_response) no_position heap_fine
                97 sample_gpx aborting_tio (packet 16 0) 5).2 in
  let a24 := set_sio (set_response (status_reply BUILD_NONE) (sio a16)) a16 in
  header_ok (hdr := sample_header) = true
  /\ sec started_tio = 100
  /\ waitflag (hdr := sample_header) waitForStart started_tio = true
  /\ translate_build_statistics (hdr := sample_header) 98 sample_gpx t24 = t24
  /\ waitflag (hdr := sample_header) waitForBotCancel a16 = true
  /\ translate_build_statistics (hdr := sample_header) 98 sample_gpx a24
     = set_waitflag (hdr := sample_header) waitForBotCancel false a24
  /\ waitflag (hdr := sample_header) waitForStart
       (translate_build_statistics (hdr := sample_header) 98 sample_gpx a24)
     = true.
Proof.
  cbv zeta.
  assert (Hhdr : header_ok (hdr := sample_header) = true) by reflexivity.
  assert (Hlen : 5 <> 0) by congruence.
  assert (Hfound : forall t,
            sd_status (response
              (set_response sample_response
                 (sio (flush_okPending (hdr := sample_header) t)))) <> 7)
    by (intros t; vm_compute; congruence).
  assert (Hnow : 0 <= 97) by (vm_compute; congruence).
  assert (Hearly : 97 <= 98 < 97 + 3) by (split; vm_compute; congruence).
  assert (Hstatus : build_status
                      (response (set_response (status_reply BUILD_NONE)
                                   (sio started_tio))) <> BUILD_RUNNING)
    by (vm_compute; congruence).
  destruct (sd_start_holds_back_status (hdr := sample_header) Hhdr
              (sample_port_handler sample_response) no_position heap_fine
              97 98 sample_gpx sample_gpx sample_tio (packet 16 0) 5
              sample_gpx
              (set_response sample_response
                 (sio (flush_okPending (hdr := sample_header) sample_tio)))
              (set_response (status_reply BUILD_NONE) (sio started_tio))
              Hlen eq_refl eq_refl (Hfound sample_tio) Hnow)
    as (_ & _ & Hsec & Hstart & Hheld & _).
  destruct (Hheld Hearly Hstatus) as (_ & _ & _ & _ & _ & _ & _ & Hsame).
  destruct (sd_start_holds_back_status (hdr := sample_header) Hhdr
              (sample_port_handler sample_response) no_position heap_fine
              97 98 sample_gpx sample_gpx aborting_tio (packet 16 0) 5
              sample_gpx
              (set_response sample_response
                 (sio (flush_okPending (hdr := sample_header) aborting_tio)))
              (set_response (status_reply BUILD_NONE)
                 (sio (translate_handler (hdr := sample_header)
                         (sample_port_handler sample_response) no_position
                         heap_fine 97 sample_gpx aborting_tio (packet 16 0)
                         5).2))
              Hlen eq_refl eq_refl (Hfound aborting_tio) Hnow)
    as (_ & _ & _ & _ & Habort & _).
  destruct (Habort Hearly Hstatus) as (Heq & _ & _ & _ & _ & _ & Hothers & _).
  split; [exact Hhdr|]. split; [exact Hsec|]. split; [exact Hstart|].
  split; [exact (Hsame eq_refl)|]. split; [reflexivity|].
  split; [rewrite Heq; reflexivity|].
  rewrite Hothers by congruence. reflexivity.
Defined.
